(** * AEGIS license tokens: issuance and verification

    A shallow embedding of the license core of the AEGIS license server:

    - the issuer, [LicenseService.issue_license] (server/services.py) and
      [LicenseIssuer.issue_license] (poc/issue_license.py);
    - the verifier, [LicenseVerifier.verify_license] and
      [LicenseVerifier.get_license_info]
      (odoo/addons/aegis_client/models/license_verifier.py, the same text as
      poc/verify_license.py);
    - the request checks in front of the issuer (server/schemas.py and
      server/routers/licenses.py).

    Python values are a small universe of JSON-shaped data, exceptions are
    explicit, the wall clock is an argument, and the libraries the code calls
    (json, base64, hashlib.sha256, PyJWT) are written out as executable
    functions.  Only the Ed25519 signature itself is kept behind an
    interface. *)

From Stdlib Require Import ZArith NArith List String Ascii Bool Lia Permutation.
From Stdlib Require Import Decimal DecimalString DecimalZ DecimalPos.
Import ListNotations.

Set Warnings "-register-all".

Local Open Scope string_scope.
Local Open Scope Z_scope.

(* ================================================================== *)
(** * Python values, exceptions and results *)
(* ================================================================== *)

(** The values that can sit in a claims dictionary: what [json.loads]
    builds, restricted to integer numbers.  A [str] is a sequence of code
    points below 256; a [dict] keeps its insertion order, as Python's does,
    and holds each key once. *)
Inductive value : Type :=
| VNone
| VBool (b : bool)
| VInt (z : Z)
| VStr (s : string)
| VList (l : list value)
| VDict (d : list (string * value)).

Definition dict := list (string * value).

(** The error kinds a caller of the verifier can observe.  Each stands for
    one message of [LicenseVerificationError]:
    - [Expired]                "License has expired"
    - [InvalidSignature]       "Invalid license signature - possible tampering"
    - [Malformed ByDecodeError]  "License decode error: ..."
    - [Malformed ByInvalidToken] "Invalid license token: ..."
    - [UntrustedIssuer]        "Invalid issuer: expected ..., got ..."
    - [ProductMismatch]        "License is for module ..., not ..."
    - [VersionNotAllowed]      "Odoo version ... not allowed. ..."
    - [BindingContextMissing]  "License is bound to an instance, but instance
                                details not provided"
    - [InstanceMismatch]       "Instance fingerprint mismatch. ..."
    - [PolicyViolation]        "Demo license must have expiration" *)
Inductive malformed_by := ByDecodeError | ByInvalidToken.

Inductive reason :=
| Expired
| InvalidSignature
| Malformed (by_ : malformed_by)
| UntrustedIssuer
| ProductMismatch
| VersionNotAllowed
| BindingContextMissing
| InstanceMismatch
| PolicyViolation.

(** Python exceptions that the modelled code can raise.  The [Jwt...]
    constructors are PyJWT's classes; [ValueError] is what the issuer raises
    for invalid parameters. *)
Inductive exn :=
| ValueError
| TypeError
| AttributeError
| JwtDecodeError
| JwtInvalidSignatureError
| JwtInvalidAlgorithmError
| JwtMissingRequiredClaimError
| JwtExpiredSignatureError
| LicenseVerificationError (r : reason).

(** PyJWT's class hierarchy, as far as the [except] clauses look at it:
    InvalidSignatureError < DecodeError < InvalidTokenError, and the
    expired, algorithm and missing-claim errors are InvalidTokenErrors. *)
Definition is_ExpiredSignatureError (e : exn) : bool :=
  match e with JwtExpiredSignatureError => true | _ => false end.

Definition is_InvalidSignatureError (e : exn) : bool :=
  match e with JwtInvalidSignatureError => true | _ => false end.

Definition is_DecodeError (e : exn) : bool :=
  match e with JwtDecodeError | JwtInvalidSignatureError => true | _ => false end.

Definition is_InvalidTokenError (e : exn) : bool :=
  match e with
  | JwtDecodeError | JwtInvalidSignatureError | JwtInvalidAlgorithmError
  | JwtMissingRequiredClaimError | JwtExpiredSignatureError => true
  | _ => false
  end.

(** The outcome of running a piece of Python: a value or a raised
    exception. *)
Inductive result (A : Type) : Type :=
| Ok (a : A)
| Raise (e : exn).
Arguments Ok {A} a.
Arguments Raise {A} e.

Definition bind {A B} (m : result A) (k : A -> result B) : result B :=
  match m with
  | Ok a => k a
  | Raise e => Raise e
  end.

Notation "x <- m ;; k" := (bind m (fun x => k))
  (at level 61, m at next level, right associativity).
Notation "' pat <- m ;; k" := (bind m (fun x => match x with pat => k end))
  (at level 61, pat pattern, m at next level, right associativity).
Notation "m ;;; k" := (bind m (fun _ => k))
  (at level 61, right associativity).

(** [try: m except: h] where the handler [h] re-raises what it does not
    catch. *)
Definition try_except {A} (m : result A) (h : exn -> exn) : result A :=
  match m with
  | Ok a => Ok a
  | Raise e => Raise (h e)
  end.

(** [if c: raise e] *)
Definition raise_if (c : bool) (e : exn) : result unit :=
  if c then Raise e else Ok tt.

(* ------------------------------------------------------------------ *)
(** ** Dictionaries *)

Fixpoint dict_get (d : dict) (k : string) : option value :=
  match d with
  | [] => None
  | (k', v) :: r => if String.eqb k' k then Some v else dict_get r k
  end.

(** [k in d] *)
Definition dict_has (d : dict) (k : string) : bool :=
  match dict_get d k with Some _ => true | None => false end.

(** [d[k] = v]: an existing key keeps its place, a new one goes last. *)
Fixpoint dict_set (d : dict) (k : string) (v : value) : dict :=
  match d with
  | [] => [(k, v)]
  | (k', v') :: r =>
      if String.eqb k' k then (k', v) :: r else (k', v') :: dict_set r k v
  end.

(** [d.get(k)]: an absent key reads as [None]. *)
Definition get (d : dict) (k : string) : value :=
  match dict_get d k with Some v => v | None => VNone end.

(** [d.get(k, default)] *)
Definition get_default (d : dict) (k : string) (default : value) : value :=
  match dict_get d k with Some v => v | None => default end.

(** [v.get(k)] on an arbitrary value: only a dict has the method. *)
Definition value_get (v : value) (k : string) : result value :=
  match v with
  | VDict d => Ok (get d k)
  | _ => Raise AttributeError
  end.

(** [v.get(k, default)] on an arbitrary value. *)
Definition value_get_default (v : value) (k : string) (default : value)
  : result value :=
  match v with
  | VDict d => Ok (get_default d k default)
  | _ => Raise AttributeError
  end.

(* ------------------------------------------------------------------ *)
(** ** Truthiness, equality with a string, membership, ordering *)

(** [bool(v)] *)
Definition truthy (v : value) : bool :=
  match v with
  | VNone => false
  | VBool b => b
  | VInt z => negb (z =? 0)
  | VStr s => negb (String.eqb s EmptyString)
  | VList l => match l with [] => false | _ => true end
  | VDict d => match d with [] => false | _ => true end
  end.

(** [bool(x)] for an [Optional[str]] argument. *)
Definition truthy_str (x : option string) : bool :=
  match x with
  | None => false
  | Some s => negb (String.eqb s EmptyString)
  end.

(** [v == s] for a string [s]: no value of another type equals a str. *)
Definition eq_str (v : value) (s : string) : bool :=
  match v with
  | VStr t => String.eqb t s
  | _ => false
  end.

(** [needle in hay] for two strings: substring search. *)
Fixpoint contains (needle hay : string) : bool :=
  String.prefix needle hay
  || match hay with
     | EmptyString => false
     | String _ hay' => contains needle hay'
     end.

(** [s in v] for a string [s]: element of a list, substring of a string,
    key of a dict; the other types are not iterable. *)
Definition str_in (s : string) (v : value) : result bool :=
  match v with
  | VList l => Ok (existsb (fun x => eq_str x s) l)
  | VStr t => Ok (contains s t)
  | VDict d => Ok (dict_has d s)
  | _ => Raise TypeError
  end.

(** The number a value is, for an ordering comparison: an int, or a bool
    (Python's [bool] is a subclass of [int]). *)
Definition as_number (v : value) : result Z :=
  match v with
  | VInt z => Ok z
  | VBool b => Ok (if b then 1 else 0)
  | _ => Raise TypeError
  end.

(** [now >= v] for a clock reading [now]. *)
Definition clock_ge (now : Z) (v : value) : result bool :=
  x <- as_number v ;; Ok (x <=? now).

(* ================================================================== *)
(** * The json module *)
(* ================================================================== *)

Module Json.

Definition quote : ascii := ascii_of_nat 34.
Definition backslash : ascii := ascii_of_nat 92.

Definition hex_digit (n : N) : ascii :=
  ascii_of_N (if (n <? 10)%N then 48 + n else 87 + n)%N.

(** One character of a string literal, as [json.dumps] writes it with
    [ensure_ascii]: the two-character escapes of the encoder's table, a
    [\u00xx] escape for anything else outside space..tilde. *)
Definition escape_char (c : ascii) : string :=
  let n := N_of_ascii c in
  if (n =? 34)%N then String backslash (String quote EmptyString)
  else if (n =? 92)%N then String backslash (String backslash EmptyString)
  else if (n =? 8)%N then String backslash "b"
  else if (n =? 12)%N then String backslash "f"
  else if (n =? 10)%N then String backslash "n"
  else if (n =? 13)%N then String backslash "r"
  else if (n =? 9)%N then String backslash "t"
  else if ((n <? 32) || (126 <? n))%N then
    String backslash
      ("u00" ++ String (hex_digit (N.shiftr n 4))
                 (String (hex_digit (N.land n 15)) EmptyString))
  else String c EmptyString.

Fixpoint escape (s : string) : string :=
  match s with
  | EmptyString => EmptyString
  | String c r => escape_char c ++ escape r
  end.

Definition dumps_str (s : string) : string :=
  String quote (escape s ++ String quote EmptyString).

Definition dumps_int (z : Z) : string := NilZero.string_of_int (Z.to_int z).

Fixpoint join (sep : string) (l : list string) : string :=
  match l with
  | [] => EmptyString
  | x :: r =>
      match r with
      | [] => x
      | _ => x ++ sep ++ join sep r
      end
  end.

(** [json.dumps(v, separators=(",", ":"))]: the compact form, dict items
    in the dict's own order. *)
Fixpoint dumps (v : value) : string :=
  match v with
  | VNone => "null"
  | VBool true => "true"
  | VBool false => "false"
  | VInt z => dumps_int z
  | VStr s => dumps_str s
  | VList l => "[" ++ join "," (map dumps l) ++ "]"
  | VDict d =>
      "{" ++ join "," (map (fun kv => match kv with
                                       | (k, x) => dumps_str k ++ ":" ++ dumps x
                                       end) d) ++ "}"
  end.

(** [json.dumps(d, separators=(",", ":"), sort_keys=True)] is [dumps] of
    the dict with its keys put in order; the one dict the code sorts is the
    token header, whose three keys are written in order below. *)

(* -- reading -- *)

Definition hex_value (c : ascii) : option N :=
  let n := N_of_ascii c in
  if ((48 <=? n) && (n <=? 57))%N then Some (n - 48)%N
  else if ((97 <=? n) && (n <=? 102))%N then Some (n - 87)%N
  else if ((65 <=? n) && (n <=? 70))%N then Some (n - 55)%N
  else None.

(** The character a two-character escape stands for. *)
Definition unescape (e : ascii) : option ascii :=
  let n := N_of_ascii e in
  if (n =? 34)%N then Some quote
  else if (n =? 92)%N then Some backslash
  else if (n =? 47)%N then Some "/"%char
  else if (n =? 98)%N then Some (ascii_of_nat 8)
  else if (n =? 102)%N then Some (ascii_of_nat 12)
  else if (n =? 110)%N then Some (ascii_of_nat 10)
  else if (n =? 114)%N then Some (ascii_of_nat 13)
  else if (n =? 116)%N then Some (ascii_of_nat 9)
  else None.

Definition cons_char (c : ascii) (p : option (string * string))
  : option (string * string) :=
  match p with
  | Some (s, rest) => Some (String c s, rest)
  | None => None
  end.

(** The body of a string literal up to and including its closing quote.
    An escape naming a code point of 256 or more is outside this model
    and is refused, as are raw bytes outside 0x20..0x7f. *)
Fixpoint parse_chars (s : string) : option (string * string) :=
  match s with
  | EmptyString => None
  | String c r =>
      if Ascii.eqb c quote then Some (EmptyString, r)
      else if Ascii.eqb c backslash then
        match r with
        | EmptyString => None
        | String e r1 =>
            if Ascii.eqb e "u" then
              match r1 with
              | String h1 (String h2 (String h3 (String h4 r2))) =>
                  match hex_value h1, hex_value h2, hex_value h3, hex_value h4 with
                  | Some a, Some b, Some c3, Some d =>
                      if ((a =? 0) && (b =? 0))%N
                      then cons_char (ascii_of_N (16 * c3 + d)) (parse_chars r2)
                      else None
                  | _, _, _, _ => None
                  end
              | _ => None
              end
            else
              match unescape e with
              | Some c' => cons_char c' (parse_chars r1)
              | None => None
              end
        end
      else if ((32 <=? N_of_ascii c) && (N_of_ascii c <? 128))%N
      then cons_char c (parse_chars r)
      else None
  end.

Definition is_digit (c : ascii) : bool :=
  ((48 <=? N_of_ascii c) && (N_of_ascii c <=? 57))%N.

(** The longest run of digits at the head of a string. *)
Fixpoint span_digits (s : string) : string * string :=
  match s with
  | EmptyString => (EmptyString, EmptyString)
  | String c r =>
      if is_digit c
      then let (ds, rest) := span_digits r in (String c ds, rest)
      else (EmptyString, s)
  end.

Definition parse_int (s : string) : option (value * string) :=
  let (sign, body) :=
    match s with
    | String c r => if Ascii.eqb c "-" then ("-", r) else (EmptyString, s)
    | EmptyString => (EmptyString, s)
    end in
  let (ds, rest) := span_digits body in
  match NilZero.int_of_string (sign ++ ds) with
  | Some i => Some (VInt (Z.of_int i), rest)
  | None => None
  end.

Fixpoint strip_prefix (p s : string) : option string :=
  match p with
  | EmptyString => Some s
  | String a p' =>
      match s with
      | String b s' => if Ascii.eqb a b then strip_prefix p' s' else None
      | EmptyString => None
      end
  end.

Definition head_is (c : ascii) (s : string) : option string :=
  match s with
  | String b r => if Ascii.eqb b c then Some r else None
  | EmptyString => None
  end.

(** A dict from its members in document order; a repeated key keeps its
    first place and its last value, as the decoder's dict does. *)
Definition dict_of_pairs (l : list (string * value)) : dict :=
  fold_left (fun d kv => dict_set d (fst kv) (snd kv)) l [].

Fixpoint parse_value (fuel : nat) (s : string) : option (value * string) :=
  match fuel with
  | O => None
  | S f =>
      match strip_prefix "null" s with
      | Some r => Some (VNone, r)
      | None =>
      match strip_prefix "true" s with
      | Some r => Some (VBool true, r)
      | None =>
      match strip_prefix "false" s with
      | Some r => Some (VBool false, r)
      | None =>
      match head_is quote s with
      | Some r =>
          match parse_chars r with
          | Some (str, r') => Some (VStr str, r')
          | None => None
          end
      | None =>
      match head_is "[" s with
      | Some r =>
          match head_is "]" r with
          | Some r' => Some (VList [], r')
          | None =>
              match parse_elems f r with
              | Some (l, r') => Some (VList l, r')
              | None => None
              end
          end
      | None =>
      match head_is "{" s with
      | Some r =>
          match head_is "}" r with
          | Some r' => Some (VDict [], r')
          | None =>
              match parse_members f r with
              | Some (d, r') => Some (VDict (dict_of_pairs d), r')
              | None => None
              end
          end
      | None => parse_int s
      end end end end end end
  end

with parse_elems (fuel : nat) (s : string) : option (list value * string) :=
  match fuel with
  | O => None
  | S f =>
      match parse_value f s with
      | Some (v, r) =>
          match head_is "]" r with
          | Some r' => Some ([v], r')
          | None =>
              match head_is "," r with
              | Some r' =>
                  match parse_elems f r' with
                  | Some (l, r'') => Some (v :: l, r'')
                  | None => None
                  end
              | None => None
              end
          end
      | None => None
      end
  end

with parse_members (fuel : nat) (s : string)
  : option (list (string * value) * string) :=
  match fuel with
  | O => None
  | S f =>
      match head_is quote s with
      | None => None
      | Some r0 =>
      match parse_chars r0 with
      | None => None
      | Some (k, r1) =>
      match head_is ":" r1 with
      | None => None
      | Some r2 =>
      match parse_value f r2 with
      | None => None
      | Some (v, r) =>
          match head_is "}" r with
          | Some r' => Some ([(k, v)], r')
          | None =>
              match head_is "," r with
              | Some r' =>
                  match parse_members f r' with
                  | Some (d, r'') => Some ((k, v) :: d, r'')
                  | None => None
                  end
              | None => None
              end
          end
      end end end end
  end.

(** [json.loads(s)] on the compact, integer-only fragment; [None] is a
    [ValueError]. *)
Definition loads (s : string) : option value :=
  match parse_value (S (2 * String.length s)) s with
  | Some (v, EmptyString) => Some v
  | _ => None
  end.

End Json.

(* ================================================================== *)
(** * base64url, as PyJWT uses it *)
(* ================================================================== *)

Module Base64Url.

(** Six bits, the most significant first. *)
Definition sextet : Type := bool * bool * bool * bool * bool * bool.

Definition bit (b : bool) (w : N) : N := if b then w else 0%N.

Definition sextet_to_N (x : sextet) : N :=
  let '(b5, b4, b3, b2, b1, b0) := x in
  (bit b5 32 + bit b4 16 + bit b3 8 + bit b2 4 + bit b1 2 + bit b0 1)%N.

Definition sextet_of_N (n : N) : sextet :=
  (N.testbit n 5, N.testbit n 4, N.testbit n 3,
   N.testbit n 2, N.testbit n 1, N.testbit n 0).

(** The URL-safe alphabet: A-Z a-z 0-9 - _ *)
Definition char_of_sextet (x : sextet) : ascii :=
  let n := sextet_to_N x in
  ascii_of_N (if n <? 26 then 65 + n
              else if n <? 52 then 71 + n
              else if n <? 62 then n - 4
              else if n =? 62 then 45
              else 95)%N.

Definition sextet_of_char (c : ascii) : option sextet :=
  let n := N_of_ascii c in
  if ((65 <=? n) && (n <=? 90))%N then Some (sextet_of_N (n - 65))
  else if ((97 <=? n) && (n <=? 122))%N then Some (sextet_of_N (n - 71))
  else if ((48 <=? n) && (n <=? 57))%N then Some (sextet_of_N (n + 4))
  else if (n =? 45)%N then Some (sextet_of_N 62)
  else if (n =? 95)%N then Some (sextet_of_N 63)
  else None.

(** [base64.urlsafe_b64encode(s).replace(b"=", b"")] *)
Fixpoint encode (s : string) : string :=
  match s with
  | EmptyString => EmptyString
  | String (Ascii a0 a1 a2 a3 a4 a5 a6 a7) EmptyString =>
      String (char_of_sextet (a7, a6, a5, a4, a3, a2))
        (String (char_of_sextet (a1, a0, false, false, false, false))
           EmptyString)
  | String (Ascii a0 a1 a2 a3 a4 a5 a6 a7)
      (String (Ascii b0 b1 b2 b3 b4 b5 b6 b7) EmptyString) =>
      String (char_of_sextet (a7, a6, a5, a4, a3, a2))
        (String (char_of_sextet (a1, a0, b7, b6, b5, b4))
           (String (char_of_sextet (b3, b2, b1, b0, false, false))
              EmptyString))
  | String (Ascii a0 a1 a2 a3 a4 a5 a6 a7)
      (String (Ascii b0 b1 b2 b3 b4 b5 b6 b7)
         (String (Ascii c0 c1 c2 c3 c4 c5 c6 c7) r)) =>
      String (char_of_sextet (a7, a6, a5, a4, a3, a2))
        (String (char_of_sextet (a1, a0, b7, b6, b5, b4))
           (String (char_of_sextet (b3, b2, b1, b0, c7, c6))
              (String (char_of_sextet (c5, c4, c3, c2, c1, c0))
                 (encode r))))
  end.

Definition prepend (cs : string) (p : option string) : option string :=
  match p with
  | Some s => Some (cs ++ s)
  | None => None
  end.

(** PyJWT's [base64url_decode]: the padding is put back and the text is
    decoded; [None] is a decoding error.  A character outside the alphabet
    is refused here. *)
Fixpoint decode (s : string) : option string :=
  match s with
  | EmptyString => Some EmptyString
  | String _ EmptyString => None
  | String x1 (String x2 EmptyString) =>
      match sextet_of_char x1, sextet_of_char x2 with
      | Some (a7, a6, a5, a4, a3, a2), Some (a1, a0, _, _, _, _) =>
          Some (String (Ascii a0 a1 a2 a3 a4 a5 a6 a7) EmptyString)
      | _, _ => None
      end
  | String x1 (String x2 (String x3 EmptyString)) =>
      match sextet_of_char x1, sextet_of_char x2, sextet_of_char x3 with
      | Some (a7, a6, a5, a4, a3, a2), Some (a1, a0, b7, b6, b5, b4),
        Some (b3, b2, b1, b0, _, _) =>
          Some (String (Ascii a0 a1 a2 a3 a4 a5 a6 a7)
                  (String (Ascii b0 b1 b2 b3 b4 b5 b6 b7) EmptyString))
      | _, _, _ => None
      end
  | String x1 (String x2 (String x3 (String x4 r))) =>
      match sextet_of_char x1, sextet_of_char x2,
            sextet_of_char x3, sextet_of_char x4 with
      | Some (a7, a6, a5, a4, a3, a2), Some (a1, a0, b7, b6, b5, b4),
        Some (b3, b2, b1, b0, c7, c6), Some (c5, c4, c3, c2, c1, c0) =>
          prepend (String (Ascii a0 a1 a2 a3 a4 a5 a6 a7)
                     (String (Ascii b0 b1 b2 b3 b4 b5 b6 b7)
                        (String (Ascii c0 c1 c2 c3 c4 c5 c6 c7) EmptyString)))
                  (decode r)
      | _, _, _, _ => None
      end
  end.

End Base64Url.

(* ================================================================== *)
(** * hashlib.sha256 *)
(* ================================================================== *)

Module Sha256.
Local Open Scope N_scope.

Definition mask32 : N := 0xffffffff.
Definition w32 (x : N) : N := N.land x mask32.
Definition add32 (a b : N) : N := w32 (a + b).
Definition rotr (n x : N) : N :=
  N.lor (N.shiftr x n) (w32 (N.shiftl x (32 - n))).
Definition shr (n x : N) : N := N.shiftr x n.
Definition not32 (x : N) : N := N.lxor x mask32.

Definition Ch (x y z : N) : N := N.lxor (N.land x y) (N.land (not32 x) z).
Definition Maj (x y z : N) : N :=
  N.lxor (N.lxor (N.land x y) (N.land x z)) (N.land y z).
Definition bsig0 (x : N) : N :=
  N.lxor (N.lxor (rotr 2 x) (rotr 13 x)) (rotr 22 x).
Definition bsig1 (x : N) : N :=
  N.lxor (N.lxor (rotr 6 x) (rotr 11 x)) (rotr 25 x).
Definition ssig0 (x : N) : N :=
  N.lxor (N.lxor (rotr 7 x) (rotr 18 x)) (shr 3 x).
Definition ssig1 (x : N) : N :=
  N.lxor (N.lxor (rotr 17 x) (rotr 19 x)) (shr 10 x).

Definition is_prime (n : N) : bool :=
  (1 <? n)
  && forallb (fun d => negb (n mod N.of_nat d =? 0))
             (seq 2 (N.to_nat n - 2)).

(** The first sixty-four primes, 2 to 311. *)
Definition primes : list N :=
  filter is_prime (map N.of_nat (seq 2 310)).

(** The largest [r] with [r ^ k <= n], looked for by bisection between
    [lo] and [hi]. *)
Fixpoint root_search (fuel : nat) (k n lo hi : N) : N :=
  match fuel with
  | O => lo
  | S f =>
      let mid := (lo + hi) / 2 in
      if mid ^ k <=? n
      then root_search f k n mid hi
      else root_search f k n lo mid
  end.

(** The first 32 bits of the fractional part of the [k]-th root of [p]. *)
Definition frac_root (k p : N) : N :=
  root_search 48 k (p * 2 ^ (32 * k)) 0 (2 ^ 40) mod 2 ^ 32.

(** The round constants: cube roots of the first sixty-four primes. *)
Definition K : list N := Eval vm_compute in map (frac_root 3) primes.

(** The initial hash value: square roots of the first eight primes. *)
Definition H0 : list N :=
  Eval vm_compute in map (frac_root 2) (firstn 8 primes).

(** The [n] low bytes of [x], the most significant first. *)
Definition be_bytes (n : nat) (x : N) : list N :=
  map (fun i => N.land (N.shiftr x (8 * N.of_nat i)) 0xff) (List.rev (seq 0 n)).

(** The message, a one bit, zeros up to 56 modulo 64, the bit length. *)
Definition pad (msg : list N) : list N :=
  let l := List.length msg in
  let k := ((64 - ((l + 9) mod 64)) mod 64)%nat in
  (msg ++ [0x80] ++ repeat 0 k ++ be_bytes 8 (8 * N.of_nat l))%list.

Fixpoint words (fuel : nat) (bs : list N) : list N :=
  match fuel, bs with
  | S f, b0 :: b1 :: b2 :: b3 :: r =>
      (N.shiftl b0 24 + N.shiftl b1 16 + N.shiftl b2 8 + b3) :: words f r
  | _, _ => []
  end.

(** The message schedule; [acc] holds W[t-1], W[t-2], ... *)
Fixpoint extend (n : nat) (acc : list N) : list N :=
  match n with
  | O => acc
  | S n' =>
      let w := add32 (add32 (ssig1 (nth 1 acc 0)) (nth 6 acc 0))
                     (add32 (ssig0 (nth 14 acc 0)) (nth 15 acc 0)) in
      extend n' (w :: acc)
  end.

Definition schedule (block : list N) : list N :=
  List.rev (extend 48 (List.rev block)).

Definition round (st : list N) (kw : N * N) : list N :=
  match st with
  | [a; b; c; d; e; f; g; h] =>
      let t1 := add32 (add32 (add32 h (bsig1 e))
                             (add32 (Ch e f g) (fst kw))) (snd kw) in
      let t2 := add32 (bsig0 a) (Maj a b c) in
      [add32 t1 t2; a; b; c; add32 d t1; e; f; g]
  | _ => st
  end.

Definition compress (h : list N) (block : list N) : list N :=
  let st := fold_left round (combine K (schedule block)) h in
  map (fun p => add32 (fst p) (snd p)) (combine h st).

Fixpoint blocks (fuel : nat) (h : list N) (ws : list N) : list N :=
  match fuel with
  | O => h
  | S f =>
      match ws with
      | [] => h
      | _ => blocks f (compress h (firstn 16 ws)) (skipn 16 ws)
      end
  end.

Definition digest (msg : list N) : list N :=
  let p := pad msg in
  let ws := words (List.length p) p in
  flat_map (be_bytes 4) (blocks (List.length ws) H0 ws).

Fixpoint hex (bs : list N) : string :=
  match bs with
  | [] => EmptyString
  | b :: r =>
      String (Json.hex_digit (N.shiftr b 4))
        (String (Json.hex_digit (N.land b 15)) (hex r))
  end.

Definition bytes_of_string (s : string) : list N :=
  map N_of_ascii (list_ascii_of_string s).

(** [hashlib.sha256(data).hexdigest()] *)
Definition hexdigest (data : string) : string :=
  hex (digest (bytes_of_string data)).

(** [hashlib.sha256(data).digest()] *)
Definition digest_bytes (data : string) : string :=
  string_of_list_ascii (map ascii_of_N (digest (bytes_of_string data))).

End Sha256.

(** [s.encode("utf-8")] for a str of code points below 256: one byte below
    128, two bytes from there on. *)
Fixpoint utf8_encode (s : string) : string :=
  match s with
  | EmptyString => EmptyString
  | String c r =>
      let n := N_of_ascii c in
      if (n <? 128)%N then String c (utf8_encode r)
      else String (ascii_of_N (192 + N.shiftr n 6))
             (String (ascii_of_N (128 + N.land n 63)) (utf8_encode r))
  end.

(** [generate_instance_fingerprint(db_uuid, domain)], the one text of
    server/services.py, poc/issue_license.py and the verifier's
    [_generate_fingerprint]. *)
Definition generate_instance_fingerprint (db_uuid domain : string) : string :=
  let combined := utf8_encode (db_uuid ++ ":" ++ domain) in
  "sha256:" ++ Sha256.hexdigest combined.

(* ================================================================== *)
(** * datetime: the clock and the rendering of timestamps *)
(* ================================================================== *)

(** A reading of [datetime.now(timezone.utc)] is a count of whole seconds
    since the epoch: [int(now.timestamp())] drops the fraction at issuance,
    and the fraction of the verifier's reading cannot change a comparison
    with an integer claim.  [now + timedelta(days=d)] adds [86400 * d]
    seconds; the year-9999 ceiling of [datetime] is not represented. *)
Module Datetime.

Definition seconds_per_day : Z := 86400.

(** [now + timedelta(days=d)], as a timestamp. *)
Definition add_days (now d : Z) : Z := now + seconds_per_day * d.

(** Year, month and day of a count of days since 1970-01-01 in the
    proleptic Gregorian calendar. *)
Definition civil_from_days (days : Z) : Z * Z * Z :=
  let z := days + 719468 in
  let era := z / 146097 in
  let doe := z - era * 146097 in
  let yoe := (doe - doe / 1460 + doe / 36524 - doe / 146096) / 365 in
  let doy := doe - (365 * yoe + yoe / 4 - yoe / 100) in
  let mp := (5 * doy + 2) / 153 in
  let d := doy - (153 * mp + 2) / 5 + 1 in
  let m := if mp <? 10 then mp + 3 else mp - 9 in
  let y := yoe + era * 400 + (if m <=? 2 then 1 else 0) in
  (y, m, d).

Definition digit (n : Z) : ascii := ascii_of_N (48 + Z.to_N (n mod 10)).

Definition two (n : Z) : string :=
  String (digit (n / 10)) (String (digit n) EmptyString).

Definition four (n : Z) : string := two (n / 100) ++ two n.

(** 0001-01-01T00:00:00 and 9999-12-31T23:59:59, as timestamps. *)
Definition min_timestamp : Z := -62135596800.
Definition max_timestamp : Z := 253402300799.

(** [datetime.fromtimestamp(ts, tz=timezone.utc).isoformat()] for an
    integer [ts]; outside the years 1..9999 the constructor raises
    (ValueError or OverflowError, both written [ValueError] here). *)
Definition isoformat_utc (ts : Z) : result string :=
  if (min_timestamp <=? ts) && (ts <=? max_timestamp) then
    let '(y, m, d) := civil_from_days (ts / seconds_per_day) in
    let s := ts mod seconds_per_day in
    Ok (four y ++ "-" ++ two m ++ "-" ++ two d ++ "T"
        ++ two (s / 3600) ++ ":" ++ two (s / 60 mod 60) ++ ":"
        ++ two (s mod 60) ++ "+00:00")
  else Raise ValueError.

End Datetime.

(* ================================================================== *)
(** * Ed25519 keys (the cryptography package) *)
(* ================================================================== *)

(** The key objects of [cryptography.hazmat.primitives.asymmetric.ed25519].
    [verify] answers [false] where the library raises [InvalidSignature]. *)
Class Ed25519 : Type := {
  PrivateKey : Type;
  PublicKey : Type;
  public_key : PrivateKey -> PublicKey;
  sign : PrivateKey -> string -> string;
  verify : PublicKey -> string -> string -> bool
}.

(** A signature verifies under the public half of the key that made it. *)
Definition sign_verifies (E : Ed25519) : Prop :=
  forall (sk : PrivateKey) (data : string),
    verify (public_key sk) (sign sk data) data = true.

(** A stand-in scheme for running examples: the key is a byte string, its
    public half is itself, and a signature is the SHA-256 digest of the key
    followed by the data. *)
Definition keyed_digest (key data : string) : string :=
  Sha256.digest_bytes (key ++ data).

Definition DigestScheme : Ed25519 := {|
  PrivateKey := string;
  PublicKey := string;
  public_key := fun sk => sk;
  sign := keyed_digest;
  verify := fun pk signature data => String.eqb signature (keyed_digest pk data)
|}.

(* ================================================================== *)
(** * PyJWT: jwt.encode and jwt.decode *)
(* ================================================================== *)

(** The two calls as the code configures them: the EdDSA algorithm, the
    signature verified or not, the [require] list, and [verify_exp] switched
    off (the verifier tests the expiry itself).  The library's own default
    checks of registered claims ([iat] against its clock, [nbf], [aud]) are
    not represented; the statements about accepted tokens are made for clock
    readings from the issue time on, where they are met. *)
Module PyJWT.

(** The header [{"typ": "JWT", "alg": "EdDSA"}] updated with
    [headers={"kid": kid}], in the order [sort_keys] writes it. *)
Definition header (kid : string) : dict :=
  [("alg", VStr "EdDSA"); ("kid", VStr kid); ("typ", VStr "JWT")].

(** What is signed: the two encoded segments, joined by a dot.  The
    payload is serialised as the dict stands, with no reordering. *)
Definition signing_input (kid : string) (payload : dict) : string :=
  Base64Url.encode (Json.dumps (VDict (header kid)))
  ++ "." ++ Base64Url.encode (Json.dumps (VDict payload)).

(** [jwt.encode(payload, key, algorithm="EdDSA", headers={"kid": kid})] *)
Definition encode `{Ed25519} (payload : dict) (key : PrivateKey)
           (kid : string) : string :=
  let input := signing_input kid payload in
  input ++ "." ++ Base64Url.encode (sign key input).


(** [s.split(".", 1)]: around the first dot. *)
Fixpoint split_first (s : string) : option (string * string) :=
  match s with
  | EmptyString => None
  | String c r =>
      if Ascii.eqb c "."
      then Some (EmptyString, r)
      else match split_first r with
           | Some (a, b) => Some (String c a, b)
           | None => None
           end
  end.

(** [s.rsplit(".", 1)]: around the last dot. *)
Fixpoint split_last (s : string) : option (string * string) :=
  match s with
  | EmptyString => None
  | String c r =>
      match split_last r with
      | Some (a, b) => Some (String c a, b)
      | None => if Ascii.eqb c "." then Some (EmptyString, r) else None
      end
  end.

Record loaded := {
  l_payload : string;
  l_signing_input : string;
  l_header : dict;
  l_signature : string
}.

Definition or_decode_error {A} (o : option A) : result A :=
  match o with
  | Some a => Ok a
  | None => Raise JwtDecodeError
  end.

(** [PyJWS._load]: three segments, each base64url, the header a JSON
    object. *)
Definition load (jwt : string) : result loaded :=
  '(input, crypto_segment) <- or_decode_error (split_last jwt) ;;
  '(header_segment, payload_segment) <- or_decode_error (split_first input) ;;
  header_data <- or_decode_error (Base64Url.decode header_segment) ;;
  header <- or_decode_error (Json.loads header_data) ;;
  match header with
  | VDict h =>
      payload <- or_decode_error (Base64Url.decode payload_segment) ;;
      signature <- or_decode_error (Base64Url.decode crypto_segment) ;;
      Ok {| l_payload := payload; l_signing_input := input;
            l_header := h; l_signature := signature |}
  | _ => Raise JwtDecodeError
  end.

(** [PyJWS._verify_signature] with [algorithms=["EdDSA"]]. *)
Definition verify_signature `{Ed25519} (l : loaded) (key : PublicKey)
  : result unit :=
  let alg := get (l_header l) "alg" in
  raise_if (negb (eq_str alg "EdDSA")) JwtInvalidAlgorithmError ;;;
  raise_if (negb (verify key (l_signature l) (l_signing_input l)))
           JwtInvalidSignatureError.

(** [PyJWT._decode_payload]: the payload is a JSON object. *)
Definition decode_payload (l : loaded) : result dict :=
  v <- or_decode_error (Json.loads (l_payload l)) ;;
  match v with
  | VDict d => Ok d
  | _ => Raise JwtDecodeError
  end.

(** [options["require"]]: each named claim is there and is not [None]. *)
Fixpoint validate_required_claims (payload : dict) (require : list string)
  : result unit :=
  match require with
  | [] => Ok tt
  | claim :: r =>
      match get payload claim with
      | VNone => Raise JwtMissingRequiredClaimError
      | _ => validate_required_claims payload r
      end
  end.

(** [jwt.decode(token, key, algorithms=["EdDSA"],
                options={"verify_signature": True, "verify_exp": False,
                         "require": require})] *)
Definition decode `{Ed25519} (jwt : string) (key : PublicKey)
           (require : list string) : result dict :=
  l <- load jwt ;;
  verify_signature l key ;;;
  payload <- decode_payload l ;;
  validate_required_claims payload require ;;;
  Ok payload.

(** [jwt.decode(token, options={"verify_signature": False})] *)
Definition decode_unverified (jwt : string) : result dict :=
  l <- load jwt ;;
  decode_payload l.

End PyJWT.

(* ================================================================== *)
(** * The issuer *)
(* ================================================================== *)

Definition valid_types : list string := ["perpetual"; "subscription"; "demo"].

(** [x in l] for a list of strings. *)
Definition mem (x : string) (l : list string) : bool :=
  existsb (String.eqb x) l.

(** server/services.py *)
Module LicenseService.

Record t `{Ed25519} := {
  private_key : PrivateKey;
  key_id : string;
  issuer : string
}.

(** [LicenseService.issue_license]; [now] is the reading of
    [datetime.now(timezone.utc)] and [license_id] is [str(license_id)]. *)
Definition issue_license `{Ed25519} (self : t) (now : Z)
           (license_id customer_id customer_name module_name : string)
           (allowed_versions : list string) (license_type : string)
           (duration_days : option Z) (instance_fingerprint : option string)
  : result string :=
  raise_if (negb (mem license_type valid_types)) ValueError ;;;
  let issued_at := now in
  expires_at <-
    (if mem license_type ["subscription"; "demo"] then
       match duration_days with
       | None => Raise ValueError
       | Some d => Ok (Some (Datetime.add_days now d))
       end
     else Ok None) ;;
  let payload : dict :=
    [("jti", VStr license_id);
     ("iss", VStr (issuer self));
     ("iat", VInt issued_at);
     ("customer", VDict [("id", VStr customer_id);
                         ("name", VStr customer_name)]);
     ("module", VDict [("technical_name", VStr module_name);
                       ("allowed_major_versions",
                        VList (map VStr allowed_versions))]);
     ("license_type", VStr license_type)] in
  let payload :=
    match expires_at with
    | Some e => dict_set payload "exp" (VInt e)
    | None => payload
    end in
  let payload :=
    if truthy_str instance_fingerprint
    then dict_set payload "instance_fingerprint"
           (VStr (match instance_fingerprint with
                  | Some f => f
                  | None => EmptyString
                  end))
    else payload in
  Ok (PyJWT.encode payload (private_key self) (key_id self)).

(** What [verify_license] raises: an error of PyJWT, as it is, or the
    [jwt.InvalidIssuerError] of its own test. *)
Inductive verify_error :=
| PyJWTError (e : exn)
| InvalidIssuerError.

(** [LicenseService.verify_license]; [public_key] is the key the file at
    [public_key_path] holds.  The signature and the three required claims
    are checked by PyJWT, the issuer by the method; the expiry is left
    alone ([verify_exp] is off). *)
Definition verify_license `{Ed25519} (self : t) (public_key : PublicKey)
           (token : string) : dict + verify_error :=
  match PyJWT.decode token public_key ["jti"; "iss"; "iat"] with
  | Raise e => inr (PyJWTError e)
  | Ok payload =>
      if negb (eq_str (get payload "iss") (issuer self))
      then inr InvalidIssuerError
      else inl payload
  end.

End LicenseService.

(** poc/issue_license.py *)
Module LicenseIssuer.

Record t `{Ed25519} := {
  key_id : string;
  private_key : PrivateKey;
  issuer : string
}.

(** [LicenseIssuer.__init__], the key already loaded. *)
Definition init `{Ed25519} (key : PrivateKey) (key_id : string) : t :=
  {| key_id := key_id; private_key := key;
     issuer := "https://license.biz4a.com" |}.

(** [LicenseIssuer.issue_license]; [uuid4] is the value [uuid.uuid4()]
    returns, as a string. *)
Definition issue_license `{Ed25519} (self : t) (now : Z) (uuid4 : string)
           (customer_id customer_name module_name : string)
           (allowed_versions : list string) (license_type : string)
           (duration_days : option Z) (instance_fingerprint : option string)
  : result string :=
  raise_if (negb (mem license_type valid_types)) ValueError ;;;
  let license_id := uuid4 in
  let issued_at := now in
  expires_at <-
    (if mem license_type ["subscription"; "demo"] then
       match duration_days with
       | None => Raise ValueError
       | Some d => Ok (Some (Datetime.add_days now d))
       end
     else Ok None) ;;
  let payload : dict :=
    [("jti", VStr license_id);
     ("iss", VStr (issuer self));
     ("iat", VInt issued_at);
     ("customer", VDict [("id", VStr customer_id);
                         ("name", VStr customer_name)]);
     ("module", VDict [("technical_name", VStr module_name);
                       ("allowed_major_versions",
                        VList (map VStr allowed_versions))]);
     ("license_type", VStr license_type)] in
  let payload :=
    match expires_at with
    | Some e => dict_set payload "exp" (VInt e)
    | None => payload
    end in
  let payload :=
    if truthy_str instance_fingerprint
    then dict_set payload "instance_fingerprint"
           (VStr (match instance_fingerprint with
                  | Some f => f
                  | None => EmptyString
                  end))
    else payload in
  Ok (PyJWT.encode payload (private_key self) (key_id self)).

(** [LicenseIssuer.decode_license]: [jwt.decode] with no key and no list
    of algorithms.  Asked to verify, PyJWT refuses the call with a
    DecodeError before it looks at the token. *)
Definition decode_license `{Ed25519} (self : t) (token : string)
           (verify : bool) : result dict :=
  if verify then Raise JwtDecodeError
  else PyJWT.decode_unverified token.

End LicenseIssuer.

(* ================================================================== *)
(** * The verifier *)
(* ================================================================== *)

(** odoo/addons/aegis_client/models/license_verifier.py; the class of
    poc/verify_license.py has the same body. *)
Module LicenseVerifier.

Record t `{Ed25519} := {
  public_key : PublicKey;
  expected_issuer : string
}.

Definition _generate_fingerprint (db_uuid domain : string) : string :=
  generate_instance_fingerprint db_uuid domain.

(** The str held by an [Optional[str]] that has tested true. *)
Definition the_str (x : option string) : string :=
  match x with
  | Some s => s
  | None => EmptyString
  end.

(** The four [except] clauses, in their order; anything else goes
    through. *)
Definition handler (e : exn) : exn :=
  if is_ExpiredSignatureError e then LicenseVerificationError Expired
  else if is_InvalidSignatureError e then
    LicenseVerificationError InvalidSignature
  else if is_DecodeError e then
    LicenseVerificationError (Malformed ByDecodeError)
  else if is_InvalidTokenError e then
    LicenseVerificationError (Malformed ByInvalidToken)
  else e.

(** The business rules of [verify_license]: the statements of the [try]
    block that follow the decoding, on the decoded [payload]; [now] is
    the reading of [datetime.now(timezone.utc)] taken by the expiry
    test. *)
Definition business_rules `{Ed25519} (self : t) (now : Z) (payload : dict)
           (module_name odoo_version : string)
           (instance_db_uuid instance_domain : option string)
  : result dict :=
  (if dict_has payload "exp" then
     let exp_timestamp := get payload "exp" in
     expired <- clock_ge now exp_timestamp ;;
     raise_if expired JwtExpiredSignatureError
   else Ok tt) ;;;

  raise_if (negb (eq_str (get payload "iss") (expected_issuer self)))
           (LicenseVerificationError UntrustedIssuer) ;;;

  let module_info := get_default payload "module" (VDict []) in
  technical_name <- value_get module_info "technical_name" ;;
  raise_if (negb (eq_str technical_name module_name))
           (LicenseVerificationError ProductMismatch) ;;;

  allowed_versions <-
    value_get_default module_info "allowed_major_versions" (VList []) ;;
  allowed <- str_in odoo_version allowed_versions ;;
  raise_if (negb allowed) (LicenseVerificationError VersionNotAllowed) ;;;

  (if dict_has payload "instance_fingerprint" then
     raise_if (negb (truthy_str instance_db_uuid)
               || negb (truthy_str instance_domain))
              (LicenseVerificationError BindingContextMissing) ;;;
     let expected_fingerprint :=
       _generate_fingerprint (the_str instance_db_uuid)
                             (the_str instance_domain) in
     raise_if (negb (eq_str (get payload "instance_fingerprint")
                            expected_fingerprint))
              (LicenseVerificationError InstanceMismatch)
   else Ok tt) ;;;

  let license_type := get payload "license_type" in
  raise_if (eq_str license_type "demo" && negb (truthy (get payload "exp")))
           (LicenseVerificationError PolicyViolation) ;;;

  Ok payload.

(** [LicenseVerifier.verify_license]: the token is decoded, the rules
    run on its payload, and the [except] clauses translate what was
    raised. *)
Definition verify_license `{Ed25519} (self : t) (now : Z)
           (license_token module_name odoo_version : string)
           (instance_db_uuid instance_domain : option string)
  : result dict :=
  try_except
    (payload <- PyJWT.decode license_token (public_key self)
                  ["jti"; "iss"; "iat"] ;;
     business_rules self now payload module_name odoo_version
                    instance_db_uuid instance_domain)
    handler.

(** [_format_timestamp]: [None] stays [None], a number is rendered, and
    [datetime.fromtimestamp] refuses the other types. *)
Definition _format_timestamp (ts : value) : result value :=
  match ts with
  | VNone => Ok VNone
  | _ =>
      n <- as_number ts ;;
      s <- Datetime.isoformat_utc n ;;
      Ok (VStr s)
  end.

(** [LicenseVerifier.get_license_info]: every exception ends in the
    error dict (the exception's own text after the colon is left out). *)
Definition get_license_info `{Ed25519} (self : t) (license_token : string)
  : dict :=
  match
    (payload <- PyJWT.decode_unverified license_token ;;
     issued_at <- _format_timestamp (get payload "iat") ;;
     expires_at <- _format_timestamp (get payload "exp") ;;
     Ok [("license_id", get payload "jti");
         ("customer", get_default payload "customer" (VDict []));
         ("module", get_default payload "module" (VDict []));
         ("license_type", get payload "license_type");
         ("issued_at", issued_at);
         ("expires_at", expires_at);
         ("is_bound", VBool (dict_has payload "instance_fingerprint"))])
  with
  | Ok info => info
  | Raise _ => [("error", VStr "Failed to decode license")]
  end.

End LicenseVerifier.

(** poc/verify_license.py: the same class, with a constructor whose
    [expected_issuer] has a default; [None] is the argument left out. *)
Module PocVerifier.

Definition init `{Ed25519} (key : PublicKey) (expected_issuer : option string)
  : LicenseVerifier.t :=
  {| LicenseVerifier.public_key := key;
     LicenseVerifier.expected_issuer :=
       match expected_issuer with
       | Some issuer => issuer
       | None => "https://license.biz4a.com"
       end |}.

End PocVerifier.

(** poc/test_integration.py: the tally of the integration run. *)
Module TestResults.

Record t := {
  total : Z;
  passed : Z;
  failed : Z;
  errors : list (string * string)
}.

(** [TestResults.__init__] *)
Definition init : t :=
  {| total := 0; passed := 0; failed := 0; errors := [] |}.

Definition add_pass (self : t) (test_name : string) : t :=
  {| total := total self + 1;
     passed := passed self + 1;
     failed := failed self;
     errors := errors self |}.

Definition add_fail (self : t) (test_name reason : string) : t :=
  {| total := total self + 1;
     passed := passed self;
     failed := failed self + 1;
     errors := (errors self ++ [(test_name, reason)])%list |}.

(** [summary], the value it returns. *)
Definition summary (self : t) : bool :=
  if 0 <? failed self then false else true.

End TestResults.

(* ================================================================== *)
(** * The request checks in front of the issuer *)
(* ================================================================== *)

(** server/schemas.py and the [POST /licenses] handler of
    server/routers/licenses.py. *)
Module Api.

Record LicenseCreate := {
  customer_id : string;
  module_name : string;
  allowed_major_versions : list string;
  license_type : string;
  duration_days : option Z;
  instance_fingerprint : option string;
  notes : option string
}.

(** [c.isdigit()] for one code point below 256: the ASCII digits and the
    superscripts one, two and three. *)
Definition char_isdigit (c : ascii) : bool :=
  let n := N_of_ascii c in
  (((48 <=? n) && (n <=? 57)) || (n =? 178) || (n =? 179) || (n =? 185))%N.

(** [s.isdigit()] *)
Definition isdigit (s : string) : bool :=
  negb (String.eqb s EmptyString)
  && forallb char_isdigit (list_ascii_of_string s).

(** The constraints of the [LicenseCreate] schema: [min_length],
    [max_length], [ge=1] and the two field validators. *)
Definition validate (r : LicenseCreate) : bool :=
  (1 <=? String.length (module_name r))%nat
  && (String.length (module_name r) <=? 100)%nat
  && (1 <=? List.length (allowed_major_versions r))%nat
  && match duration_days r with
     | None => true
     | Some d => 1 <=? d
     end
  && mem (license_type r) valid_types
  && forallb isdigit (allowed_major_versions r).

Inductive response :=
| Created (token : string)
| NotFound
| Unprocessable
| InternalServerError.

(** [bool(x)] for an [Optional[int]]. *)
Definition truthy_int (x : option Z) : bool :=
  match x with
  | None => false
  | Some z => negb (z =? 0)
  end.

(** [POST /licenses] as far as the token goes: the schema is checked
    before the handler runs; [customer] is the row the handler's query
    finds, its id and name; [license_id] is [uuid4()]. *)
Definition issue_license `{Ed25519} (service : LicenseService.t) (now : Z)
           (license_id : string) (customer : option (string * string))
           (license_data : LicenseCreate) : response :=
  if negb (validate license_data) then Unprocessable
  else
    match customer with
    | None => NotFound
    | Some (id, name) =>
        if mem (license_type license_data) ["subscription"; "demo"]
           && negb (truthy_int (duration_days license_data))
        then Unprocessable
        else
          match LicenseService.issue_license service now license_id
                  id name (module_name license_data)
                  (allowed_major_versions license_data)
                  (license_type license_data)
                  (duration_days license_data)
                  (instance_fingerprint license_data)
          with
          | Ok token => Created token
          | Raise _ => InternalServerError
          end
    end.

End Api.

(* ================================================================== *)
(** * str methods the server and the client module use *)
(* ================================================================== *)

(** As everywhere in this development a [str] is a sequence of code points
    below 256; the character classes are Python's, cut to that range. *)
Module Str.

(** [c.isspace()] *)
Definition isspace (c : ascii) : bool :=
  let n := N_of_ascii c in
  (((9 <=? n) && (n <=? 13)) || ((28 <=? n) && (n <=? 32))
   || (n =? 133) || (n =? 160))%N.

(** [c.isalnum()]: letters, digits and the numeric signs of Latin-1. *)
Definition char_isalnum (c : ascii) : bool :=
  let n := N_of_ascii c in
  (((48 <=? n) && (n <=? 57)) || ((65 <=? n) && (n <=? 90))
   || ((97 <=? n) && (n <=? 122)) || (n =? 170) || (n =? 178) || (n =? 179)
   || (n =? 181) || (n =? 185) || (n =? 186)
   || ((188 <=? n) && (n <=? 190)) || ((192 <=? n) && (n <=? 214))
   || ((216 <=? n) && (n <=? 246)) || (248 <=? n))%N.

(** [s.isalnum()]: every character is, and there is one. *)
Definition isalnum (s : string) : bool :=
  negb (String.eqb s EmptyString)
  && forallb char_isalnum (list_ascii_of_string s).

(** [s.replace(c, '')] for a one-character [c]. *)
Fixpoint remove (c : ascii) (s : string) : string :=
  match s with
  | EmptyString => EmptyString
  | String x r => if Ascii.eqb x c then remove c r else String x (remove c r)
  end.

(** [s.lstrip()] *)
Fixpoint lstrip (s : string) : string :=
  match s with
  | EmptyString => EmptyString
  | String c r => if isspace c then lstrip r else s
  end.

(** [s.rstrip()] *)
Fixpoint rstrip (s : string) : string :=
  match s with
  | EmptyString => EmptyString
  | String c r =>
      match rstrip r with
      | EmptyString => if isspace c then EmptyString else String c EmptyString
      | r' => String c r'
      end
  end.

(** [s.strip()] *)
Definition strip (s : string) : string := rstrip (lstrip s).

(** [s.split(sep)] for a one-character [sep]: the empty string gives one
    empty field. *)
Fixpoint split (sep : ascii) (s : string) : list string :=
  match s with
  | EmptyString => [EmptyString]
  | String c r =>
      if Ascii.eqb c sep then EmptyString :: split sep r
      else match split sep r with
           | x :: l => String c x :: l
           | [] => [String c EmptyString]
           end
  end.

(** The characters of a str, each a str of length one: what iterating
    over it yields. *)
Definition chars (s : string) : list string :=
  map (fun c => String c EmptyString) (list_ascii_of_string s).

(** [sep.join(v)] for an arbitrary value [v]: the items of a list, the
    characters of a str or the keys of a dict; an item that is not a str
    and a value that cannot be iterated are TypeErrors. *)
Fixpoint strs (l : list value) : result (list string) :=
  match l with
  | [] => Ok []
  | VStr s :: r => r' <- strs r ;; Ok (s :: r')
  | _ :: _ => Raise TypeError
  end.

Definition join_value (sep : string) (v : value) : result string :=
  match v with
  | VList l => items <- strs l ;; Ok (Json.join sep items)
  | VStr s => Ok (Json.join sep (chars s))
  | VDict d => Ok (Json.join sep (map fst d))
  | _ => Raise TypeError
  end.

End Str.

(* ================================================================== *)
(** * uuid.UUID *)
(* ================================================================== *)

(** The identifiers of license rows.  [uuid_of_str s] is [UUID(s)], [None]
    where the constructor raises ValueError; [uuid_str u] is [str(u)]. *)
Class Uuid : Type := {
  UUID : Type;
  uuid_eqb : UUID -> UUID -> bool;
  uuid_of_str : string -> option UUID;
  uuid_str : UUID -> string
}.

(** [==] is equality, and the text of an identifier reads back as it. *)
Definition uuid_laws (U : Uuid) : Prop :=
  (forall a b : UUID, uuid_eqb a b = true <-> a = b)
  /\ (forall u : UUID, uuid_of_str (uuid_str u) = Some u).

(** A stand-in for running examples: an identifier is its own text, and
    every text is read as an identifier. *)
Definition TextUuid : Uuid := {|
  UUID := string;
  uuid_eqb := String.eqb;
  uuid_of_str := fun s => Some s;
  uuid_str := fun u => u
|}.

(** [UUID(v)] for an arbitrary value: a str is parsed, [None] is a
    TypeError, and the other types have no [replace]. *)
Definition uuid_of_value `{Uuid} (v : value) : result UUID :=
  match v with
  | VStr s =>
      match uuid_of_str s with
      | Some u => Ok u
      | None => Raise ValueError
      end
  | VNone => Raise TypeError
  | _ => Raise AttributeError
  end.

(* ================================================================== *)
(** * The server's rows and schemas *)
(* ================================================================== *)

(** server/models.py, the columns the handlers below read or write. *)
Module Models.

Inductive LicenseStatus := ACTIVE | EXPIRED | REVOKED | SUSPENDED.

Definition status_eqb (a b : LicenseStatus) : bool :=
  match a, b with
  | ACTIVE, ACTIVE | EXPIRED, EXPIRED | REVOKED, REVOKED
  | SUSPENDED, SUSPENDED => true
  | _, _ => false
  end.

Record License `{Uuid} := {
  id : UUID;
  customer_id : string;
  module_name : string;
  license_type : string;
  allowed_major_versions : string;
  issued_at : Z;
  expires_at : option Z;
  status : LicenseStatus;
  revoked_at : option Z;
  revoked_reason : option string;
  instance_fingerprint : option string;
  token : string;
  key_id : string;
  notes : option string
}.

(** [License.allowed_versions_list] *)
Definition allowed_versions_list `{Uuid} (self : License) : list string :=
  map Str.strip (Str.split "," (allowed_major_versions self)).

Record AuditLog `{Uuid} := {
  log_license_id : option UUID;
  event_type : string;
  event_data : option string;
  log_customer_id : option string;
  log_module_name : option string
}.

End Models.

(** server/schemas.py: the customer identifier and the models of the
    validation and revocation requests. *)
Module Schemas.

(** [CustomerCreate.id]: the length bounds of the field, then
    [validate_customer_id]. *)
Definition validate_customer_id (v : string) : result string :=
  if negb (Str.isalnum (Str.remove "_" (Str.remove "-" v)))
  then Raise ValueError
  else Ok v.

Definition customer_id_field (v : string) : result string :=
  if ((String.length v <? 1) || (50 <? String.length v))%nat
  then Raise ValueError
  else validate_customer_id v.

Record LicenseValidationRequest := {
  token : string;
  module_name : string;
  odoo_version : string;
  instance_db_uuid : option string;
  instance_domain : option string
}.

(** The [error] text of a validation response, by its kind:
    - [WrongModule]          "License is for module ..., not ..."
    - [VersionRefused]       "Odoo version ... not allowed. Allowed: ..."
    - [HasExpired]           "License has expired"
    - [InstanceNotGiven]     "License is bound to an instance, but instance
                              details not provided"
    - [FingerprintMismatch]  "Instance fingerprint mismatch. ..."
    - [HasBeenRevoked]       "License has been revoked"
    - [ValidationFailed]     "Validation error: ..." *)
Inductive validation_error :=
| WrongModule
| VersionRefused
| HasExpired
| InstanceNotGiven
| FingerprintMismatch
| HasBeenRevoked
| ValidationFailed.

Record LicenseValidationResponse := {
  valid : bool;
  license_id : option string;
  license_type : option string;
  customer_name : option string;
  expires_at : option Z;
  error : option validation_error
}.

(** A value given to an [Optional[str]] field: [None] or a str; the model
    refuses the rest with a ValidationError, which is a ValueError. *)
Definition optional_str (v : value) : result (option string) :=
  match v with
  | VNone => Ok None
  | VStr s => Ok (Some s)
  | _ => Raise ValueError
  end.

Record LicenseRevoke := { reason : string }.

End Schemas.

(* ================================================================== *)
(** * The license endpoints *)
(* ================================================================== *)

(** server/routers/licenses.py: validation, revocation, lookup and the
    page arithmetic of the listing.  The database is the table of license
    rows, keyed by [id], and the audit log; a handler that returns leaves
    the session committed, one that raises leaves it rolled back
    (server/database.py). *)
Module Licenses.
Import Schemas.

Record Database `{Uuid} := {
  licenses : list Models.License;
  audit_logs : list Models.AuditLog
}.

(** [select(License).where(License.id == u)] with [scalar_one_or_none()];
    [id] is the primary key, so at most one row answers. *)
Definition scalar_one_or_none `{Uuid} (db : Database) (u : UUID)
  : option Models.License :=
  find (fun l => uuid_eqb (Models.id l) u) (licenses db).

(** What a handler does: it returns, or raises an HTTPException. *)
Inductive http (A : Type) : Type :=
| Returned (a : A)
| HTTPException (status_code : Z).
Arguments Returned {A} a.
Arguments HTTPException {A} status_code.

Definition HTTP_404_NOT_FOUND : Z := 404.
Definition HTTP_409_CONFLICT : Z := 409.
Definition HTTP_422_UNPROCESSABLE_ENTITY : Z := 422.

Definition invalid (e : validation_error) : LicenseValidationResponse :=
  {| valid := false; license_id := None; license_type := None;
     customer_name := None; expires_at := None; error := Some e |}.

(** [datetime.fromtimestamp(ts, tz=timezone.utc)], as the timestamp it
    stands for: a number inside the years 1..9999. *)
Definition fromtimestamp (ts : value) : result Z :=
  n <- as_number ts ;;
  if (Datetime.min_timestamp <=? n) && (n <=? Datetime.max_timestamp)
  then Ok n
  else Raise ValueError.

(** The [try] block of [validate_license], once the service has returned
    the payload. *)
Definition validate_payload `{Ed25519} `{Uuid} (db : Database) (now : Z)
           (validation : LicenseValidationRequest) (payload : dict)
  : result LicenseValidationResponse :=
  let license_id := get payload "jti" in
  let license_type := get payload "license_type" in
  customer_name <-
    value_get (get_default payload "customer" (VDict [])) "name" ;;
  let module := get_default payload "module" (VDict []) in

  technical_name <- value_get module "technical_name" ;;
  if negb (eq_str technical_name (module_name validation))
  then Ok (invalid WrongModule)
  else

  allowed_versions <-
    value_get_default module "allowed_major_versions" (VList []) ;;
  allowed <- str_in (odoo_version validation) allowed_versions ;;
  if negb allowed then Ok (invalid VersionRefused)
  else

  let exp := get payload "exp" in
  exp_dt <- (if truthy exp
             then (ts <- fromtimestamp exp ;; Ok (Some ts))
             else Ok None) ;;
  if match exp_dt with Some ts => ts <=? now | None => false end
  then
    lid <- optional_str license_id ;;
    lty <- optional_str license_type ;;
    Ok {| valid := false; license_id := lid; license_type := lty;
          customer_name := None; expires_at := exp_dt;
          error := Some HasExpired |}
  else

  let instance_fp := get payload "instance_fingerprint" in
  if truthy instance_fp
     && (negb (truthy_str (instance_db_uuid validation))
         || negb (truthy_str (instance_domain validation)))
  then Ok (invalid InstanceNotGiven)
  else
  if truthy instance_fp
     && negb (eq_str instance_fp
                (generate_instance_fingerprint
                   (LicenseVerifier.the_str (instance_db_uuid validation))
                   (LicenseVerifier.the_str (instance_domain validation))))
  then Ok (invalid FingerprintMismatch)
  else

  license_uuid <- uuid_of_value license_id ;;
  let db_license := scalar_one_or_none db license_uuid in
  if match db_license with
     | Some l => Models.status_eqb (Models.status l) Models.REVOKED
     | None => false
     end
  then
    lid <- optional_str license_id ;;
    Ok {| valid := false; license_id := lid; license_type := None;
          customer_name := None; expires_at := None;
          error := Some HasBeenRevoked |}
  else

  lid <- optional_str license_id ;;
  lty <- optional_str license_type ;;
  name <- optional_str customer_name ;;
  Ok {| valid := true; license_id := lid; license_type := lty;
        customer_name := name; expires_at := exp_dt; error := None |}.

(** [POST /licenses/validate]; [public_key] is the key of the service's
    [public_key_path], [now] the reading of the clock the expiry test
    takes.  Whatever is raised inside ends in the "Validation error"
    answer. *)
Definition validate_license `{Ed25519} `{Uuid}
           (license_service : LicenseService.t) (public_key : PublicKey)
           (db : Database) (now : Z) (validation : LicenseValidationRequest)
  : LicenseValidationResponse :=
  match LicenseService.verify_license license_service public_key
          (token validation) with
  | inr _ => invalid ValidationFailed
  | inl payload =>
      match validate_payload db now validation payload with
      | Ok response => response
      | Raise _ => invalid ValidationFailed
      end
  end.

(** The row with [status], [revoked_at] and [revoked_reason] assigned. *)
Definition revoked `{Uuid} (l : Models.License) (now : Z) (why : string)
  : Models.License :=
  {| Models.id := Models.id l;
     Models.customer_id := Models.customer_id l;
     Models.module_name := Models.module_name l;
     Models.license_type := Models.license_type l;
     Models.allowed_major_versions := Models.allowed_major_versions l;
     Models.issued_at := Models.issued_at l;
     Models.expires_at := Models.expires_at l;
     Models.status := Models.REVOKED;
     Models.revoked_at := Some now;
     Models.revoked_reason := Some why;
     Models.instance_fingerprint := Models.instance_fingerprint l;
     Models.token := Models.token l;
     Models.key_id := Models.key_id l;
     Models.notes := Models.notes l |}.

(** [DELETE /licenses/{license_id}/revoke]: the answer (the identifier of
    the revoked license) and the database the request leaves.  The body is
    checked against [LicenseRevoke] before the handler runs. *)
Definition revoke_license `{Uuid} (license_id : string)
           (revoke_data : LicenseRevoke) (now : Z) (db : Database)
  : http string * Database :=
  if (String.length (reason revoke_data) <? 1)%nat
  then (HTTPException HTTP_422_UNPROCESSABLE_ENTITY, db)
  else
  match uuid_of_str license_id with
  | None => (HTTPException HTTP_422_UNPROCESSABLE_ENTITY, db)
  | Some license_uuid =>
      match scalar_one_or_none db license_uuid with
      | None => (HTTPException HTTP_404_NOT_FOUND, db)
      | Some license_obj =>
          if Models.status_eqb (Models.status license_obj) Models.REVOKED
          then (HTTPException HTTP_409_CONFLICT, db)
          else
            let audit_log :=
              {| Models.log_license_id := Some license_uuid;
                 Models.event_type := "revoked";
                 Models.event_data :=
                   Some ("Revoked: " ++ reason revoke_data);
                 Models.log_customer_id :=
                   Some (Models.customer_id license_obj);
                 Models.log_module_name :=
                   Some (Models.module_name license_obj) |} in
            (Returned license_id,
             {| licenses :=
                  map (fun l => if uuid_eqb (Models.id l) license_uuid
                                then revoked l now (reason revoke_data)
                                else l)
                      (licenses db);
                audit_logs := (audit_logs db ++ [audit_log])%list |})
      end
  end.


(** [GET /licenses], the paging: [rows] is what the filtered query
    selects, in the order the database gives it; [page] and [page_size]
    are checked against [ge=1] and [le=100] before the handler runs.  The
    answer is the page, the total and the number of pages. *)
Definition total_pages (total page_size : Z) : Z :=
  (total + page_size - 1) / page_size.

Definition list_licenses {A : Type} (rows : list A) (page page_size : Z)
  : http (list A * Z * Z) :=
  if (page <? 1) || (page_size <? 1) || (100 <? page_size)
  then HTTPException HTTP_422_UNPROCESSABLE_ENTITY
  else
    let total := Z.of_nat (List.length rows) in
    let licenses :=
      firstn (Z.to_nat page_size)
             (skipn (Z.to_nat ((page - 1) * page_size)) rows) in
    Returned (licenses, total, total_pages total page_size).

End Licenses.

(* ================================================================== *)
(** * The client module's license record *)
(* ================================================================== *)

(** What the Odoo instance gives the model: the release, the system
    parameters ([get_param] answers [None] where the parameter has no
    value), the key file shipped with the module, the clock of
    [fields.Datetime.now()], and [urllib.parse.urlparse] as far as its
    scheme and network location go. *)
Class Odoo `{Ed25519} : Type := {
  major_version : string;
  get_param : string -> option string;
  shipped_key : PublicKey;
  urlparse : string -> result (string * string)
}.

(** odoo/addons/aegis_client/models/aegis_license.py *)
Module AegisLicense.

(** The columns of [aegis.license].  [last_error] holds the text of the
    verifier's error, written here as its kind; the fields filled from the
    payload hold the values [write] was given. *)
Record record := {
  module_name : string;
  license_token : string;
  state : string;
  last_verified_at : option Z;
  last_error : option reason;
  license_type : value;
  issued_at : value;
  expires_at : value;
  is_bound : value;
  customer_name : value;
  allowed_versions : value
}.

(** The messages of the module's UserErrors. *)
Inductive user_error :=
| LicenseInvalid (last_error : option reason)
| NoLicenseConfigured (module_name : string)
| LicenseInvalidFor (module_name : string) (last_error : option reason).

(** What a method does: it returns, raises a UserError, or lets another
    exception through. *)
Inductive outcome (A : Type) : Type :=
| Done (a : A)
| UserError (msg : user_error)
| Propagated (e : exn).
Arguments Done {A} a.
Arguments UserError {A} msg.
Arguments Propagated {A} e.

(** [_obfuscated_noop]; [token] is [str((args, kwargs)).encode("utf-8")],
    a sequence of bytes. *)
Definition _obfuscated_noop (token : list Z) : bool :=
  let acc :=
    fold_left
      (fun acc (p : nat * Z) =>
         let (idx, byte) := p in
         Z.lxor acc (Z.land (byte + Z.of_nat idx mod 13) 255))
      (combine (seq 0 (List.length token)) token) 0 in
  acc =? acc.

(** [verify_module_license] *)
Definition verify_module_license (token : list Z) : bool :=
  _obfuscated_noop token.

(** [_get_expected_issuer] *)
Definition _get_expected_issuer `{Odoo} : string :=
  match get_param "aegis.issuer" with
  | Some v => v
  | None => "https://license.biz4a.com"
  end.

(** [_normalize_domain] *)
Definition _normalize_domain `{Odoo} (value : string) : result string :=
  '(scheme, netloc) <- urlparse value ;;
  if negb (String.eqb scheme EmptyString)
     && negb (String.eqb netloc EmptyString)
  then Ok netloc
  else Ok value.

(** [_resolve_instance_context]; an absent part of the answer stands for
    the [None] or [False] the method hands on. *)
Definition _resolve_instance_context `{Odoo}
           (instance_db_uuid instance_domain : option string)
  : result (option string * option string) :=
  let instance_db_uuid :=
    if negb (truthy_str instance_db_uuid)
    then get_param "database.uuid"
    else instance_db_uuid in
  instance_domain <-
    (if negb (truthy_str instance_domain)
     then match get_param "web.base.url" with
          | Some base_url => d <- _normalize_domain base_url ;; Ok (Some d)
          | None => Ok None
          end
     else Ok instance_domain) ;;
  Ok (instance_db_uuid, instance_domain).

(** [_verify_and_update]: the record as [write] leaves it.  [now] is the
    verifier's reading of the clock and [write_time] that of
    [fields.Datetime.now()]; only a LicenseVerificationError is caught. *)
Definition _verify_and_update `{Odoo} (self : record) (now write_time : Z)
           (odoo_version instance_db_uuid instance_domain : option string)
  : result record :=
  let verifier :=
    {| LicenseVerifier.public_key := shipped_key;
       LicenseVerifier.expected_issuer := _get_expected_issuer |} in
  let odoo_version :=
    if truthy_str odoo_version
    then LicenseVerifier.the_str odoo_version
    else major_version in
  '(instance_db_uuid, instance_domain) <-
    _resolve_instance_context instance_db_uuid instance_domain ;;
  match LicenseVerifier.verify_license verifier now (license_token self)
          (module_name self) odoo_version instance_db_uuid instance_domain
  with
  | Ok payload =>
      let info :=
        LicenseVerifier.get_license_info verifier (license_token self) in
      let module_info := get_default payload "module" (VDict []) in
      name <- value_get (get_default payload "customer" (VDict [])) "name" ;;
      versions <-
        value_get_default module_info "allowed_major_versions" (VList []) ;;
      joined <- Str.join_value "," versions ;;
      Ok {| module_name := module_name self;
            license_token := license_token self;
            state := "valid";
            last_verified_at := Some write_time;
            last_error := None;
            license_type := get payload "license_type";
            issued_at := get info "issued_at";
            expires_at := get info "expires_at";
            is_bound := get info "is_bound";
            customer_name := name;
            allowed_versions := VStr joined |}
  | Raise (LicenseVerificationError exc) =>
      Ok {| module_name := module_name self;
            license_token := license_token self;
            state := "invalid";
            last_verified_at := Some write_time;
            last_error := Some exc;
            license_type := license_type self;
            issued_at := issued_at self;
            expires_at := expires_at self;
            is_bound := is_bound self;
            customer_name := customer_name self;
            allowed_versions := allowed_versions self |}
  | Raise e => Raise e
  end.

(** [records] with its first record for [name] replaced. *)
Fixpoint put (records : list record) (name : string) (r : record)
  : list record :=
  match records with
  | [] => []
  | x :: rest =>
      if String.eqb (module_name x) name then r :: rest
      else x :: put rest name r
  end.

(** [action_views_open] on the table of license records: [True] and the
    table with the verified record, or a UserError. *)
Definition action_views_open `{Odoo} (records : list record)
           (now write_time : Z) (name : string)
           (odoo_version instance_db_uuid instance_domain : option string)
  : outcome (bool * list record) :=
  match find (fun r => String.eqb (module_name r) name) records with
  | None => UserError (NoLicenseConfigured name)
  | Some license_rec =>
      match _verify_and_update license_rec now write_time odoo_version
              instance_db_uuid instance_domain with
      | Raise e => Propagated e
      | Ok license_rec =>
          if negb (String.eqb (state license_rec) "valid")
          then UserError (LicenseInvalidFor name (last_error license_rec))
          else Done (true, put records name license_rec)
      end
  end.

(** [_check_access] *)
Definition _check_access `{Odoo} (records : list record)
           (now write_time : Z) (name : string)
           (odoo_version instance_db_uuid instance_domain : option string)
  : outcome (bool * list record) :=
  action_views_open records now write_time name odoo_version
    instance_db_uuid instance_domain.

End AegisLicense.

(* ================================================================== *)
(** * The verification pipeline, check by check *)
(* ================================================================== *)

(** The reading of section 4.2 of the specification: an ordered list of
    checks, each a function of the token or of its claims and of the
    caller's context, each with a typed outcome, composed left to right.
    [Abort] is a check that could not be evaluated because a claim has a
    type the check cannot handle. *)
Module Pipeline.

Inductive outcome :=
| Pass
| Fail (r : reason)
| Abort (e : exn).

(** The claims a token carries, signature aside. *)
Definition claims_of (token : string) : dict :=
  match PyJWT.decode_unverified token with
  | Ok p => p
  | Raise _ => []
  end.

(** 1. Structure and signature. *)
Definition check_token `{Ed25519} (self : LicenseVerifier.t)
           (token : string) : outcome :=
  match PyJWT.load token with
  | Raise _ => Fail (Malformed ByDecodeError)
  | Ok l =>
      if negb (eq_str (get (PyJWT.l_header l) "alg") "EdDSA")
      then Fail (Malformed ByInvalidToken)
      else if negb (verify (LicenseVerifier.public_key self)
                           (PyJWT.l_signature l) (PyJWT.l_signing_input l))
      then Fail InvalidSignature
      else match Json.loads (PyJWT.l_payload l) with
           | Some (VDict _) => Pass
           | _ => Fail (Malformed ByDecodeError)
           end
  end.

Definition present (p : dict) (claim : string) : bool :=
  match get p claim with
  | VNone => false
  | _ => true
  end.

(** 2. Mandatory claims. *)
Definition check_mandatory (p : dict) : outcome :=
  if present p "jti" && present p "iss" && present p "iat"
  then Pass
  else Fail (Malformed ByInvalidToken).

(** 3. Expiry. *)
Definition check_expiry (now : Z) (p : dict) : outcome :=
  match dict_get p "exp" with
  | None => Pass
  | Some (VInt e) => if e <=? now then Fail Expired else Pass
  | Some (VBool b) =>
      if (if b then 1 else 0) <=? now then Fail Expired else Pass
  | Some _ => Abort TypeError
  end.

(** 4. Issuer identity. *)
Definition check_issuer `{Ed25519} (self : LicenseVerifier.t) (p : dict)
  : outcome :=
  if eq_str (get p "iss") (LicenseVerifier.expected_issuer self)
  then Pass
  else Fail UntrustedIssuer.

(** 5. Product identity. *)
Definition check_product (module_name : string) (p : dict) : outcome :=
  match dict_get p "module" with
  | None => Fail ProductMismatch
  | Some (VDict m) =>
      if eq_str (get m "technical_name") module_name
      then Pass
      else Fail ProductMismatch
  | Some _ => Abort AttributeError
  end.

Definition member_of (version : string) (container : value) : outcome :=
  match container with
  | VList l =>
      if existsb (fun x => eq_str x version) l
      then Pass else Fail VersionNotAllowed
  | VStr t => if contains version t then Pass else Fail VersionNotAllowed
  | VDict d => if dict_has d version then Pass else Fail VersionNotAllowed
  | _ => Abort TypeError
  end.

(** 6. Version compatibility. *)
Definition check_version (odoo_version : string) (p : dict) : outcome :=
  match dict_get p "module" with
  | None => Fail VersionNotAllowed
  | Some (VDict m) =>
      match dict_get m "allowed_major_versions" with
      | None => Fail VersionNotAllowed
      | Some c => member_of odoo_version c
      end
  | Some _ => Abort AttributeError
  end.

(** 7. Instance binding. *)
Definition check_binding (instance_db_uuid instance_domain : option string)
           (p : dict) : outcome :=
  match dict_get p "instance_fingerprint" with
  | None => Pass
  | Some f =>
      match instance_db_uuid, instance_domain with
      | Some u, Some d =>
          if String.eqb u EmptyString || String.eqb d EmptyString
          then Fail BindingContextMissing
          else if eq_str f (generate_instance_fingerprint u d)
               then Pass
               else Fail InstanceMismatch
      | _, _ => Fail BindingContextMissing
      end
  end.

(** 8. Kind-specific policy. *)
Definition check_policy (p : dict) : outcome :=
  if eq_str (get p "license_type") "demo" && negb (truthy (get p "exp"))
  then Fail PolicyViolation
  else Pass.

(** Left-to-right composition: the first outcome that is not [Pass]. *)
Fixpoint first_failure (outcomes : list outcome) : outcome :=
  match outcomes with
  | [] => Pass
  | Pass :: r => first_failure r
  | o :: _ => o
  end.

Definition checks `{Ed25519} (self : LicenseVerifier.t) (now : Z)
           (token module_name odoo_version : string)
           (instance_db_uuid instance_domain : option string)
  : list outcome :=
  let p := claims_of token in
  [check_token self token;
   check_mandatory p;
   check_expiry now p;
   check_issuer self p;
   check_product module_name p;
   check_version odoo_version p;
   check_binding instance_db_uuid instance_domain p;
   check_policy p].

Definition conclude (o : outcome) (p : dict) : result dict :=
  match o with
  | Pass => Ok p
  | Fail r => Raise (LicenseVerificationError r)
  | Abort e => Raise e
  end.

Definition run `{Ed25519} (self : LicenseVerifier.t) (now : Z)
           (token module_name odoo_version : string)
           (instance_db_uuid instance_domain : option string)
  : result dict :=
  conclude (first_failure (checks self now token module_name odoo_version
                             instance_db_uuid instance_domain))
           (claims_of token).

(** The errors the specification lists for each check, by position. *)
Definition listed (position : nat) (r : reason) : bool :=
  match position, r with
  | 0%nat, InvalidSignature | 0%nat, Malformed _ => true
  | 1%nat, Malformed _ => true
  | 2%nat, Expired => true
  | 3%nat, UntrustedIssuer => true
  | 4%nat, ProductMismatch => true
  | 5%nat, VersionNotAllowed => true
  | 6%nat, BindingContextMissing | 6%nat, InstanceMismatch => true
  | 7%nat, PolicyViolation => true
  | _, _ => false
  end.

End Pipeline.

(* ================================================================== *)
(** * Vocabulary of the statements *)
(* ================================================================== *)

(** A verifier set up for an issuer: it holds the public half of the
    issuer's key and expects the issuer's name. *)
Definition trusts `{Ed25519} (ver : LicenseVerifier.t)
           (svc : LicenseService.t) : Prop :=
  LicenseVerifier.public_key ver = public_key (LicenseService.private_key svc)
  /\ LicenseVerifier.expected_issuer ver = LicenseService.issuer svc.

(** The expiry the issuer computes: none for a perpetual license. *)
Definition expiry_of (license_type : string) (now : Z)
           (duration_days : option Z) : option Z :=
  if mem license_type ["subscription"; "demo"]
  then option_map (Datetime.add_days now) duration_days
  else None.

(** The claims the issuer signs, in the order it lays them out. *)
Definition issued_claims (issuer license_id customer_id customer_name
                          module_name : string)
           (allowed_versions : list string) (license_type : string)
           (now : Z) (duration_days : option Z)
           (instance_fingerprint : option string) : dict :=
  ([("jti", VStr license_id);
    ("iss", VStr issuer);
    ("iat", VInt now);
    ("customer", VDict [("id", VStr customer_id);
                        ("name", VStr customer_name)]);
    ("module", VDict [("technical_name", VStr module_name);
                      ("allowed_major_versions",
                       VList (map VStr allowed_versions))]);
    ("license_type", VStr license_type)]
   ++ match expiry_of license_type now duration_days with
      | Some e => [("exp", VInt e)]
      | None => []
      end
   ++ match instance_fingerprint with
      | Some f => if String.eqb f EmptyString then []
                  else [("instance_fingerprint", VStr f)]
      | None => []
      end)%list.

(** The parameters of one issuance, as the specification groups them. *)
Record params := {
  license_id : string;
  customer_id : string;
  customer_name : string;
  product_name : string;
  allowed_versions : list string;
  kind : string;
  duration : option Z;
  instance_fingerprint : option string
}.

(** [issue(params)] through the license service, at clock reading [now]. *)
Definition issue `{Ed25519} (svc : LicenseService.t) (now : Z) (prm : params)
  : result string :=
  LicenseService.issue_license svc now (license_id prm) (customer_id prm)
    (customer_name prm) (product_name prm) (allowed_versions prm) (kind prm)
    (duration prm) (instance_fingerprint prm).

(** The claims of [issue svc now prm]. *)
Definition claims_for (issuer : string) (now : Z) (prm : params) : dict :=
  issued_claims issuer (license_id prm) (customer_id prm) (customer_name prm)
    (product_name prm) (allowed_versions prm) (kind prm) now (duration prm)
    (instance_fingerprint prm).


(** The kind asks for a duration and one is given. *)
Definition duration_given (prm : params) : bool :=
  negb (mem (kind prm) ["subscription"; "demo"])
  || match duration prm with
     | Some _ => true
     | None => false
     end.

(** The binding of a parameter set: its fingerprint, unless it is absent
    or empty. *)
Definition binding_of (prm : params) : option string :=
  match instance_fingerprint prm with
  | Some f => if String.eqb f EmptyString then None else Some f
  | None => None
  end.

(** The caller's context meets the binding of a parameter set: there is
    no binding, or both parts are given, non-empty, and hash to the
    fingerprint. *)
Definition binding_satisfied (prm : params) (u d : option string) : bool :=
  match binding_of prm with
  | None => true
  | Some f =>
      match u, d with
      | Some u, Some d =>
          negb (String.eqb u EmptyString) && negb (String.eqb d EmptyString)
          && String.eqb f (generate_instance_fingerprint u d)
      | _, _ => false
      end
  end.

(** A timestamp [datetime] can hold. *)
Definition in_datetime_range (ts : Z) : bool :=
  (Datetime.min_timestamp <=? ts) && (ts <=? Datetime.max_timestamp).


(** Keys all different, at every level: what a Python dict is. *)
Fixpoint distinct (ks : list string) : bool :=
  match ks with
  | [] => true
  | k :: r => negb (mem k r) && distinct r
  end.

Fixpoint wf (v : value) : bool :=
  match v with
  | VList l => forallb wf l
  | VDict d => distinct (map fst d) && forallb (fun kv => wf (snd kv)) d
  | _ => true
  end.

Fixpoint no_dot (s : string) : bool :=
  match s with
  | EmptyString => true
  | String c r => negb (Ascii.eqb c ".") && no_dot r
  end.

Fixpoint all_digits (s : string) : bool :=
  match s with
  | EmptyString => true
  | String c r => Json.is_digit c && all_digits r
  end.

Definition no_digit_head (s : string) : bool :=
  match s with
  | EmptyString => true
  | String c _ => negb (Json.is_digit c)
  end.

(** The characters a serialised value can start with. *)
Definition value_head (c : ascii) : bool :=
  Json.is_digit c
  || existsb (Ascii.eqb c) ["-"; "n"; "t"; "f"; "["; "{"; Json.quote]%char.

Definition elems (l : list value) : string :=
  Json.join "," (map Json.dumps l).

Definition member (kv : string * value) : string :=
  match kv with
  | (k, x) => Json.dumps_str k ++ ":" ++ Json.dumps x
  end.

Definition members (d : dict) : string := Json.join "," (map member d).

(** What the round-trip induction carries for one value. *)
Definition reads_back (x : value) : Prop :=
  forall f rest, wf x = true -> no_digit_head rest = true ->
    (2 * String.length (Json.dumps x) <= f)%nat ->
    Json.parse_value f (Json.dumps x ++ rest) = Some (x, rest).


(* ------------------------------------------------------------------ *)
(** ** A running example *)

(** An issuer and a verifier that trusts it, over the stand-in scheme. *)
Definition acme_service : @LicenseService.t DigestScheme :=
  {| LicenseService.private_key := "issuer-key" : @PrivateKey DigestScheme;
     LicenseService.key_id := "aegis-2026-01";
     LicenseService.issuer := "https://license.biz4a.com" |}.

Definition acme_verifier : @LicenseVerifier.t DigestScheme :=
  {| LicenseVerifier.public_key := "issuer-key" : @PublicKey DigestScheme;
     LicenseVerifier.expected_issuer := "https://license.biz4a.com" |}.

(** A verifier holding some other key. *)
Definition other_verifier : @LicenseVerifier.t DigestScheme :=
  {| LicenseVerifier.public_key := "another-key" : @PublicKey DigestScheme;
     LicenseVerifier.expected_issuer := "https://license.biz4a.com" |}.

Definition acme_poc : @LicenseIssuer.t DigestScheme :=
  @LicenseIssuer.init DigestScheme "issuer-key" "aegis-2026-01".

Definition perpetual_payroll : params :=
  {| license_id := "0b9f6a52-3c1d-4a8e-9d57-2f1f6c0e7a11";
     customer_id := "CUST-001";
     customer_name := "Acme Corporation";
     product_name := "payroll";
     allowed_versions := ["17"; "18"];
     kind := "perpetual";
     duration := None;
     instance_fingerprint := None |}.

Definition demo_payroll : params :=
  {| license_id := "5d4c3b2a-1f0e-4d9c-8b7a-6f5e4d3c2b1a";
     customer_id := "DEMO-123";
     customer_name := "Prospect Inc";
     product_name := "payroll";
     allowed_versions := ["18"];
     kind := "demo";
     duration := Some 30;
     instance_fingerprint := None |}.

(** A subscription bound to the instance ("db-1", "acme.odoo.com"). *)
Definition bound_subscription : params :=
  {| license_id := "7e2d9c1b-4a3f-4b6e-a5d8-0c9b8a7f6e5d";
     customer_id := "CUST-002";
     customer_name := "SecureCorp Ltd";
     product_name := "accounting";
     allowed_versions := ["17"];
     kind := "subscription";
     duration := Some 365;
     instance_fingerprint :=
       Some (generate_instance_fingerprint "db-1" "acme.odoo.com") |}.

(** The request of a demo with a duration of zero days. *)
Definition zero_day_demo : params :=
  {| license_id := "c1a2b3d4-e5f6-4a7b-8c9d-0e1f2a3b4c5d";
     customer_id := "DEMO-124";
     customer_name := "Prospect Inc";
     product_name := "payroll";
     allowed_versions := ["18"];
     kind := "demo";
     duration := Some 0;
     instance_fingerprint := None |}.

(** The instant 2023-11-14T22:13:20Z. *)
Definition t0 : Z := 1700000000.



(** Hand-made claims: a demo without an expiry, and claims whose expiry is
    a string. *)
Definition demo_without_expiry : dict :=
  [("jti", VStr "id-2"); ("iss", VStr "https://license.biz4a.com");
   ("iat", VInt 1700000000);
   ("module", VDict [("technical_name", VStr "payroll");
                     ("allowed_major_versions", VList [VStr "18"])]);
   ("license_type", VStr "demo")].

Definition bound_claims : dict :=
  [("jti", VStr "id-3"); ("iss", VStr "https://license.biz4a.com");
   ("iat", VInt 1700000000);
   ("module", VDict [("technical_name", VStr "payroll");
                     ("allowed_major_versions", VList [VStr "18"])]);
   ("license_type", VStr "perpetual");
   ("instance_fingerprint",
    VStr (generate_instance_fingerprint "db-1" "acme.odoo.com"))].

(** The token an issuer holding [key] makes of hand-made claims. *)
Definition signed (key : string) (claims : dict) : string :=
  @PyJWT.encode DigestScheme claims key "aegis-2026-01".

(* ------------------------------------------------------------------ *)
(** ** Vocabulary for the server and the client module *)

(** A lower-case hexadecimal digit. *)
Definition lower_hex (c : ascii) : bool :=
  let n := N_of_ascii c in
  (((48 <=? n) && (n <=? 57)) || ((97 <=? n) && (n <=? 102)))%N.

(** The client verifier that stands where the service does: the given
    key, the service's issuer name. *)
Definition verifier_of `{Ed25519} (svc : LicenseService.t) (pk : PublicKey)
  : LicenseVerifier.t :=
  {| LicenseVerifier.public_key := pk;
     LicenseVerifier.expected_issuer := LicenseService.issuer svc |}.

(** The number of dots in a token. *)
Fixpoint dots (s : string) : nat :=
  match s with
  | EmptyString => 0%nat
  | String c r => ((if Ascii.eqb c "." then 1 else 0) + dots r)%nat
  end.

(* ------------------------------------------------------------------ *)
(** ** The running example, on the server *)

(** The token of the demo license, issued at [t0]. *)
Definition demo_token : string :=
  @PyJWT.encode DigestScheme
    (claims_for "https://license.biz4a.com" t0 demo_payroll)
    "issuer-key" "aegis-2026-01".

(** The row the server keeps for it, and a table that holds this row. *)
Definition demo_row : @Models.License TextUuid :=
  {| Models.id := license_id demo_payroll : @UUID TextUuid;
     Models.customer_id := "DEMO-123";
     Models.module_name := "payroll";
     Models.license_type := "demo";
     Models.allowed_major_versions := "18";
     Models.issued_at := t0;
     Models.expires_at := Some (t0 + 30 * 86400);
     Models.status := Models.ACTIVE;
     Models.revoked_at := None;
     Models.revoked_reason := None;
     Models.instance_fingerprint := None;
     Models.token := demo_token;
     Models.key_id := "aegis-2026-01";
     Models.notes := None |}.

Definition demo_db : @Licenses.Database TextUuid :=
  {| Licenses.licenses := [demo_row]; Licenses.audit_logs := [] |}.

(** A request to validate the demo token for its module and version. *)
Definition demo_request : Schemas.LicenseValidationRequest :=
  {| Schemas.token := demo_token;
     Schemas.module_name := "payroll";
     Schemas.odoo_version := "18";
     Schemas.instance_db_uuid := None;
     Schemas.instance_domain := None |}.

(** A request that carries no token at all. *)
Definition junk_request : Schemas.LicenseValidationRequest :=
  {| Schemas.token := "not-a-token";
     Schemas.module_name := "payroll";
     Schemas.odoo_version := "18";
     Schemas.instance_db_uuid := None;
     Schemas.instance_domain := None |}.

Definition fraud : Schemas.LicenseRevoke :=
  {| Schemas.reason := "chargeback" |}.

(** The rows of an answer of the listing; none when the request was
    refused. *)
Definition page_rows {A : Type} (answer : Licenses.http (list A * Z * Z))
  : list A :=
  match answer with
  | Licenses.Returned (l, _, _) => l
  | Licenses.HTTPException _ => []
  end.

(** The characters a customer identifier may be made of, and the test of
    the whole identifier. *)
Definition customer_id_char (c : ascii) : bool :=
  Str.char_isalnum c || Ascii.eqb c "-" || Ascii.eqb c "_".

Definition customer_id_ok (v : string) : bool :=
  (1 <=? String.length v)%nat && (String.length v <=? 50)%nat
  && forallb customer_id_char (list_ascii_of_string v)
  && existsb Str.char_isalnum (list_ascii_of_string v).

(** A str in which the character [c] does not occur. *)
Fixpoint free_of (c : ascii) (s : string) : bool :=
  match s with
  | EmptyString => true
  | String x r => negb (Ascii.eqb x c) && free_of c r
  end.

(** The request the demo license was created from. *)
Definition demo_create : Api.LicenseCreate :=
  {| Api.customer_id := "DEMO-123";
     Api.module_name := "payroll";
     Api.allowed_major_versions := ["18"];
     Api.license_type := "demo";
     Api.duration_days := Some 30;
     Api.instance_fingerprint := None;
     Api.notes := None |}.

(* ------------------------------------------------------------------ *)
(** ** The running example, in the client module *)

(** The verifier [_verify_and_update] builds, and the version it asks
    about: the caller's, or the release's when the caller names none. *)
Definition odoo_verifier `{Odoo} : LicenseVerifier.t :=
  {| LicenseVerifier.public_key := shipped_key;
     LicenseVerifier.expected_issuer := AegisLicense._get_expected_issuer |}.

Definition version_asked `{Odoo} (odoo_version : option string) : string :=
  if truthy_str odoo_version
  then LicenseVerifier.the_str odoo_version
  else major_version.

(** An Odoo 18 instance at https://acme.odoo.com with database "db-1",
    shipping the issuer's key; its [urlparse] knows the one address. *)
Definition acme_odoo : @Odoo DigestScheme :=
  {| major_version := "18";
     get_param := fun key =>
       if String.eqb key "database.uuid" then Some "db-1"
       else if String.eqb key "web.base.url"
            then Some "https://acme.odoo.com"
            else None;
     shipped_key := "issuer-key" : @PublicKey DigestScheme;
     urlparse := fun url =>
       if String.eqb url "https://acme.odoo.com"
       then Ok ("https", "acme.odoo.com")
       else Ok (EmptyString, EmptyString) |}.

(** The license record of the payroll module, not yet verified, and one
    whose token is no token. *)
Definition demo_record : AegisLicense.record :=
  {| AegisLicense.module_name := "payroll";
     AegisLicense.license_token := demo_token;
     AegisLicense.state := "unknown";
     AegisLicense.last_verified_at := None;
     AegisLicense.last_error := None;
     AegisLicense.license_type := VNone;
     AegisLicense.issued_at := VNone;
     AegisLicense.expires_at := VNone;
     AegisLicense.is_bound := VNone;
     AegisLicense.customer_name := VNone;
     AegisLicense.allowed_versions := VNone |}.

Definition junk_record : AegisLicense.record :=
  {| AegisLicense.module_name := "accounting";
     AegisLicense.license_token := "not-a-token";
     AegisLicense.state := "valid";
     AegisLicense.last_verified_at := Some t0;
     AegisLicense.last_error := None;
     AegisLicense.license_type := VStr "perpetual";
     AegisLicense.issued_at := VNone;
     AegisLicense.expires_at := VNone;
     AegisLicense.is_bound := VBool false;
     AegisLicense.customer_name := VStr "Acme Corporation";
     AegisLicense.allowed_versions := VStr "17" |}.

(* ------------------------------------------------------------------ *)
(** ** A run of the integration tests *)

(** One reported test, and the tally after a run of them. *)
Inductive test_event :=
| Passes (test_name : string)
| Fails (test_name reason : string).

Definition report (results : TestResults.t) (e : test_event)
  : TestResults.t :=
  match e with
  | Passes n => TestResults.add_pass results n
  | Fails n why => TestResults.add_fail results n why
  end.

Definition tally (run : list test_event) : TestResults.t :=
  fold_left report run TestResults.init.

(** The failures of a run, in the order they occurred. *)
Definition failures (run : list test_event) : list (string * string) :=
  flat_map (fun e => match e with
                     | Passes _ => []
                     | Fails n why => [(n, why)]
                     end) run.

(** A request to validate a signed demo that states no expiry. *)
Definition policy_request : Schemas.LicenseValidationRequest :=
  {| Schemas.token := signed "issuer-key" demo_without_expiry;
     Schemas.module_name := "payroll";
     Schemas.odoo_version := "18";
     Schemas.instance_db_uuid := None;
     Schemas.instance_domain := None |}.

(* ================================================================== *)
(** * Facts about the libraries *)
(* ================================================================== *)

(** ** Strings *)

Lemma append_assoc (a b c : string) : (a ++ b) ++ c = a ++ (b ++ c).
Proof. induction a as [|x a IH]; simpl; [reflexivity | now rewrite IH]. Qed.

Lemma append_nil_r (a : string) : a ++ EmptyString = a.
Proof. induction a as [|x a IH]; simpl; [reflexivity | now rewrite IH]. Qed.

Lemma length_append (a b : string) :
  String.length (a ++ b) = (String.length a + String.length b)%nat.
Proof. induction a as [|x a IH]; simpl; [reflexivity | now rewrite IH]. Qed.

(** ** base64url *)
Module Base64UrlFacts.
Import Base64Url.

Lemma sextet_of_char_of_sextet (x : sextet) :
  sextet_of_char (char_of_sextet x) = Some x.
Proof.
  destruct x as [[[[[[] []] []] []] []] []]; reflexivity.
Qed.

Lemma char_of_sextet_not_dot (x : sextet) :
  Ascii.eqb (char_of_sextet x) "." = false.
Proof.
  destruct x as [[[[[[] []] []] []] []] []]; reflexivity.
Qed.

(** Induction three characters at a time. *)
Lemma string_ind3 (P : string -> Prop) :
  P EmptyString ->
  (forall a, P (String a EmptyString)) ->
  (forall a b, P (String a (String b EmptyString))) ->
  (forall a b c r, P r -> P (String a (String b (String c r)))) ->
  forall s, P s.
Proof.
  intros H0 H1 H2 H3.
  fix IH 1.
  intros [|a [|b [|c r]]].
  - exact H0.
  - apply H1.
  - apply H2.
  - apply H3, IH.
Qed.

Lemma b64_decode_encode (s : string) : decode (encode s) = Some s.
Proof.
  induction s as [| a | a b | a b c r IH] using string_ind3.
  - reflexivity.
  - destruct a as [a0 a1 a2 a3 a4 a5 a6 a7].
    cbn [encode decode]. rewrite !sextet_of_char_of_sextet. reflexivity.
  - destruct a as [a0 a1 a2 a3 a4 a5 a6 a7], b as [b0 b1 b2 b3 b4 b5 b6 b7].
    cbn [encode decode]. rewrite !sextet_of_char_of_sextet. reflexivity.
  - destruct a as [a0 a1 a2 a3 a4 a5 a6 a7], b as [b0 b1 b2 b3 b4 b5 b6 b7],
      c as [c0 c1 c2 c3 c4 c5 c6 c7].
    cbn [encode decode]. rewrite !sextet_of_char_of_sextet, IH. reflexivity.
Qed.
Lemma encode_no_dot (s : string) : no_dot (encode s) = true.
Proof.
  induction s as [| a | a b | a b c r IH] using string_ind3.
  - reflexivity.
  - destruct a as [a0 a1 a2 a3 a4 a5 a6 a7].
    cbn [encode no_dot]. now rewrite !char_of_sextet_not_dot.
  - destruct a as [a0 a1 a2 a3 a4 a5 a6 a7], b as [b0 b1 b2 b3 b4 b5 b6 b7].
    cbn [encode no_dot]. now rewrite !char_of_sextet_not_dot.
  - destruct a as [a0 a1 a2 a3 a4 a5 a6 a7], b as [b0 b1 b2 b3 b4 b5 b6 b7],
      c as [c0 c1 c2 c3 c4 c5 c6 c7].
    cbn [encode no_dot]. now rewrite !char_of_sextet_not_dot, IH.
Qed.
End Base64UrlFacts.

Module SplitFacts.
Import PyJWT.

Lemma split_first_app (a b : string) :
  no_dot a = true -> split_first (a ++ String "." b) = Some (a, b).
Proof.
  induction a as [|c a IH]; simpl; intros H.
  - reflexivity.
  - apply andb_prop in H as [Hc Ha].
    apply negb_true_iff in Hc. rewrite Hc, (IH Ha). reflexivity.
Qed.

Lemma split_last_no_dot (b : string) :
  no_dot b = true -> split_last b = None.
Proof.
  induction b as [|c b IH]; simpl; intros H.
  - reflexivity.
  - apply andb_prop in H as [Hc Hb].
    apply negb_true_iff in Hc. now rewrite (IH Hb), Hc.
Qed.

Lemma split_last_app (a b : string) :
  no_dot b = true -> split_last (a ++ String "." b) = Some (a, b).
Proof.
  intros Hb. induction a as [|c a IH]; simpl.
  - now rewrite (split_last_no_dot b Hb).
  - now rewrite IH.
Qed.
End SplitFacts.

(** ** Dictionaries *)

Module DictFacts.
Lemma mem_false_app k (l1 l2 : list string) :
  mem k (l1 ++ l2)%list = mem k l1 || mem k l2.
Proof. unfold mem. apply existsb_app. Qed.

Lemma dict_set_fresh (d : dict) k v :
  mem k (map fst d) = false -> dict_set d k v = (d ++ [(k, v)])%list.
Proof.
  induction d as [|[k' v'] d IH]; simpl; intros H.
  - reflexivity.
  - apply orb_false_elim in H as [Hk Hd].
    rewrite String.eqb_sym, Hk. now rewrite IH.
Qed.

Lemma distinct_app_r (l1 : list string) k l2 :
  distinct (l1 ++ k :: l2)%list = true ->
  mem k l1 = false /\ distinct ((l1 ++ [k]) ++ l2)%list = true.
Proof.
  intros H. rewrite <- app_assoc. simpl. split; [|exact H].
  induction l1 as [|x l1 IH]; simpl in *.
  - reflexivity.
  - apply andb_prop in H as [Hx H].
    rewrite (IH H), orb_false_r.
    apply negb_true_iff in Hx. rewrite mem_false_app in Hx.
    apply orb_false_elim in Hx as [_ Hx]. simpl in Hx.
    apply orb_false_elim in Hx as [Hx _].
    now rewrite String.eqb_sym.
Qed.

Lemma fold_dict_set (l acc : dict) :
  distinct (map fst (acc ++ l)%list) = true ->
  fold_left (fun d kv => dict_set d (fst kv) (snd kv)) l acc = (acc ++ l)%list.
Proof.
  revert acc. induction l as [|[k v] l IH]; intros acc H; simpl.
  - now rewrite app_nil_r.
  - rewrite map_app in H. simpl in H.
    apply distinct_app_r in H as [Hk H].
    rewrite dict_set_fresh by exact Hk.
    rewrite IH.
    + now rewrite <- app_assoc.
    + now rewrite !map_app.
Qed.

Lemma dict_of_pairs_distinct (d : dict) :
  distinct (map fst d) = true -> Json.dict_of_pairs d = d.
Proof. intros H. unfold Json.dict_of_pairs. now rewrite fold_dict_set. Qed.
End DictFacts.

(** ** json: what [dumps] writes, [loads] reads back *)

Lemma value_ind' (P : value -> Prop) :
  P VNone ->
  (forall b, P (VBool b)) ->
  (forall z, P (VInt z)) ->
  (forall s, P (VStr s)) ->
  (forall l, Forall P l -> P (VList l)) ->
  (forall d, Forall (fun kv => P (snd kv)) d -> P (VDict d)) ->
  forall v, P v.
Proof.
  intros HN HB HI HS HL HD.
  fix IH 1.
  intros [| b | z | s | l | d].
  - exact HN.
  - apply HB.
  - apply HI.
  - apply HS.
  - apply HL. induction l as [|x l IHl]; constructor; [apply IH | exact IHl].
  - apply HD. induction d as [|[k x] d IHd]; constructor; [apply IH | exact IHd].
Qed.

Module JsonFacts.
Import Json DictFacts.

Lemma parse_chars_escape_char (c : ascii) (tail : string) :
  parse_chars (escape_char c ++ tail) = cons_char c (parse_chars tail).
Proof.
  destruct c as [[] [] [] [] [] [] [] []]; reflexivity.
Qed.

Lemma parse_chars_escape (s rest : string) :
  parse_chars (escape s ++ String quote rest) = Some (s, rest).
Proof.
  induction s as [|c s IH]; simpl.
  - reflexivity.
  - now rewrite append_assoc, parse_chars_escape_char, IH.
Qed.

Lemma parse_chars_dumps_str (s rest : string) :
  parse_chars (escape s ++ String quote EmptyString ++ rest) = Some (s, rest).
Proof. apply parse_chars_escape. Qed.

(* -- integers -- *)
Lemma string_of_uint_digits (d : uint) :
  all_digits (NilEmpty.string_of_uint d) = true.
Proof. induction d; simpl; auto. Qed.

Lemma span_digits_app (ds rest : string) :
  all_digits ds = true -> no_digit_head rest = true ->
  span_digits (ds ++ rest) = (ds, rest).
Proof.
  intros Hd Hr. induction ds as [|c ds IH]; simpl in *.
  - destruct rest as [|c r]; simpl in *; [reflexivity|].
    apply negb_true_iff in Hr. now rewrite Hr.
  - apply andb_prop in Hd as [Hc Hds]. rewrite Hc, (IH Hds). reflexivity.
Qed.

Lemma digit_not_minus (c : ascii) :
  is_digit c = true -> Ascii.eqb c "-" = false.
Proof. destruct c as [[] [] [] [] [] [] [] []]; simpl; intros H; try discriminate; reflexivity. Qed.

Lemma pos_string (p : positive) :
  exists c r, NilEmpty.string_of_uint (Pos.to_uint p) = String c r
              /\ is_digit c = true /\ all_digits r = true.
Proof.
  pose proof (string_of_uint_digits (Pos.to_uint p)) as H.
  pose proof (Unsigned.to_uint_nonnil p) as Hn.
  destruct (Pos.to_uint p) eqn:E; try congruence; simpl in *;
    eexists _, _; (split; [reflexivity|]); split; auto.
Qed.

Lemma parse_int_dumps (z : Z) (rest : string) :
  no_digit_head rest = true ->
  parse_int (dumps_int z ++ rest) = Some (VInt z, rest).
Proof.
  intros Hr. unfold dumps_int.
  assert (Hnz : NilZero.int_of_string (NilZero.string_of_int (Z.to_int z))
                = Some (Z.to_int z)).
  { apply NilZero.isi; destruct z; simpl; try discriminate;
      intros [= H]; now apply (Unsigned.to_uint_nonnil p). }
  pose proof (of_to z) as Hz.
  destruct z as [|p|p]; simpl Z.to_int in *.
  - unfold parse_int. simpl. destruct rest as [|c r]; simpl in *.
    + reflexivity.
    + apply negb_true_iff in Hr. rewrite Hr. reflexivity.
  - destruct (pos_string p) as (c & r & E & Hc & Hds).
    assert (Es : NilZero.string_of_int (Pos (Pos.to_uint p)) = String c r).
    { simpl. unfold NilZero.string_of_uint.
      destruct (Pos.to_uint p) eqn:Ep; try exact E.
      now apply Unsigned.to_uint_nonnil in Ep. }
    rewrite Es in *. unfold parse_int. simpl append. cbv beta iota.
    rewrite (digit_not_minus c Hc).
    change (String c (r ++ rest)) with (String c r ++ rest).
    rewrite span_digits_app; [| simpl; now rewrite Hc | exact Hr].
    simpl append. rewrite Hnz. now rewrite Hz.
  - destruct (pos_string p) as (c & r & E & Hc & Hds).
    assert (Es : NilZero.string_of_int (Neg (Pos.to_uint p))
                 = String "-" (String c r)).
    { simpl. unfold NilZero.string_of_uint.
      destruct (Pos.to_uint p) eqn:Ep; try (now rewrite E).
      now apply Unsigned.to_uint_nonnil in Ep. }
    rewrite Es in *. unfold parse_int. simpl append. cbv beta iota.
    change (Ascii.eqb "-" "-") with true. cbv beta iota.
    change (String c (r ++ rest)) with (String c r ++ rest).
    rewrite span_digits_app; [| simpl; now rewrite Hc | exact Hr].
    simpl append. rewrite Hnz. now rewrite Hz.
Qed.

Lemma dumps_int_head (z : Z) :
  exists c r, dumps_int z = String c r /\ value_head c = true
              /\ (is_digit c || Ascii.eqb c "-") = true.
Proof.
  unfold dumps_int. destruct z as [|p|p]; simpl Z.to_int.
  - eexists _, _; split; [reflexivity|]. split; reflexivity.
  - destruct (pos_string p) as (c & r & E & Hc & Hds).
    exists c, r. split.
    + simpl. unfold NilZero.string_of_uint.
      destruct (Pos.to_uint p) eqn:Ep; try exact E.
      now apply Unsigned.to_uint_nonnil in Ep.
    + unfold value_head. rewrite Hc. split; reflexivity.
  - eexists _, _; split; [reflexivity|]. split; reflexivity.
Qed.

Lemma dumps_list l : dumps (VList l) = "[" ++ elems l ++ "]".
Proof. reflexivity. Qed.
Lemma dumps_dict d : dumps (VDict d) = "{" ++ members d ++ "}".
Proof. reflexivity. Qed.

Lemma join_cons2 sep x y l :
  join sep (x :: y :: l) = x ++ sep ++ join sep (y :: l).
Proof. reflexivity. Qed.

(* unfolding equations *)
Lemma parse_elems_S f s :
  parse_elems (S f) s =
  match parse_value f s with
  | Some (v, r) =>
      match head_is "]" r with
      | Some r' => Some ([v], r')
      | None =>
          match head_is "," r with
          | Some r' =>
              match parse_elems f r' with
              | Some (l, r'') => Some (v :: l, r'')
              | None => None
              end
          | None => None
          end
      end
  | None => None
  end.
Proof. reflexivity. Qed.

Lemma parse_members_S f s :
  parse_members (S f) s =
  match head_is quote s with
  | None => None
  | Some r0 =>
  match parse_chars r0 with
  | None => None
  | Some (k, r1) =>
  match head_is ":" r1 with
  | None => None
  | Some r2 =>
  match parse_value f r2 with
  | None => None
  | Some (v, r) =>
      match head_is "}" r with
      | Some r' => Some ([(k, v)], r')
      | None =>
          match head_is "," r with
          | Some r' =>
              match parse_members f r' with
              | Some (d, r'') => Some ((k, v) :: d, r'')
              | None => None
              end
          | None => None
          end
      end
  end end end end.
Proof. reflexivity. Qed.

Lemma head_dispatch (c : ascii) (s : string) :
  value_head c = true ->
  head_is "]" (String c s) = None /\ head_is "}" (String c s) = None.
Proof.
  destruct c as [[] [] [] [] [] [] [] []]; simpl; intros H;
    try discriminate; split; reflexivity.
Qed.

Lemma int_dispatch (c : ascii) (s : string) (f : nat) :
  (is_digit c || Ascii.eqb c "-") = true ->
  parse_value (S f) (String c s) = parse_int (String c s).
Proof.
  destruct c as [[] [] [] [] [] [] [] []]; simpl; intros H;
    try discriminate; reflexivity.
Qed.

Lemma dumps_head (v : value) :
  exists c r, dumps v = String c r /\ value_head c = true.
Proof.
  destruct v as [| [] | z | s | l | d]; try (eexists _, _; split; reflexivity).
  destruct (dumps_int_head z) as (c & r & E & H & _). now exists c, r.
Qed.

Lemma elems_head x l :
  exists c r, elems (x :: l) = String c r /\ value_head c = true.
Proof.
  destruct (dumps_head x) as (c & r & E & H).
  unfold elems. destruct l as [|y l]; simpl map.
  - exists c, r. now split.
  - rewrite join_cons2, E. simpl. eexists _, _. split; [reflexivity | exact H].
Qed.

(** What the induction carries for one value. *)
Definition reads_back (x : value) : Prop :=
  forall f rest, wf x = true -> no_digit_head rest = true ->
    (2 * String.length (dumps x) <= f)%nat ->
    parse_value f (dumps x ++ rest) = Some (x, rest).

Lemma elems_cons2 x y l :
  elems (x :: y :: l) = dumps x ++ "," ++ elems (y :: l).
Proof. reflexivity. Qed.

Lemma elems_one x : elems [x] = dumps x.
Proof. reflexivity. Qed.

Lemma members_cons2 k x kv d :
  members ((k, x) :: kv :: d)
  = (dumps_str k ++ ":" ++ dumps x) ++ "," ++ members (kv :: d).
Proof. reflexivity. Qed.

Lemma members_one k x : members [(k, x)] = dumps_str k ++ ":" ++ dumps x.
Proof. reflexivity. Qed.

Lemma parse_elems_ok x l :
  Forall reads_back (x :: l) -> forallb wf (x :: l) = true ->
  forall f rest,
    (2 * String.length (elems (x :: l)) + 1 <= f)%nat ->
    parse_elems f (elems (x :: l) ++ String "]" rest) = Some (x :: l, rest).
Proof.
  revert x. induction l as [|y l IH]; intros x HP Hwf f rest Hf.
  - inversion HP as [|? ? Hx _]; subst.
    simpl in Hwf. rewrite andb_true_r in Hwf.
    rewrite elems_one in *.
    destruct f as [|f]; [lia|].
    rewrite parse_elems_S, (Hx f); auto; lia.
  - inversion HP as [|? ? Hx HP']; subst.
    simpl in Hwf. apply andb_prop in Hwf as [Hwx Hwf].
    rewrite elems_cons2 in *.
    rewrite !append_assoc. simpl append.
    rewrite !length_append in Hf. simpl String.length in Hf.
    destruct f as [|f]; [lia|].
    rewrite parse_elems_S, (Hx f); auto; try lia.
    simpl head_is. cbv beta iota.
    rewrite (IH y); auto; lia.
Qed.

Lemma length_dumps_str k :
  String.length (dumps_str k) = (String.length (escape k) + 2)%nat.
Proof. unfold dumps_str. simpl. rewrite length_append. simpl. lia. Qed.

Lemma parse_member_key k tail :
  match head_is quote (dumps_str k ++ String ":" tail) with
  | None => None
  | Some r0 =>
      match parse_chars r0 with
      | None => None
      | Some (k', r1) =>
          match head_is ":" r1 with
          | None => None
          | Some r2 => Some (k', r2)
          end
      end
  end = Some (k, tail).
Proof.
  unfold dumps_str. simpl append. simpl head_is. cbv beta iota.
  rewrite append_assoc. simpl append.
  rewrite parse_chars_escape. reflexivity.
Qed.

Lemma parse_members_key f k tail :
  parse_members (S f) (dumps_str k ++ String ":" tail) =
  match parse_value f tail with
  | None => None
  | Some (v, r) =>
      match head_is "}" r with
      | Some r' => Some ([(k, v)], r')
      | None =>
          match head_is "," r with
          | Some r' =>
              match parse_members f r' with
              | Some (d, r'') => Some ((k, v) :: d, r'')
              | None => None
              end
          | None => None
          end
      end
  end.
Proof.
  rewrite parse_members_S.
  pose proof (parse_member_key k tail) as H.
  destruct (head_is quote (dumps_str k ++ String ":" tail)) as [r0|];
    [|discriminate].
  destruct (parse_chars r0) as [[k' r1]|]; [|discriminate].
  destruct (head_is ":" r1) as [r2|]; [|discriminate].
  now injection H as -> ->.
Qed.

Lemma parse_members_ok k x d :
  Forall (fun kv => reads_back (snd kv)) ((k, x) :: d) ->
  forallb (fun kv => wf (snd kv)) ((k, x) :: d) = true ->
  forall f rest,
    (2 * String.length (members ((k, x) :: d)) + 1 <= f)%nat ->
    parse_members f (members ((k, x) :: d) ++ String "}" rest)
    = Some ((k, x) :: d, rest).
Proof.
  revert k x. induction d as [|[k' y] d IH]; intros k x HP Hwf f rest Hf.
  - inversion HP as [|? ? Hx _]; subst. simpl in Hx.
    simpl in Hwf. rewrite andb_true_r in Hwf.
    rewrite members_one in *.
    rewrite !length_append in Hf. simpl String.length in Hf.
    destruct f as [|f]; [lia|].
    rewrite !append_assoc. cbn [append].
    rewrite parse_members_key, (Hx f); auto; lia.
  - inversion HP as [|? ? Hx HP']; subst. simpl in Hx.
    simpl in Hwf. apply andb_prop in Hwf as [Hwx Hwf].
    rewrite members_cons2 in *.
    rewrite !length_append in Hf. simpl String.length in Hf.
    destruct f as [|f]; [lia|].
    rewrite !append_assoc. cbn [append].
    rewrite parse_members_key, (Hx f); auto; try lia.
    simpl head_is. cbv beta iota.
    rewrite (IH k' y); auto; lia.
Qed.
Lemma parse_value_list f x l rest :
  parse_value (S f) (String "[" (elems (x :: l) ++ String "]" rest)) =
  match parse_elems f (elems (x :: l) ++ String "]" rest) with
  | Some (l', r') => Some (VList l', r')
  | None => None
  end.
Proof.
  destruct (elems_head x l) as (c & r & E & H). rewrite E.
  simpl append. destruct (head_dispatch c (r ++ String "]" rest) H) as [H1 _].
  cbn [parse_value strip_prefix head_is]. simpl Ascii.eqb. cbv beta iota.
  change (head_is "]" (String c (r ++ String "]" rest))) with
    (head_is "]" (String c (r ++ String "]" rest))).
  rewrite H1. reflexivity.
Qed.

Lemma parse_value_dict f k x d rest :
  parse_value (S f) (String "{" (members ((k, x) :: d) ++ String "}" rest)) =
  match parse_members f (members ((k, x) :: d) ++ String "}" rest) with
  | Some (d', r') => Some (VDict (dict_of_pairs d'), r')
  | None => None
  end.
Proof.
  assert (E : exists r, members ((k, x) :: d) = String quote r).
  { destruct d as [|kv d]; [rewrite members_one | rewrite members_cons2];
      unfold dumps_str; simpl; eexists; reflexivity. }
  destruct E as [r E]. rewrite E. reflexivity.
Qed.

Theorem reads_back_all (v : value) : reads_back v.
Proof.
  induction v as [| b | z | s | l IH | d IH] using value_ind';
    intros f rest Hwf Hrest Hf.
  - destruct f as [|f]; [simpl in Hf; lia|]. reflexivity.
  - destruct f as [|f]; [destruct b; simpl in Hf; lia|]. destruct b; reflexivity.
  - destruct (dumps_int_head z) as (c & r & E & _ & Hc).
    destruct f as [|f]; [simpl in Hf; rewrite E in Hf; simpl in Hf; lia|].
    pose proof (parse_int_dumps z rest Hrest) as P.
    simpl dumps in *. rewrite E in *. simpl append in *.
    now rewrite int_dispatch.
  - destruct f as [|f]; [simpl in Hf; lia|].
    simpl dumps. unfold dumps_str. simpl append.
    cbn [parse_value strip_prefix head_is]. simpl Ascii.eqb. cbv beta iota.
    rewrite append_assoc. simpl append. now rewrite parse_chars_escape.
  - rewrite dumps_list in *.
    destruct f as [|f]; [simpl in Hf; lia|].
    destruct l as [|x l]; [reflexivity|].
    rewrite !append_assoc. cbn [append].
    repeat (first [rewrite length_append in Hf
                  | progress (cbn [String.length append] in Hf)]).
    rewrite parse_value_list, parse_elems_ok; auto. lia.
  - rewrite dumps_dict in *.
    destruct f as [|f]; [simpl in Hf; lia|].
    destruct d as [|[k x] d]; [reflexivity|].
    rewrite !append_assoc. cbn [append].
    repeat (first [rewrite length_append in Hf
                  | progress (cbn [String.length append] in Hf)]).
    cbn [wf] in Hwf. apply andb_prop in Hwf as [Hk Hwf].
    rewrite parse_value_dict, parse_members_ok; auto; [|lia].
    now rewrite dict_of_pairs_distinct.
Qed.

Theorem loads_dumps (v : value) : wf v = true -> loads (dumps v) = Some v.
Proof.
  intros Hwf. unfold loads.
  pose proof (reads_back_all v (S (2 * String.length (dumps v))) EmptyString
                Hwf eq_refl) as H.
  rewrite append_nil_r in H. rewrite H; [reflexivity | lia].
Qed.
End JsonFacts.

(** ** PyJWT: a token decodes to the claims it was made from *)

Module PyJWTFacts.
Import PyJWT.

Section WithKeys.
Context {E : Ed25519}.

Lemma header_wf (kid : string) : wf (VDict (header kid)) = true.
Proof. reflexivity. Qed.

Lemma load_encode (payload : dict) (sk : PrivateKey) (kid : string) :
  load (encode payload sk kid)
  = Ok {| l_payload := Json.dumps (VDict payload);
          l_signing_input := signing_input kid payload;
          l_header := header kid;
          l_signature := sign sk (signing_input kid payload) |}.
Proof.
  unfold load, encode.
  change ("." ++ Base64Url.encode (sign sk (signing_input kid payload)))
    with (String "." (Base64Url.encode (sign sk (signing_input kid payload)))).
  rewrite SplitFacts.split_last_app by apply Base64UrlFacts.encode_no_dot.
  cbn [bind or_decode_error]. unfold signing_input at 1.
  change ("." ++ Base64Url.encode (Json.dumps (VDict payload)))
    with (String "." (Base64Url.encode (Json.dumps (VDict payload)))).
  rewrite SplitFacts.split_first_app by apply Base64UrlFacts.encode_no_dot.
  cbn [bind or_decode_error].
  rewrite !Base64UrlFacts.b64_decode_encode. cbn [bind or_decode_error].
  rewrite JsonFacts.loads_dumps by apply header_wf.
  reflexivity.
Qed.

Lemma decode_unverified_encode (payload : dict) (sk : PrivateKey)
      (kid : string) :
  wf (VDict payload) = true ->
  decode_unverified (encode payload sk kid) = Ok payload.
Proof.
  intros Hwf. unfold decode_unverified. rewrite load_encode.
  cbn [bind]. unfold decode_payload. cbn [l_payload].
  rewrite JsonFacts.loads_dumps by exact Hwf. reflexivity.
Qed.

Lemma jwt_decode_encode (payload : dict) (sk : PrivateKey) (kid : string)
      (require : list string) :
  sign_verifies E ->
  wf (VDict payload) = true ->
  validate_required_claims payload require = Ok tt ->
  decode (encode payload sk kid) (public_key sk) require = Ok payload.
Proof.
  intros HE Hwf Hreq. unfold decode. rewrite load_encode.
  cbn [bind]. unfold verify_signature.
  cbn [l_header l_signature l_signing_input].
  change (eq_str (get (header kid) "alg") "EdDSA") with true.
  cbn [negb raise_if bind]. rewrite HE. cbn [negb raise_if bind].
  unfold decode_payload. cbn [l_payload].
  rewrite JsonFacts.loads_dumps by exact Hwf. cbn [bind or_decode_error].
  rewrite Hreq. reflexivity.
Qed.

Lemma decode_encode_other_key (payload : dict) (sk : PrivateKey)
      (kid : string) (pk : PublicKey) (require : list string) :
  verify pk (sign sk (signing_input kid payload))
         (signing_input kid payload) = false ->
  decode (encode payload sk kid) pk require = Raise JwtInvalidSignatureError.
Proof.
  intros Hv. unfold decode. rewrite load_encode.
  cbn [bind]. unfold verify_signature.
  cbn [l_header l_signature l_signing_input].
  change (eq_str (get (header kid) "alg") "EdDSA") with true.
  cbn [negb raise_if bind]. rewrite Hv. reflexivity.
Qed.

End WithKeys.
End PyJWTFacts.

(** ** The verifier follows the pipeline *)

Module PipelineFacts.
Import Pipeline.

Section WithKeys.
Context {E : Ed25519}.

Lemma load_raises (token : string) (e : exn) :
  PyJWT.load token = Raise e -> e = JwtDecodeError.
Proof.
  unfold PyJWT.load.
  destruct (PyJWT.split_last token) as [[input crypto]|];
    cbn [bind PyJWT.or_decode_error]; [|congruence].
  destruct (PyJWT.split_first input) as [[h p]|];
    cbn [bind PyJWT.or_decode_error]; [|congruence].
  destruct (Base64Url.decode h) as [hd|];
    cbn [bind PyJWT.or_decode_error]; [|congruence].
  destruct (Json.loads hd) as [[| | | | |hdr]|];
    cbn [bind PyJWT.or_decode_error]; try congruence.
  destruct (Base64Url.decode p) as [pd|];
    cbn [bind PyJWT.or_decode_error]; [|congruence].
  destruct (Base64Url.decode crypto) as [sd|];
    cbn [bind PyJWT.or_decode_error]; congruence.
Qed.

Lemma required_present (p : dict) :
  PyJWT.validate_required_claims p ["jti"; "iss"; "iat"] =
  if present p "jti" && present p "iss" && present p "iat"
  then Ok tt else Raise JwtMissingRequiredClaimError.
Proof.
  unfold present. cbn [PyJWT.validate_required_claims].
  destruct (get p "jti"), (get p "iss"), (get p "iat"); reflexivity.
Qed.

Lemma rules_pipeline (ver : LicenseVerifier.t) (now : Z) (p : dict)
      (m v : string) (u d : option string) :
  try_except (LicenseVerifier.business_rules ver now p m v u d)
             LicenseVerifier.handler =
  conclude (first_failure [check_expiry now p; check_issuer ver p;
                           check_product m p; check_version v p;
                           check_binding u d p; check_policy p]) p.
Proof.
  unfold LicenseVerifier.business_rules, check_expiry, check_issuer,
    check_product, check_version, check_binding, check_policy.
  unfold dict_has, get, get_default.
  destruct (dict_get p "exp") as [[| b | e | | |]|] eqn:Eexp;
    cbn [clock_ge as_number bind]; try reflexivity.
  1: destruct ((if b then 1 else 0) <=? now); cbn [raise_if bind first_failure conclude]; [reflexivity|].
  2: destruct (e <=? now); cbn [raise_if bind first_failure conclude]; [reflexivity|].
  all: cbn [raise_if bind first_failure conclude].
  all: destruct (eq_str _ (LicenseVerifier.expected_issuer ver));
    cbn [negb raise_if bind first_failure conclude]; try reflexivity.
  all: destruct (dict_get p "module") as [[| | | | | mi]|];
    cbn [value_get value_get_default bind first_failure conclude];
    try reflexivity.
  all: unfold get, get_default.
  all: try (destruct (eq_str _ m);
    cbn [negb raise_if bind first_failure conclude]; try reflexivity).
  all: try (destruct (dict_get mi "allowed_major_versions")
              as [[| | | s | l | dd]|];
    cbn [str_in member_of bind existsb negb raise_if first_failure conclude];
    try reflexivity).
  all: try (destruct (contains v s);
    cbn [negb raise_if bind first_failure conclude]; try reflexivity).
  all: try (destruct (existsb _ l);
    cbn [negb raise_if bind first_failure conclude]; try reflexivity).
  all: try (destruct (dict_has dd v);
    cbn [negb raise_if bind first_failure conclude]; try reflexivity).
  all: destruct (dict_get p "instance_fingerprint") as [f|];
    cbn [bind first_failure conclude].
  all: try (destruct u as [u|], d as [d|];
    cbn [truthy_str negb orb raise_if bind first_failure conclude LicenseVerifier.the_str];
    try reflexivity).
  all: try (destruct (String.eqb u EmptyString);
    cbn [truthy_str negb orb raise_if bind first_failure conclude];
    try reflexivity).
  all: try (destruct (String.eqb d EmptyString);
    cbn [truthy_str negb orb raise_if bind first_failure conclude];
    try reflexivity).
  all: unfold LicenseVerifier._generate_fingerprint.
  all: try (destruct (eq_str f _);
    cbn [truthy_str negb orb raise_if bind first_failure conclude];
    try reflexivity).
  all: try (destruct (eq_str _ "demo" && _);
    cbn [negb raise_if bind first_failure conclude]; reflexivity).
Qed.

(** The source-shaped verifier and the check-by-check pipeline agree on
    every token and context. *)
Lemma verify_license_run (ver : LicenseVerifier.t) (now : Z)
      (token m v : string) (u d : option string) :
  LicenseVerifier.verify_license ver now token m v u d
  = run ver now token m v u d.
Proof.
  unfold LicenseVerifier.verify_license, run, checks, check_token,
    claims_of, PyJWT.decode, PyJWT.decode_unverified.
  destruct (PyJWT.load token) as [l|e] eqn:EL.
  - cbn [bind]. unfold PyJWT.verify_signature.
    destruct (eq_str (get (PyJWT.l_header l) "alg") "EdDSA");
      cbn [negb raise_if bind]; [|reflexivity].
    destruct (verify _ _ _); cbn [negb raise_if bind]; [|reflexivity].
    unfold PyJWT.decode_payload.
    destruct (Json.loads (PyJWT.l_payload l)) as [[| | | | | p]|];
      cbn [bind PyJWT.or_decode_error]; try reflexivity.
    rewrite required_present. unfold check_mandatory.
    destruct (present p "jti" && present p "iss" && present p "iat");
      cbn [bind first_failure]; [|reflexivity].
    apply rules_pipeline.
  - apply load_raises in EL. subst e. reflexivity.
Qed.
End WithKeys.
End PipelineFacts.

(** ** The issuer: what it signs *)

Module IssuerFacts.

Lemma mem_eq_str (v : string) (l : list string) :
  existsb (fun x => eq_str x v) (map VStr l) = mem v l.
Proof.
  unfold mem. induction l as [|x l IH]; simpl; [reflexivity|].
  now rewrite IH, String.eqb_sym.
Qed.

Lemma wf_strs (l : list string) : forallb wf (map VStr l) = true.
Proof. induction l; simpl; auto. Qed.

Lemma issued_claims_wf iss id cid cname m vs k now dur fp :
  wf (VDict (issued_claims iss id cid cname m vs k now dur fp)) = true.
Proof.
  unfold issued_claims.
  destruct (expiry_of k now dur) as [e|], fp as [f|];
    try destruct (String.eqb f EmptyString);
    cbn -[wf_strs]; now rewrite wf_strs.
Qed.

Section WithKeys.
Context {E : Ed25519}.

Lemma issue_license_ok (svc : LicenseService.t) now id cid cname m vs k
      dur fp :
  mem k valid_types = true ->
  (mem k ["subscription"; "demo"] = true -> dur <> None) ->
  LicenseService.issue_license svc now id cid cname m vs k dur fp
  = Ok (PyJWT.encode
          (issued_claims (LicenseService.issuer svc) id cid cname m vs k
                         now dur fp)
          (LicenseService.private_key svc) (LicenseService.key_id svc)).
Proof.
  intros Hk Hd. unfold LicenseService.issue_license, issued_claims, expiry_of.
  rewrite Hk. cbn [negb raise_if bind].
  destruct (mem k ["subscription"; "demo"]).
  - destruct dur as [d0|]; [|now exfalso; apply Hd].
    cbn [bind option_map].
    destruct fp as [f|]; cbn [truthy_str];
      [destruct (String.eqb f EmptyString)|]; reflexivity.
  - cbn [bind].
    destruct fp as [f|]; cbn [truthy_str];
      [destruct (String.eqb f EmptyString)|]; reflexivity.
Qed.

Lemma poc_issue_license_ok (iss : LicenseIssuer.t) now id cid cname m vs
      k dur fp :
  mem k valid_types = true ->
  (mem k ["subscription"; "demo"] = true -> dur <> None) ->
  LicenseIssuer.issue_license iss now id cid cname m vs k dur fp
  = Ok (PyJWT.encode
          (issued_claims (LicenseIssuer.issuer iss) id cid cname m vs k
                         now dur fp)
          (LicenseIssuer.private_key iss) (LicenseIssuer.key_id iss)).
Proof.
  intros Hk Hd. unfold LicenseIssuer.issue_license, issued_claims, expiry_of.
  rewrite Hk. cbn [negb raise_if bind].
  destruct (mem k ["subscription"; "demo"]).
  - destruct dur as [d0|]; [|now exfalso; apply Hd].
    cbn [bind option_map].
    destruct fp as [f|]; cbn [truthy_str];
      [destruct (String.eqb f EmptyString)|]; reflexivity.
  - cbn [bind].
    destruct fp as [f|]; cbn [truthy_str];
      [destruct (String.eqb f EmptyString)|]; reflexivity.
Qed.

Lemma issue_ok (svc : LicenseService.t) (now : Z) (prm : params) :
  mem (kind prm) valid_types = true ->
  duration_given prm = true ->
  issue svc now prm
  = Ok (PyJWT.encode (claims_for (LicenseService.issuer svc) now prm)
          (LicenseService.private_key svc) (LicenseService.key_id svc)).
Proof.
  intros Hk Hd. unfold issue, claims_for. apply issue_license_ok; auto.
  unfold duration_given in Hd. intros Hm. rewrite Hm in Hd.
  destruct (duration prm); [discriminate | discriminate Hd].
Qed.

End WithKeys.
End IssuerFacts.

(** ** The checks on issued claims *)

Module IssuedFacts.
Import Pipeline.

Section Claims.
Variables (iss : string) (now : Z) (prm : params).
Let p := claims_for iss now prm.

Ltac split_claims :=
  unfold p, claims_for, issued_claims;
  destruct (expiry_of (kind prm) now (duration prm)) as [e|];
  destruct (instance_fingerprint prm) as [f|];
  try destruct (String.eqb f EmptyString).

Lemma get_exp :
  dict_get p "exp"
  = option_map VInt (expiry_of (kind prm) now (duration prm)).
Proof. split_claims; reflexivity. Qed.

Lemma get_fingerprint :
  dict_get p "instance_fingerprint" = option_map VStr (binding_of prm).
Proof.
  unfold binding_of, p, claims_for, issued_claims.
  destruct (expiry_of (kind prm) now (duration prm)) as [e|];
    destruct (instance_fingerprint prm) as [f|];
    try destruct (String.eqb f EmptyString); reflexivity.
Qed.

Lemma get_module :
  dict_get p "module"
  = Some (VDict [("technical_name", VStr (product_name prm));
                 ("allowed_major_versions",
                  VList (map VStr (allowed_versions prm)))]).
Proof. split_claims; reflexivity. Qed.

Lemma get_customer :
  dict_get p "customer"
  = Some (VDict [("id", VStr (customer_id prm));
                 ("name", VStr (customer_name prm))]).
Proof. split_claims; reflexivity. Qed.

Lemma get_jti : dict_get p "jti" = Some (VStr (license_id prm)).
Proof. split_claims; reflexivity. Qed.

Lemma get_iss : dict_get p "iss" = Some (VStr iss).
Proof. split_claims; reflexivity. Qed.

Lemma get_iat : dict_get p "iat" = Some (VInt now).
Proof. split_claims; reflexivity. Qed.

Lemma get_license_type : dict_get p "license_type" = Some (VStr (kind prm)).
Proof. split_claims; reflexivity. Qed.

Lemma claims_wf : wf (VDict p) = true.
Proof. apply IssuerFacts.issued_claims_wf. Qed.

Lemma mandatory_pass : check_mandatory p = Pass.
Proof.
  unfold check_mandatory, present, get.
  now rewrite get_jti, get_iss, get_iat.
Qed.

Lemma required_ok :
  PyJWT.validate_required_claims p ["jti"; "iss"; "iat"] = Ok tt.
Proof.
  rewrite PipelineFacts.required_present.
  pose proof mandatory_pass as H. unfold check_mandatory in H.
  destruct (present p "jti" && present p "iss" && present p "iat");
    [reflexivity | discriminate H].
Qed.

Lemma expiry_outcome (t : Z) :
  check_expiry t p =
  match expiry_of (kind prm) now (duration prm) with
  | Some e => if e <=? t then Fail Expired else Pass
  | None => Pass
  end.
Proof.
  unfold check_expiry. rewrite get_exp.
  now destruct (expiry_of (kind prm) now (duration prm)).
Qed.

Lemma product_outcome (m : string) :
  check_product m p =
  if String.eqb (product_name prm) m then Pass else Fail ProductMismatch.
Proof. unfold check_product. now rewrite get_module. Qed.

Lemma version_outcome (v : string) :
  check_version v p =
  if mem v (allowed_versions prm) then Pass else Fail VersionNotAllowed.
Proof.
  unfold check_version. rewrite get_module.
  cbn [dict_get String.eqb Ascii.eqb Bool.eqb member_of].
  now rewrite IssuerFacts.mem_eq_str.
Qed.

Lemma binding_outcome (u d : option string) :
  check_binding u d p =
  match binding_of prm with
  | None => Pass
  | Some f =>
      match u, d with
      | Some u, Some d =>
          if String.eqb u EmptyString || String.eqb d EmptyString
          then Fail BindingContextMissing
          else if String.eqb f (generate_instance_fingerprint u d)
               then Pass else Fail InstanceMismatch
      | _, _ => Fail BindingContextMissing
      end
  end.
Proof.
  unfold check_binding. rewrite get_fingerprint.
  now destruct (binding_of prm).
Qed.

Lemma policy_outcome :
  check_policy p =
  if String.eqb (kind prm) "demo"
     && match expiry_of (kind prm) now (duration prm) with
        | Some e => e =? 0
        | None => true
        end
  then Fail PolicyViolation else Pass.
Proof.
  unfold check_policy, get. rewrite get_license_type, get_exp.
  cbn [eq_str]. destruct (expiry_of (kind prm) now (duration prm));
    cbn [option_map truthy]; [now rewrite negb_involutive | reflexivity].
Qed.
End Claims.

Section WithKeys.
Context {E : Ed25519}.
Variables (svc : LicenseService.t) (now : Z) (prm : params).
Let p := claims_for (LicenseService.issuer svc) now prm.
Let token := PyJWT.encode p (LicenseService.private_key svc)
                          (LicenseService.key_id svc).

Lemma claims_of_issued : claims_of token = p.
Proof.
  unfold claims_of, token.
  now rewrite PyJWTFacts.decode_unverified_encode by apply claims_wf.
Qed.

Lemma token_outcome (ver : LicenseVerifier.t) :
  check_token ver token =
  if verify (LicenseVerifier.public_key ver)
            (sign (LicenseService.private_key svc)
                  (PyJWT.signing_input (LicenseService.key_id svc) p))
            (PyJWT.signing_input (LicenseService.key_id svc) p)
  then Pass else Fail InvalidSignature.
Proof.
  unfold check_token, token. rewrite PyJWTFacts.load_encode.
  cbn [PyJWT.l_header PyJWT.l_signature PyJWT.l_signing_input
         PyJWT.l_payload].
  change (eq_str (get (PyJWT.header (LicenseService.key_id svc)) "alg")
                 "EdDSA") with true.
  cbn [negb]. destruct (verify _ _ _); cbn [negb]; [|reflexivity].
  now rewrite JsonFacts.loads_dumps by apply claims_wf.
Qed.

Lemma issuer_outcome (ver : LicenseVerifier.t) :
  check_issuer ver p =
  if String.eqb (LicenseService.issuer svc)
                (LicenseVerifier.expected_issuer ver)
  then Pass else Fail UntrustedIssuer.
Proof. unfold check_issuer, get, p. now rewrite get_iss. Qed.

(** Verification of an issued token by a verifier that trusts the
    issuer: the first two checks and the issuer check pass. *)
Lemma verify_issued (ver : LicenseVerifier.t) (t : Z) (m v : string)
      (u d : option string) :
  sign_verifies E -> trusts ver svc ->
  LicenseVerifier.verify_license ver t token m v u d =
  conclude (first_failure [check_expiry t p; check_product m p;
                           check_version v p; check_binding u d p;
                           check_policy p]) p.
Proof.
  intros HE [Hkey Hiss].
  rewrite PipelineFacts.verify_license_run. unfold run, checks.
  rewrite claims_of_issued, token_outcome, Hkey, HE.
  fold p. rewrite (mandatory_pass _ _ _ : check_mandatory p = Pass).
  rewrite issuer_outcome, Hiss, String.eqb_refl.
  cbn [first_failure].
  destruct (check_expiry t p); reflexivity.
Qed.
End WithKeys.
End IssuedFacts.

(** ** Left-to-right composition *)

Module OrderFacts.
Import Pipeline.



Lemma first_failure_pass (os : list outcome) :
  first_failure os = Pass -> forall o, In o os -> o = Pass.
Proof.
  induction os as [|x os IH]; intros H o Ho; [destruct Ho|].
  destruct x; simpl in H; try discriminate.
  destruct Ho as [<-|Ho]; [reflexivity | now apply IH].
Qed.

Lemma first_failure_inv (os : list outcome) (o : outcome) :
  first_failure os = o -> o <> Pass ->
  exists i, nth_error os i = Some o
            /\ forall j, (j < i)%nat -> nth_error os j = Some Pass.
Proof.
  induction os as [|x os IH]; intros H Ho.
  - simpl in H. congruence.
  - destruct x.
    + simpl in H. destruct (IH H Ho) as (i & Hi & Hb).
      exists (S i). split; [exact Hi|].
      intros [|j] Hj; [reflexivity|]. apply Hb. lia.
    + simpl in H. exists 0%nat.
      split; [simpl; congruence | intros j Hj; lia].
    + simpl in H. exists 0%nat.
      split; [simpl; congruence | intros j Hj; lia].
Qed.

Section WithKeys.
Context {E : Ed25519}.
Variables (ver : LicenseVerifier.t) (now : Z) (token m v : string)
          (u d : option string).

Lemma member_of_listed (c : value) (r : reason) :
  member_of v c = Fail r -> r = VersionNotAllowed.
Proof.
  destruct c as [| | | s | l | dd]; simpl; try discriminate.
  - destruct (contains v s); congruence.
  - destruct (existsb _ l); congruence.
  - destruct (dict_has dd v); congruence.
Qed.

Lemma member_of_abort (c : value) (e : exn) :
  member_of v c = Abort e -> e = TypeError.
Proof.
  destruct c as [| | | s | l | dd]; simpl; try congruence.
  - destruct (contains v s); congruence.
  - destruct (existsb _ l); congruence.
  - destruct (dict_has dd v); congruence.
Qed.

(** Each check fails only with the errors listed for its position. *)
Lemma checks_listed (i : nat) (r : reason) :
  nth_error (checks ver now token m v u d) i = Some (Fail r) ->
  listed i r = true.
Proof.
  unfold checks. set (p := claims_of token).
  destruct i as [|[|[|[|[|[|[|[|i]]]]]]]]; simpl;
    try (intros [= H]; revert H); [ | | | | | | | | destruct i; discriminate].
  - unfold check_token. destruct (PyJWT.load token) as [l|e].
    + destruct (negb _); [intros [= <-]; reflexivity|].
      destruct (negb _); [intros [= <-]; reflexivity|].
      destruct (Json.loads _) as [[| | | | |]|]; intros [= <-]; reflexivity.
    + intros [= <-]; reflexivity.
  - unfold check_mandatory. destruct (_ && _); intros [= <-]; reflexivity.
  - unfold check_expiry.
    destruct (dict_get p "exp") as [[| b | e | | |]|]; try discriminate.
    + destruct (_ <=? now); intros [= <-]; reflexivity.
    + destruct (_ <=? now); intros [= <-]; reflexivity.
  - unfold check_issuer. destruct (eq_str _ _); intros [= <-]; reflexivity.
  - unfold check_product.
    destruct (dict_get p "module") as [[| | | | | mi]|]; try discriminate.
    + destruct (eq_str _ _); intros [= <-]; reflexivity.
    + intros [= <-]; reflexivity.
  - unfold check_version.
    destruct (dict_get p "module") as [[| | | | | mi]|]; try discriminate.
    + destruct (dict_get mi "allowed_major_versions") as [c|].
      * intros H. now rewrite (member_of_listed c r H).
      * intros [= <-]; reflexivity.
    + intros [= <-]; reflexivity.
  - unfold check_binding.
    destruct (dict_get p "instance_fingerprint") as [f|]; try discriminate.
    destruct u as [iu|], d as [id|]; try (intros [= <-]; reflexivity).
    destruct (_ || _); [intros [= <-]; reflexivity|].
    destruct (eq_str _ _); intros [= <-]; reflexivity.
  - unfold check_policy. destruct (_ && _); intros [= <-]; reflexivity.
Qed.

(** A check aborts only with a type error of Python's. *)
Lemma checks_abort (i : nat) (e : exn) :
  nth_error (checks ver now token m v u d) i = Some (Abort e) ->
  e = TypeError \/ e = AttributeError.
Proof.
  unfold checks. set (p := claims_of token).
  destruct i as [|[|[|[|[|[|[|[|i]]]]]]]]; simpl;
    try (intros [= H]; revert H); [ | | | | | | | | destruct i; discriminate].
  - unfold check_token. destruct (PyJWT.load token) as [l|e'].
    + destruct (negb _); [discriminate|].
      destruct (negb _); [discriminate|].
      destruct (Json.loads _) as [[| | | | |]|]; discriminate.
    + discriminate.
  - unfold check_mandatory. destruct (_ && _); discriminate.
  - unfold check_expiry.
    destruct (dict_get p "exp") as [[| b | z | | |]|];
      try (intros [= <-]; now left); try discriminate.
    + destruct (_ <=? now); discriminate.
    + destruct (_ <=? now); discriminate.
  - unfold check_issuer. destruct (eq_str _ _); discriminate.
  - unfold check_product.
    destruct (dict_get p "module") as [[| | | | | mi]|];
      try (intros [= <-]; now right); try discriminate.
    destruct (eq_str _ _); discriminate.
  - unfold check_version.
    destruct (dict_get p "module") as [[| | | | | mi]|];
      try (intros [= <-]; now right); try discriminate.
    destruct (dict_get mi "allowed_major_versions") as [c|];
      [|discriminate].
    intros H. left. exact (member_of_abort c e H).
  - unfold check_binding.
    destruct (dict_get p "instance_fingerprint") as [f|]; try discriminate.
    destruct u as [iu|], d as [id|]; try discriminate.
    destruct (_ || _); [discriminate|].
    destruct (eq_str _ _); discriminate.
  - unfold check_policy. destruct (_ && _); discriminate.
Qed.
End WithKeys.
End OrderFacts.

(* ================================================================== *)
(** * The claims *)
(* ================================================================== *)

Section Claims.
Context {E : Ed25519}.
Import Pipeline.


(** A signed token whose expiry claim is a string: the expiry check
    cannot be evaluated and Python's [TypeError] leaves the verifier
    untranslated. *)
Remark ill_typed_expiry_aborts :
  LicenseVerifier.verify_license acme_verifier t0
    (signed "issuer-key"
       [("jti", VStr "id-4"); ("iss", VStr "https://license.biz4a.com");
        ("iat", VInt t0); ("exp", VStr "2027-01-01")])
    "payroll" "18" None None
  = Raise TypeError.
Proof. vm_compute. reflexivity. Qed.

(** The answer for a token of the issuer, given to a verifier that
    trusts the issuer, at a time when the token has not expired. *)
Lemma verify_unexpired (svc : LicenseService.t) (ver : LicenseVerifier.t)
      (t_issue t : Z) (prm : params) (m v : string) (u d : option string) :
  sign_verifies E -> trusts ver svc ->
  (forall e, expiry_of (kind prm) t_issue (duration prm) = Some e -> t < e) ->
  let p := claims_for (LicenseService.issuer svc) t_issue prm in
  LicenseVerifier.verify_license ver t
    (PyJWT.encode p (LicenseService.private_key svc)
                  (LicenseService.key_id svc)) m v u d
  = conclude (first_failure [check_product m p; check_version v p;
                             check_binding u d p; check_policy p]) p.
Proof.
  intros HE Ht Hexp p. subst p.
  rewrite (IssuedFacts.verify_issued svc t_issue prm ver t m v u d HE Ht).
  rewrite IssuedFacts.expiry_outcome.
  destruct (expiry_of (kind prm) t_issue (duration prm)) as [e|];
    [|reflexivity].
  specialize (Hexp e eq_refl).
  destruct (Z.leb_spec e t); [lia | reflexivity].
Qed.

Lemma binding_satisfied_pass (iss : string) (t_issue : Z) (prm : params)
      (u d : option string) :
  binding_satisfied prm u d = true ->
  check_binding u d (claims_for iss t_issue prm) = Pass.
Proof.
  unfold binding_satisfied. rewrite IssuedFacts.binding_outcome.
  destruct (binding_of prm) as [f|]; [|reflexivity].
  destruct u as [iu|], d as [id|]; try discriminate.
  destruct (String.eqb iu EmptyString), (String.eqb id EmptyString);
    simpl; try discriminate.
  now intros ->.
Qed.

(** With a positive expiry a demo passes the policy check. *)
Lemma policy_pass (iss : string) (t_issue : Z) (prm : params) :
  (forall e, expiry_of (kind prm) t_issue (duration prm) = Some e -> 0 < e) ->
  duration_given prm = true ->
  check_policy (claims_for iss t_issue prm) = Pass.
Proof.
  intros Hpos Hd. rewrite IssuedFacts.policy_outcome.
  destruct (String.eqb_spec (kind prm) "demo") as [Hk|Hk]; [|reflexivity].
  unfold expiry_of, duration_given in *. rewrite Hk in *. simpl in *.
  destruct (duration prm) as [d0|]; [|discriminate].
  simpl in *. specialize (Hpos _ eq_refl).
  destruct (Z.eqb_spec (Datetime.add_days t_issue d0) 0); [lia | reflexivity].
Qed.


Lemma issue_inv (svc : LicenseService.t) (t_issue : Z) (prm : params)
      (token : string) :
  issue svc t_issue prm = Ok token ->
  mem (kind prm) valid_types = true /\ duration_given prm = true.
Proof.
  unfold issue, LicenseService.issue_license, duration_given.
  destruct (mem (kind prm) valid_types); cbn [negb raise_if bind];
    [|discriminate].
  destruct (mem (kind prm) ["subscription"; "demo"]); [|now split].
  destruct (duration prm); [now split | discriminate].
Qed.

Lemma issue_token (svc : LicenseService.t) (t_issue : Z) (prm : params)
      (token : string) :
  issue svc t_issue prm = Ok token ->
  token = PyJWT.encode (claims_for (LicenseService.issuer svc) t_issue prm)
            (LicenseService.private_key svc) (LicenseService.key_id svc).
Proof.
  intros H. destruct (issue_inv _ _ _ _ H) as [Hk Hd].
  rewrite (IssuerFacts.issue_ok svc t_issue prm Hk Hd) in H. congruence.
Qed.


(** C4 (amended).  For a subscription or a demo, both issuers fail with
    [ValueError] (InvalidParameters) when the duration is absent, and no
    token is produced.  A duration of zero or less is not refused by the
    issuer itself; it is refused in front of it, by the request schema and
    the handler of [POST /licenses], so that no token is created through
    the endpoint either. *)
Theorem C4_duration_required (svc : LicenseService.t) (poc : LicenseIssuer.t)
        (now : Z) (id cid cname m : string) (vs : list string) (k : string)
        (fp : option string) :
  mem k ["subscription"; "demo"] = true ->
  LicenseService.issue_license svc now id cid cname m vs k None fp
  = Raise ValueError
  /\ LicenseIssuer.issue_license poc now id cid cname m vs k None fp
     = Raise ValueError
  /\ (forall customer request,
         Api.license_type request = k ->
         match Api.duration_days request with
         | None => True
         | Some days => days <= 0
         end ->
         forall token,
           Api.issue_license svc now id customer request <> Api.Created token).
Proof.
  intros Hk.
  assert (Hv : mem k valid_types = true).
  { unfold mem in *. simpl in *.
    destruct (String.eqb k "subscription"), (String.eqb k "demo");
      try discriminate; now rewrite ?orb_true_r. }
  split; [|split].
  - unfold LicenseService.issue_license. now rewrite Hv, Hk.
  - unfold LicenseIssuer.issue_license. now rewrite Hv, Hk.
  - intros customer request Hty Hdur token.
    unfold Api.issue_license.
    destruct (negb (Api.validate request)) eqn:Hval; [discriminate|].
    destruct customer as [[cid' cname']|]; [|discriminate].
    rewrite Hty, Hk. cbn [andb].
    destruct (Api.duration_days request) as [days|] eqn:Hd;
      [|discriminate].
    exfalso. apply negb_false_iff in Hval.
    unfold Api.validate in Hval. rewrite Hd in Hval.
    repeat (apply andb_prop in Hval as [Hval ?]).
    destruct (Z.leb_spec 1 days); [lia | discriminate].
Qed.







(** Only the expiry check answers [Expired]. *)
Lemma expired_only_by_expiry (ver : LicenseVerifier.t) (now : Z)
      (token m v : string) (u d : option string) :
  LicenseVerifier.verify_license ver now token m v u d
  = Raise (LicenseVerificationError Expired) ->
  check_expiry now (claims_of token) = Fail Expired.
Proof.
  rewrite PipelineFacts.verify_license_run. unfold run. intros H.
  destruct (first_failure (checks ver now token m v u d)) as [|r|e] eqn:Ef;
    cbn [conclude] in H; try discriminate.
  - injection H as ->.
    destruct (OrderFacts.first_failure_inv _ _ Ef) as (i & Hi & _);
      [discriminate|].
    pose proof (OrderFacts.checks_listed ver now token m v u d i Expired Hi)
      as Hl.
    destruct i as [|[|[|i]]]; try discriminate Hl.
    + simpl in Hi. congruence.
    + destruct i as [|[|[|[|[|i]]]]]; discriminate Hl.
  - injection H as ->.
    destruct (OrderFacts.first_failure_inv _ _ Ef) as (i & Hi & _);
      [discriminate|].
    destruct (OrderFacts.checks_abort ver now token m v u d i _ Hi);
      discriminate.
Qed.

(** C8.  Every token issued with the perpetual kind carries no [exp]
    claim at all, and no verifier, at no clock reading and in no context,
    answers [Expired] for it. *)
Theorem C8_perpetual_never_expires (svc : LicenseService.t) (t_issue : Z)
        (prm : params) :
  kind prm = "perpetual" ->
  exists token,
    issue svc t_issue prm = Ok token
    /\ dict_has (claims_of token) "exp" = false
    /\ (forall (ver : LicenseVerifier.t) t m v u d,
          LicenseVerifier.verify_license ver t token m v u d
          <> Raise (LicenseVerificationError Expired)).
Proof.
  intros Hk.
  assert (Hexp : expiry_of (kind prm) t_issue (duration prm) = None).
  { unfold expiry_of. now rewrite Hk. }
  eexists. split.
  { apply (IssuerFacts.issue_ok svc t_issue prm).
    - now rewrite Hk.
    - unfold duration_given. now rewrite Hk. }
  rewrite IssuedFacts.claims_of_issued.
  split.
  - unfold dict_has. now rewrite IssuedFacts.get_exp, Hexp.
  - intros ver t m v u d H.
    apply expired_only_by_expiry in H.
    rewrite IssuedFacts.claims_of_issued, IssuedFacts.expiry_outcome, Hexp in H.
    discriminate.
Qed.

End Claims.

Lemma format_in_range (ts : Z) :
  in_datetime_range ts = true ->
  exists s, LicenseVerifier._format_timestamp (VInt ts) = Ok (VStr s).
Proof.
  unfold in_datetime_range, LicenseVerifier._format_timestamp,
    Datetime.isoformat_utc.
  cbn [as_number bind]. intros ->.
  destruct (Datetime.civil_from_days (ts / Datetime.seconds_per_day))
    as [[y mo] dy].
  eexists. reflexivity.
Qed.

(** C9.  [get_license_info] reads the claims without looking at the
    signature: for every well-formed claim payload it returns the same
    information whichever scheme, key and key id signed the token and
    whichever verifier is asked; [verify_license] on a token signed with a key
    whose signatures the configured key rejects fails with
    [InvalidSignature]; and on an issued token whose timestamps [datetime] can
    hold, [get_license_info] gives back the product name, the customer name,
    the license kind and whether a binding was supplied. *)
Theorem C9_inspect_ignores_signature :
  (forall (E1 E2 : Ed25519) (self1 : @LicenseVerifier.t E1)
          (self2 : @LicenseVerifier.t E2) (claims : dict)
          (key1 : @PrivateKey E1) (key2 : @PrivateKey E2) (kid1 kid2 : string),
      wf (VDict claims) = true ->
      LicenseVerifier.get_license_info self1 (PyJWT.encode claims key1 kid1)
      = LicenseVerifier.get_license_info self2 (PyJWT.encode claims key2 kid2))
  /\ (forall (E : Ed25519) (ver : LicenseVerifier.t) (claims : dict)
             (key : PrivateKey) (kid : string) now m v u d,
         verify (LicenseVerifier.public_key ver)
                (sign key (PyJWT.signing_input kid claims))
                (PyJWT.signing_input kid claims) = false ->
         LicenseVerifier.verify_license ver now
           (PyJWT.encode claims key kid) m v u d
         = Raise (LicenseVerificationError InvalidSignature))
  /\ (forall (E : Ed25519) (svc : LicenseService.t) (self : LicenseVerifier.t)
             (t_issue : Z) (prm : params),
         mem (kind prm) valid_types = true ->
         duration_given prm = true ->
         in_datetime_range t_issue = true ->
         (forall e, expiry_of (kind prm) t_issue (duration prm) = Some e ->
                    in_datetime_range e = true) ->
         exists token,
           issue svc t_issue prm = Ok token
           /\ let info := LicenseVerifier.get_license_info self token in
              value_get (get info "module") "technical_name"
              = Ok (VStr (product_name prm))
              /\ value_get (get info "customer") "name"
                 = Ok (VStr (customer_name prm))
              /\ get info "license_type" = VStr (kind prm)
              /\ get info "is_bound"
                 = VBool (match binding_of prm with
                          | Some _ => true
                          | None => false
                          end)).
Proof.
  split; [|split].
  - intros E1 E2 self1 self2 claims key1 key2 kid1 kid2 Hwf.
    unfold LicenseVerifier.get_license_info.
    now rewrite !PyJWTFacts.decode_unverified_encode by exact Hwf.
  - intros E ver claims key kid now m v u d Hrej.
    unfold LicenseVerifier.verify_license.
    now rewrite (PyJWTFacts.decode_encode_other_key claims key kid _ _ Hrej).
  - intros E svc self t_issue prm Hk Hd Hiat Hexp.
    eexists. split; [apply (IssuerFacts.issue_ok svc t_issue prm Hk Hd)|].
    unfold LicenseVerifier.get_license_info.
    rewrite PyJWTFacts.decode_unverified_encode by apply IssuedFacts.claims_wf.
    cbn [bind]. unfold get, get_default.
    rewrite IssuedFacts.get_iat, IssuedFacts.get_exp, IssuedFacts.get_jti,
      IssuedFacts.get_customer, IssuedFacts.get_module,
      IssuedFacts.get_license_type.
    unfold dict_has. rewrite IssuedFacts.get_fingerprint.
    destruct (format_in_range t_issue Hiat) as [s Hs]. rewrite Hs.
    cbn [bind].
    destruct (expiry_of (kind prm) t_issue (duration prm)) as [e|] eqn:Ee;
      cbn [option_map].
    + destruct (format_in_range e (Hexp e eq_refl)) as [s' Hs']. rewrite Hs'.
      cbn [bind]. destruct (binding_of prm); repeat split; reflexivity.
    + destruct (binding_of prm); repeat split; reflexivity.
Qed.

(* ================================================================== *)
(** * The running example: the statements at concrete inputs *)
(* ================================================================== *)

Lemma digest_scheme_verifies : sign_verifies DigestScheme.
Proof. intros sk data. apply String.eqb_refl. Qed.







(** C4, as stated, fails for a duration that is not positive: the license
    service signs a demo of zero days, expiring the instant it is issued,
    and the proof-of-concept issuer signs a subscription of minus five
    days. *)
Lemma C4_counterexample :
  (exists token,
      issue acme_service t0 zero_day_demo = Ok token
      /\ dict_get (Pipeline.claims_of token) "exp" = Some (VInt t0))
  /\ (exists token,
         LicenseIssuer.issue_license acme_poc t0 "id-6" "CUST-004" "Late Ltd"
           "payroll" ["18"] "subscription" (Some (-5)) None = Ok token
         /\ dict_get (Pipeline.claims_of token) "exp"
            = Some (VInt (t0 - 5 * 86400))).
Proof.
  split; eexists; (split; [vm_compute; reflexivity|]); vm_compute; reflexivity.
Qed.

Lemma C4_witness :
  mem "demo" ["subscription"; "demo"] = true
  /\ LicenseService.issue_license acme_service t0 "id-7" "DEMO-125"
       "Prospect Inc" "payroll" ["18"] "demo" None None
     = Raise ValueError
  /\ Api.issue_license acme_service t0 "id-7"
       (Some ("DEMO-125", "Prospect Inc"))
       {| Api.customer_id := "DEMO-125"; Api.module_name := "payroll";
          Api.allowed_major_versions := ["18"]; Api.license_type := "demo";
          Api.duration_days := Some 0; Api.instance_fingerprint := None;
          Api.notes := None |}
     = Api.Unprocessable.
Proof.
  split; [reflexivity|].
  destruct (@C4_duration_required DigestScheme acme_service acme_poc t0
              "id-7" "DEMO-125" "Prospect Inc" "payroll" ["18"] "demo" None
              eq_refl) as (Hsvc & _ & _).
  split; [exact Hsvc | reflexivity].
Defined.





Lemma C8_witness :
  exists token,
    issue acme_service t0 perpetual_payroll = Ok token
    /\ dict_has (Pipeline.claims_of token) "exp" = false
    /\ LicenseVerifier.verify_license acme_verifier (t0 + 86400 * 36500) token
         "payroll" "18" None None
       <> Raise (LicenseVerificationError Expired).
Proof.
  destruct (@C8_perpetual_never_expires DigestScheme acme_service t0
              perpetual_payroll eq_refl)
    as (token & Hissue & Hno & Hnever).
  exists token. split; [exact Hissue|]. split; [exact Hno|]. apply Hnever.
Defined.

Lemma C9_witness :
  LicenseVerifier.get_license_info acme_verifier
    (signed "issuer-key" demo_without_expiry)
  = LicenseVerifier.get_license_info other_verifier
      (signed "another-key" demo_without_expiry)
  /\ LicenseVerifier.verify_license acme_verifier t0
       (signed "another-key" demo_without_expiry) "payroll" "18" None None
     = Raise (LicenseVerificationError InvalidSignature)
  /\ exists token,
      issue acme_service t0 bound_subscription = Ok token
      /\ get (LicenseVerifier.get_license_info acme_verifier token) "is_bound"
         = VBool true.
Proof.
  destruct C9_inspect_ignores_signature as (Hsame & Hother & Hback).
  split; [|split].
  - exact (Hsame DigestScheme DigestScheme acme_verifier other_verifier
             demo_without_expiry "issuer-key" "another-key"
             "aegis-2026-01" "aegis-2026-01" eq_refl).
  - refine (Hother DigestScheme acme_verifier demo_without_expiry
              "another-key" "aegis-2026-01" t0 "payroll" "18" None None _).
    vm_compute. reflexivity.
  - destruct (Hback DigestScheme acme_service acme_verifier t0
                bound_subscription eq_refl eq_refl eq_refl)
      as (token & Hissue & _ & _ & _ & Hbound).
    + intros e He. vm_compute in He. injection He as <-. reflexivity.
    + exists token. split; [exact Hissue | exact Hbound].
Defined.


(* ================================================================== *)
(** * Further properties of the code *)
(* ================================================================== *)

(** ** The instance fingerprint *)

Module ShaFacts.
Import Sha256.
Local Open Scope N_scope.

Lemma round_length st kw :
  List.length st = 8%nat -> List.length (round st kw) = 8%nat.
Proof.
  intros H.
  destruct st as [|a [|b [|c [|d [|e [|f [|g [|h [|x r]]]]]]]]];
    try discriminate H.
  reflexivity.
Qed.

Lemma fold_round_length l st :
  List.length st = 8%nat -> List.length (fold_left round l st) = 8%nat.
Proof.
  revert st. induction l as [|kw l IH]; intros st H; simpl; [exact H|].
  apply IH, round_length, H.
Qed.

Lemma compress_length h block :
  List.length h = 8%nat -> List.length (compress h block) = 8%nat.
Proof.
  intros H. unfold compress. rewrite length_map, length_combine.
  rewrite fold_round_length by exact H. rewrite H. reflexivity.
Qed.

Lemma blocks_length fuel h ws :
  List.length h = 8%nat -> List.length (blocks fuel h ws) = 8%nat.
Proof.
  revert h ws. induction fuel as [|f IH]; intros h ws H; cbn [blocks];
    [exact H|].
  destruct ws; [exact H|]. apply IH, compress_length, H.
Qed.

Lemma be_bytes_length n x : List.length (be_bytes n x) = n.
Proof. unfold be_bytes. now rewrite length_map, length_rev, length_seq. Qed.

Lemma be_bytes_small n x : Forall (fun b => b < 256) (be_bytes n x).
Proof.
  unfold be_bytes. apply Forall_map, Forall_forall. intros i _.
  change 255 with (N.ones 8). rewrite N.land_ones.
  apply N.mod_lt. discriminate.
Qed.

Lemma flat_map_length4 l :
  List.length (flat_map (be_bytes 4) l) = (4 * List.length l)%nat.
Proof.
  induction l as [|x l IH]; [reflexivity|].
  cbn [flat_map]. rewrite length_app, be_bytes_length, IH.
  cbn [List.length]. lia.
Qed.

Lemma H0_length : List.length H0 = 8%nat.
Proof. reflexivity. Qed.

(** A digest has thirty-two bytes, whatever the message. *)
Lemma digest_length msg : List.length (digest msg) = 32%nat.
Proof.
  unfold digest. rewrite flat_map_length4, blocks_length by exact H0_length.
  reflexivity.
Qed.

Lemma digest_small msg : Forall (fun b => b < 256) (digest msg).
Proof.
  unfold digest.
  generalize (blocks (List.length (words (List.length (pad msg)) (pad msg)))
                H0 (words (List.length (pad msg)) (pad msg))).
  intros l. induction l as [|x l IH]; cbn [flat_map]; [constructor|].
  apply Forall_app. split; [apply be_bytes_small | exact IH].
Qed.

Lemma hex_length bs : String.length (hex bs) = (2 * List.length bs)%nat.
Proof. induction bs as [|b r IH]; simpl; [reflexivity|]. rewrite IH. lia. Qed.

Lemma hex_digit_lower n : n < 16 -> lower_hex (Json.hex_digit n) = true.
Proof.
  intros H. unfold Json.hex_digit, lower_hex.
  destruct (n <? 10) eqn:E.
  - apply N.ltb_lt in E. rewrite N_ascii_embedding by lia.
    apply orb_true_iff. left. apply andb_true_iff.
    split; apply N.leb_le; lia.
  - apply N.ltb_ge in E. rewrite N_ascii_embedding by lia.
    apply orb_true_iff. right. apply andb_true_iff.
    split; apply N.leb_le; lia.
Qed.

Lemma hex_lower bs :
  Forall (fun b => b < 256) bs ->
  forallb lower_hex (list_ascii_of_string (hex bs)) = true.
Proof.
  induction 1 as [|b r Hb _ IH]; [reflexivity|].
  cbn [hex list_ascii_of_string forallb].
  rewrite IH, !hex_digit_lower; [reflexivity| |].
  - change 15 with (N.ones 4). rewrite N.land_ones.
    apply N.mod_lt. discriminate.
  - rewrite N.shiftr_div_pow2. change (2 ^ 4) with 16.
    apply N.Div0.div_lt_upper_bound. lia.
Qed.

End ShaFacts.

(** X1.  Whatever the database identifier and the domain, the fingerprint
    is the tag [sha256:] followed by exactly sixty-four lower-case
    hexadecimal digits: seventy-one characters, never more, never fewer. *)
Theorem fingerprint_shape (db_uuid domain : string) :
  exists h : string,
    generate_instance_fingerprint db_uuid domain = "sha256:" ++ h
    /\ String.length h = 64%nat
    /\ forallb lower_hex (list_ascii_of_string h) = true.
Proof.
  exists (Sha256.hexdigest (utf8_encode (db_uuid ++ ":" ++ domain))).
  split; [reflexivity|]. unfold Sha256.hexdigest. split.
  - rewrite ShaFacts.hex_length, ShaFacts.digest_length. reflexivity.
  - apply ShaFacts.hex_lower, ShaFacts.digest_small.
Qed.

(** X2.  The verifier reads the caller's context only as the text
    [installation id : domain]: two contexts, each with both parts given,
    that join to the same text get the same answer for every token, so a
    colon may move from the identifier to the domain unnoticed. *)
Theorem context_read_as_joined_text `{Ed25519} (ver : LicenseVerifier.t)
        (now : Z) (token m v u1 d1 u2 d2 : string) :
  u1 <> EmptyString -> d1 <> EmptyString ->
  u2 <> EmptyString -> d2 <> EmptyString ->
  u1 ++ ":" ++ d1 = u2 ++ ":" ++ d2 ->
  LicenseVerifier.verify_license ver now token m v (Some u1) (Some d1)
  = LicenseVerifier.verify_license ver now token m v (Some u2) (Some d2).
Proof.
  intros Hu1 Hd1 Hu2 Hd2 Hjoin.
  unfold LicenseVerifier.verify_license, LicenseVerifier.business_rules,
    LicenseVerifier._generate_fingerprint, generate_instance_fingerprint.
  cbn [LicenseVerifier.the_str truthy_str].
  apply String.eqb_neq in Hu1, Hd1, Hu2, Hd2.
  rewrite Hu1, Hd1, Hu2, Hd2, Hjoin. reflexivity.
Qed.

Lemma context_read_as_joined_text_witness :
  LicenseVerifier.verify_license acme_verifier t0
    (signed "issuer-key" bound_claims) "payroll" "18"
    (Some "db:1") (Some "acme.odoo.com")
  = LicenseVerifier.verify_license acme_verifier t0
      (signed "issuer-key" bound_claims) "payroll" "18"
      (Some "db") (Some "1:acme.odoo.com").
Proof.
  apply (@context_read_as_joined_text DigestScheme);
    [discriminate | discriminate | discriminate | discriminate | reflexivity].
Defined.

(** ** The service's own verification *)

Module ServiceFacts.
Import Pipeline.

Section WithKeys.
Context {E : Ed25519}.

(** The verifier the service stands for: its key, its issuer name. *)
Lemma verify_license_stages (svc : LicenseService.t) (pk : PublicKey)
      (token : string) :
  let ver := verifier_of svc pk in
  match first_failure [check_token ver token;
                       check_mandatory (claims_of token);
                       check_issuer ver (claims_of token)] with
  | Pass => LicenseService.verify_license svc pk token = inl (claims_of token)
  | _ => exists e, LicenseService.verify_license svc pk token = inr e
  end.
Proof.
  intros ver. subst ver. unfold verifier_of.
  unfold LicenseService.verify_license, PyJWT.decode, check_token, claims_of,
    PyJWT.decode_unverified.
  destruct (PyJWT.load token) as [l|e] eqn:EL.
  - cbn [bind]. unfold PyJWT.verify_signature.
    destruct (eq_str (get (PyJWT.l_header l) "alg") "EdDSA");
      cbn [negb raise_if bind first_failure]; [|eauto].
    cbn [LicenseVerifier.public_key].
    destruct (verify pk _ _); cbn [negb raise_if bind first_failure];
      [|eauto].
    unfold PyJWT.decode_payload.
    destruct (Json.loads (PyJWT.l_payload l)) as [[| | | | | p]|];
      cbn [bind PyJWT.or_decode_error first_failure]; eauto.
    rewrite PipelineFacts.required_present. unfold check_mandatory.
    destruct (present p "jti" && present p "iss" && present p "iat");
      cbn [bind first_failure]; [|eauto].
    unfold check_issuer. cbn [LicenseVerifier.expected_issuer].
    destruct (eq_str (get p "iss") (LicenseService.issuer svc));
      cbn [negb first_failure]; eauto.
  - apply PipelineFacts.load_raises in EL. subst e.
    cbn [first_failure bind]. eauto.
Qed.
End WithKeys.
End ServiceFacts.

Section Service.
Context {E : Ed25519}.
Import Pipeline.

Lemma verify_license_iff (svc : LicenseService.t) (pk : PublicKey)
      (token : string) (p : dict) :
  LicenseService.verify_license svc pk token = inl p
  <-> check_token (verifier_of svc pk) token = Pass
      /\ check_mandatory (claims_of token) = Pass
      /\ check_issuer (verifier_of svc pk) (claims_of token) = Pass
      /\ p = claims_of token.
Proof.
  pose proof (ServiceFacts.verify_license_stages svc pk token) as H.
  cbv zeta in H. set (ver := verifier_of svc pk) in *. split.
  - intros Hv.
    destruct (check_token ver token) eqn:E1;
      destruct (check_mandatory (claims_of token)) eqn:E2;
      destruct (check_issuer ver (claims_of token)) eqn:E3;
      cbn [first_failure] in H;
      lazymatch type of H with
      | ex _ => destruct H as [bad Hbad]; congruence
      | _ => repeat split; congruence
      end.
  - intros (E1 & E2 & E3 & ->). rewrite E1, E2, E3 in H. exact H.
Qed.


(** X4.  The service's [verify_license] enforces none of the business
    rules: a token the client's verifier accepts, or refuses for the
    product, the version, the instance binding or the demo policy, is
    returned by the service with its claims; so is an expired token whose
    issuer is the service's. *)
Theorem service_verify_ignores_business_rules (ver : LicenseVerifier.t)
        (svc : LicenseService.t) (now : Z) (token m v : string)
        (u d : option string) :
  LicenseVerifier.expected_issuer ver = LicenseService.issuer svc ->
  match LicenseVerifier.verify_license ver now token m v u d with
  | Ok _ => True
  | Raise (LicenseVerificationError r) =>
      In r [ProductMismatch; VersionNotAllowed; BindingContextMissing;
            InstanceMismatch; PolicyViolation]
      \/ (r = Expired
          /\ eq_str (get (claims_of token) "iss") (LicenseService.issuer svc)
             = true)
  | Raise _ => False
  end ->
  LicenseService.verify_license svc (LicenseVerifier.public_key ver) token
  = inl (claims_of token).
Proof.
  intros Hiss Hv.
  apply verify_license_iff.
  assert (Hver : verifier_of svc (LicenseVerifier.public_key ver) = ver)
    by (unfold verifier_of; rewrite <- Hiss; now destruct ver).
  rewrite Hver. clear Hver.
  rewrite PipelineFacts.verify_license_run in Hv. unfold run in Hv.
  set (cs := checks ver now token m v u d) in Hv.
  assert (Hcs : forall j o, nth_error cs j = Some o ->
                  In j [0; 1; 3]%nat -> o = Pass ->
                  nth j cs Pass = Pass).
  { intros j o Hj _ ->. now rewrite (nth_error_nth _ _ _ Hj). }
  assert (Hgoal : nth 0 cs Pass = Pass /\ nth 1 cs Pass = Pass
                  /\ nth 3 cs Pass = Pass).
  { destruct (first_failure cs) as [|r|e] eqn:Ef; cbn [conclude] in Hv.
    - pose proof (OrderFacts.first_failure_pass cs Ef) as Hall.
      repeat split; apply Hall; unfold cs, checks; cbn [nth In]; tauto.
    - assert (Hne : Fail r <> Pass) by discriminate.
      destruct (OrderFacts.first_failure_inv cs _ Ef Hne) as (i & Hi & Hb).
      pose proof (OrderFacts.checks_listed ver now token m v u d i r Hi)
        as Hl.
      assert (Hpass : forall j, (j < i)%nat -> nth j cs Pass = Pass).
      { intros j Hj. now rewrite (nth_error_nth _ _ _ (Hb j Hj)). }
      destruct Hv as [Hv|[-> Hiss']].
      + assert (Hi4 : (4 <= i)%nat).
        { destruct i as [|[|[|[|i]]]]; [| | | |lia];
            cbn [In] in Hv;
            destruct Hv as [<-|[<-|[<-|[<-|[<-|[]]]]]]; discriminate Hl. }
        repeat split; apply Hpass; lia.
      + assert (Hi2 : i = 2%nat).
        { destruct i as [|[|[|[|[|[|[|[|i]]]]]]]]; try discriminate Hl.
          reflexivity. }
        subst i. repeat split; try (apply Hpass; lia).
        unfold cs, checks. cbn [nth]. unfold check_issuer.
        rewrite Hiss, Hiss'. reflexivity.
    - assert (Hne : Abort e <> Pass) by discriminate.
      destruct (OrderFacts.first_failure_inv cs _ Ef Hne) as (i & Hi & _).
      destruct (OrderFacts.checks_abort ver now token m v u d i e Hi)
        as [-> | ->]; contradiction. }
  unfold cs, checks in Hgoal. cbn [nth] in Hgoal.
  destruct Hgoal as (H0 & H1 & H3). repeat split; assumption.
Qed.

Lemma verify_license_issued (svc : LicenseService.t) (t_issue : Z)
      (prm : params) (token : string) :
  sign_verifies E ->
  issue svc t_issue prm = Ok token ->
  LicenseService.verify_license svc
    (public_key (LicenseService.private_key svc)) token
  = inl (claims_for (LicenseService.issuer svc) t_issue prm).
Proof.
  intros HE Hissue. rewrite (issue_token _ _ _ _ Hissue).
  unfold LicenseService.verify_license.
  rewrite PyJWTFacts.jwt_decode_encode;
    [ | exact HE | apply IssuedFacts.claims_wf | apply IssuedFacts.required_ok ].
  unfold get. rewrite IssuedFacts.get_iss. cbn [eq_str].
  now rewrite String.eqb_refl.
Qed.

(** X5.  The service gets back what it issued: its [verify_license], with
    the public half of its key, returns the claims of every token it has
    issued, laid out as they were signed; the expiry plays no part, so a
    token long expired is returned like any other. *)
Theorem service_verify_issued (svc : LicenseService.t) (t_issue : Z)
        (prm : params) (token : string) :
  sign_verifies E ->
  issue svc t_issue prm = Ok token ->
  LicenseService.verify_license svc
    (public_key (LicenseService.private_key svc)) token
  = inl (claims_for (LicenseService.issuer svc) t_issue prm).
Proof. exact (verify_license_issued svc t_issue prm token). Qed.

(** X6.  [decode_license] of the proof-of-concept issuer reads back the
    claims of the token [issue_license] has just made, in the order they
    were laid out; asked to verify the signature it can only fail, since
    it passes neither a key nor an algorithm. *)
Theorem decode_license_round_trip (iss : LicenseIssuer.t) (now : Z)
        (uuid4 cid cname m : string) (vs : list string) (k : string)
        (dur : option Z) (fp : option string) (token : string) :
  LicenseIssuer.issue_license iss now uuid4 cid cname m vs k dur fp
  = Ok token ->
  LicenseIssuer.decode_license iss token false
  = Ok (issued_claims (LicenseIssuer.issuer iss) uuid4 cid cname m vs k
                      now dur fp)
  /\ LicenseIssuer.decode_license iss token true = Raise JwtDecodeError.
Proof.
  intros Hissue. split; [|reflexivity].
  assert (Hk : mem k valid_types = true
               /\ (mem k ["subscription"; "demo"] = true -> dur <> None)).
  { revert Hissue. unfold LicenseIssuer.issue_license.
    destruct (mem k valid_types); cbn [negb raise_if bind]; [|discriminate].
    destruct (mem k ["subscription"; "demo"]); [|now split].
    destruct dur; [intros _; split; [reflexivity | discriminate]
                  | discriminate]. }
  destruct Hk as [Hk Hd].
  rewrite (IssuerFacts.poc_issue_license_ok iss now uuid4 cid cname m vs k
             dur fp Hk Hd) in Hissue.
  injection Hissue as <-. unfold LicenseIssuer.decode_license.
  apply PyJWTFacts.decode_unverified_encode, IssuerFacts.issued_claims_wf.
Qed.
End Service.

Lemma service_verify_ignores_business_rules_witness :
  LicenseService.verify_license acme_service
    (LicenseVerifier.public_key acme_verifier)
    (signed "issuer-key" demo_without_expiry)
  = inl (Pipeline.claims_of (signed "issuer-key" demo_without_expiry)).
Proof.
  apply (@service_verify_ignores_business_rules DigestScheme acme_verifier
           acme_service t0 _ "payroll" "18" None None).
  - reflexivity.
  - vm_compute. auto 10.
Defined.

Lemma service_verify_issued_witness :
  LicenseService.verify_license acme_service
    (@public_key DigestScheme (LicenseService.private_key acme_service))
    (@PyJWT.encode DigestScheme
       (claims_for "https://license.biz4a.com" t0 demo_payroll)
       "issuer-key" "aegis-2026-01")
  = inl (claims_for (LicenseService.issuer acme_service) t0 demo_payroll).
Proof.
  apply (@service_verify_issued DigestScheme acme_service t0 demo_payroll).
  - exact digest_scheme_verifies.
  - vm_compute. reflexivity.
Defined.

Lemma decode_license_round_trip_witness :
  LicenseIssuer.decode_license acme_poc
    (@PyJWT.encode DigestScheme
       (issued_claims "https://license.biz4a.com" "id-7" "CUST-001"
          "Acme Corporation" "payroll" ["17"; "18"] "perpetual" t0 None None)
       "issuer-key" "aegis-2026-01") false
  = Ok (issued_claims (LicenseIssuer.issuer acme_poc) "id-7" "CUST-001"
          "Acme Corporation" "payroll" ["17"; "18"] "perpetual" t0 None None)
  /\ LicenseIssuer.decode_license acme_poc
       (@PyJWT.encode DigestScheme
          (issued_claims "https://license.biz4a.com" "id-7" "CUST-001"
             "Acme Corporation" "payroll" ["17"; "18"] "perpetual" t0 None
             None)
          "issuer-key" "aegis-2026-01") true
     = Raise JwtDecodeError.
Proof.
  apply (@decode_license_round_trip DigestScheme acme_poc t0 "id-7" "CUST-001"
           "Acme Corporation" "payroll" ["17"; "18"] "perpetual" None None).
  vm_compute. reflexivity.
Defined.

(** ** Tokens with too few segments *)

Module SegmentFacts.
Import PyJWT.

Lemma split_first_none (s : string) : dots s = 0%nat -> split_first s = None.
Proof.
  induction s as [|c r IH]; [reflexivity|]. cbn [dots split_first].
  destruct (Ascii.eqb c "."); [discriminate|].
  intros H. now rewrite IH.
Qed.

Lemma split_last_none (s : string) : dots s = 0%nat -> split_last s = None.
Proof.
  induction s as [|c r IH]; [reflexivity|]. cbn [dots split_last].
  destruct (Ascii.eqb c "."); [discriminate|].
  intros H. now rewrite IH.
Qed.

Lemma split_last_dots (s a b : string) :
  split_last s = Some (a, b) -> (dots a < dots s)%nat.
Proof.
  revert a. induction s as [|c r IH]; intros a; [discriminate|].
  cbn [dots split_last].
  destruct (split_last r) as [[a' b']|].
  - intros [= <- <-]. cbn [dots]. specialize (IH a' eq_refl). lia.
  - destruct (Ascii.eqb c "."); [|discriminate].
    intros [= <- <-]. cbn [dots]. lia.
Qed.

(** Fewer than two dots: PyJWT finds "not enough segments". *)
Lemma load_too_few (token : string) :
  (dots token < 2)%nat -> load token = Raise JwtDecodeError.
Proof.
  intros H. unfold load.
  destruct (split_last token) as [[input crypto]|] eqn:E; [|reflexivity].
  cbn [or_decode_error bind]. apply split_last_dots in E.
  rewrite split_first_none by lia. reflexivity.
Qed.
End SegmentFacts.

(** X7.  A token with fewer than two dots, the empty token among them, is
    turned away before any key is used: the client's verifier reports a
    decode error whatever the product, version and context, its
    [get_license_info] answers with the error entry, the service's
    [verify_license] raises PyJWT's DecodeError, and the validation
    endpoint answers "Validation error". *)
Theorem too_few_segments `{Ed25519} `{Uuid} (ver : LicenseVerifier.t)
        (svc : LicenseService.t) (pk : PublicKey) (db : Licenses.Database)
        (now : Z) (m v : string) (u d : option string)
        (req : Schemas.LicenseValidationRequest) :
  (dots (Schemas.token req) < 2)%nat ->
  LicenseVerifier.verify_license ver now (Schemas.token req) m v u d
  = Raise (LicenseVerificationError (Malformed ByDecodeError))
  /\ LicenseVerifier.get_license_info ver (Schemas.token req)
     = [("error", VStr "Failed to decode license")]
  /\ LicenseService.verify_license svc pk (Schemas.token req)
     = inr (LicenseService.PyJWTError JwtDecodeError)
  /\ Licenses.validate_license svc pk db now req
     = Licenses.invalid Schemas.ValidationFailed.
Proof.
  intros Hd. pose proof (SegmentFacts.load_too_few _ Hd) as Hl.
  assert (Hs : LicenseService.verify_license svc pk (Schemas.token req)
               = inr (LicenseService.PyJWTError JwtDecodeError)).
  { unfold LicenseService.verify_license, PyJWT.decode. now rewrite Hl. }
  repeat split.
  - unfold LicenseVerifier.verify_license, PyJWT.decode. now rewrite Hl.
  - unfold LicenseVerifier.get_license_info, PyJWT.decode_unverified.
    now rewrite Hl.
  - exact Hs.
  - unfold Licenses.validate_license. now rewrite Hs.
Qed.

Lemma too_few_segments_witness :
  LicenseVerifier.verify_license acme_verifier t0 (Schemas.token junk_request)
    "payroll" "18" None None
  = Raise (LicenseVerificationError (Malformed ByDecodeError))
  /\ LicenseVerifier.get_license_info acme_verifier
       (Schemas.token junk_request)
     = [("error", VStr "Failed to decode license")]
  /\ LicenseService.verify_license acme_service "issuer-key"
       (Schemas.token junk_request)
     = inr (LicenseService.PyJWTError JwtDecodeError)
  /\ Licenses.validate_license acme_service "issuer-key" demo_db t0
       junk_request
     = Licenses.invalid Schemas.ValidationFailed.
Proof.
  apply (@too_few_segments DigestScheme TextUuid acme_verifier acme_service
           "issuer-key" demo_db t0 "payroll" "18" None None junk_request).
  cbn. lia.
Defined.

(** ** The validation endpoint *)

Module ValidateFacts.
Import Pipeline Schemas Licenses.



End ValidateFacts.

Section Validate.
Context {E : Ed25519} {U : Uuid}.
Import Pipeline Licenses.




(** X9.  A token the service has issued is answered [valid], with its
    identifier, kind, customer name and expiry, when the request names the
    token's module and one of its versions, meets its instance binding,
    comes before its expiry, and the table holds no revoked row under its
    identifier.  A missing row does not stop the answer, nor does a row
    whose status is expired or suspended. *)
Theorem validate_license_issued (svc : LicenseService.t) (db : Database)
        (t_issue now : Z) (prm : params) (tok : string)
        (req : Schemas.LicenseValidationRequest) (u : UUID) :
  sign_verifies E ->
  issue svc t_issue prm = Ok tok ->
  0 <= t_issue <= now ->
  Schemas.token req = tok ->
  Schemas.module_name req = product_name prm ->
  mem (Schemas.odoo_version req) (allowed_versions prm) = true ->
  binding_satisfied prm (Schemas.instance_db_uuid req) (Schemas.instance_domain req) = true ->
  (forall e, expiry_of (kind prm) t_issue (duration prm) = Some e ->
             now < e /\ in_datetime_range e = true) ->
  uuid_of_str (license_id prm) = Some u ->
  (forall l, scalar_one_or_none db u = Some l ->
             Models.status l <> Models.REVOKED) ->
  validate_license svc (public_key (LicenseService.private_key svc)) db now
    req
  = {| Schemas.valid := true;
       Schemas.license_id := Some (license_id prm);
       Schemas.license_type := Some (kind prm);
       Schemas.customer_name := Some (customer_name prm);
       Schemas.expires_at := expiry_of (kind prm) t_issue (duration prm);
       Schemas.error := None |}.
Proof.
  intros HE Hissue Ht Htok Hm Hv Hb Hexp Hu Hrow.
  unfold validate_license. rewrite Htok.
  rewrite (verify_license_issued svc t_issue prm tok HE Hissue).
  unfold validate_payload, get, get_default.
  rewrite !IssuedFacts.get_customer, !IssuedFacts.get_module,
    !IssuedFacts.get_jti, !IssuedFacts.get_license_type,
    !IssuedFacts.get_exp, !IssuedFacts.get_fingerprint.
  cbn [value_get value_get_default get get_default dict_get String.eqb
       Ascii.eqb Bool.eqb bind eq_str].
  rewrite Hm, String.eqb_refl. cbn [negb str_in bind].
  rewrite IssuerFacts.mem_eq_str, Hv. cbn [negb].
  assert (Hx : (if truthy match option_map VInt
                               (expiry_of (kind prm) t_issue (duration prm))
                        with Some v => v | None => VNone end
                then ts <- fromtimestamp
                             match option_map VInt
                                     (expiry_of (kind prm) t_issue
                                                (duration prm))
                             with Some v => v | None => VNone end ;;
                     Ok (Some ts)
                else Ok None)
               = Ok (expiry_of (kind prm) t_issue (duration prm))).
  { destruct (expiry_of (kind prm) t_issue (duration prm)) as [e|];
      [|reflexivity].
    destruct (Hexp e eq_refl) as [Hlt Hr]. cbn [option_map truthy].
    replace (e =? 0) with false by (symmetry; apply Z.eqb_neq; lia).
    cbn [negb]. unfold fromtimestamp. cbn [as_number bind].
    unfold in_datetime_range in Hr. rewrite Hr. reflexivity. }
  rewrite Hx. cbn [bind].
  replace (match expiry_of (kind prm) t_issue (duration prm) with
           | Some ts => ts <=? now
           | None => false
           end) with false.
  2: { destruct (expiry_of (kind prm) t_issue (duration prm)) as [e|];
         [|reflexivity].
       destruct (Hexp e eq_refl) as [Hlt _]. symmetry. apply Z.leb_gt. lia. }
  unfold binding_satisfied in Hb.
  destruct (binding_of prm) as [f|] eqn:Ef; cbn [option_map truthy].
  - assert (Hf : String.eqb f EmptyString = false).
    { unfold binding_of in Ef. destruct (instance_fingerprint prm) as [g|];
        [|discriminate].
      destruct (String.eqb g EmptyString) eqn:Eg; [discriminate|].
      now injection Ef as <-. }
    rewrite Hf. cbn [negb andb].
    destruct (Schemas.instance_db_uuid req) as [iu|]; [|discriminate Hb].
    destruct (Schemas.instance_domain req) as [idm|]; [|discriminate Hb].
    apply andb_prop in Hb as [Hb Heq]. apply andb_prop in Hb as [Hiu Hid].
    cbn [truthy_str LicenseVerifier.the_str eq_str]. rewrite Hiu, Hid, Heq.
    cbn [negb orb]. unfold uuid_of_value. rewrite Hu. cbn [bind].
    destruct (scalar_one_or_none db u) as [l|] eqn:El.
    + specialize (Hrow l eq_refl).
      destruct (Models.status l); try contradiction; reflexivity.
    + reflexivity.
  - cbn [andb]. unfold uuid_of_value. rewrite Hu. cbn [bind].
    destruct (scalar_one_or_none db u) as [l|] eqn:El.
    + specialize (Hrow l eq_refl).
      destruct (Models.status l); try contradiction; reflexivity.
    + reflexivity.
Qed.
End Validate.
(** ** Revocation *)

Module RevokeFacts.
Import Licenses.

Section WithUuid.
Context {U : Uuid}.

Lemma find_rows_after (u u' : UUID) (now : Z) (why : string)
      (rows : list Models.License) :
  find (fun l => uuid_eqb (Models.id l) u')
       (map (fun l => if uuid_eqb (Models.id l) u
                      then revoked l now why else l) rows)
  = option_map
      (fun l => if uuid_eqb (Models.id l) u then revoked l now why else l)
      (find (fun l => uuid_eqb (Models.id l) u') rows).
Proof.
  induction rows as [|l rows IH]; [reflexivity|].
  cbn [map find].
  assert (Hid : Models.id (if uuid_eqb (Models.id l) u
                           then revoked l now why else l) = Models.id l)
    by (destruct (uuid_eqb (Models.id l) u); reflexivity).
  rewrite Hid. destruct (uuid_eqb (Models.id l) u'); [reflexivity|].
  exact IH.
Qed.

(** A successful revocation, taken apart. *)
Lemma revoke_license_returned (id : string) (rd : Schemas.LicenseRevoke)
      (now : Z) (db db' : Database) (answer : string) :
  revoke_license id rd now db = (Returned answer, db') ->
  exists u old,
    uuid_of_str id = Some u
    /\ scalar_one_or_none db u = Some old
    /\ Models.status_eqb (Models.status old) Models.REVOKED = false
    /\ (String.length (Schemas.reason rd) <? 1)%nat = false
    /\ answer = id
    /\ licenses db'
       = map (fun l => if uuid_eqb (Models.id l) u
                       then revoked l now (Schemas.reason rd) else l)
             (licenses db)
    /\ audit_logs db'
       = (audit_logs db
          ++ [{| Models.log_license_id := Some u;
                 Models.event_type := "revoked";
                 Models.event_data :=
                   Some ("Revoked: " ++ Schemas.reason rd)%string;
                 Models.log_customer_id := Some (Models.customer_id old);
                 Models.log_module_name := Some (Models.module_name old) |}])%list.
Proof.
  unfold revoke_license.
  destruct (String.length (Schemas.reason rd) <? 1)%nat eqn:Er;
    [discriminate|].
  destruct (uuid_of_str id) as [u|] eqn:Eu; [|discriminate].
  destruct (scalar_one_or_none db u) as [old|] eqn:Eo; [|discriminate].
  destruct (Models.status_eqb (Models.status old) Models.REVOKED) eqn:Es;
    [discriminate|].
  intros [= <- <-]. exists u, old. cbn [licenses audit_logs].
  repeat split; assumption.
Qed.
End WithUuid.
End RevokeFacts.

Section Revoke.
Context {E : Ed25519} {U : Uuid}.
Import Pipeline Licenses.


End Revoke.

Lemma uuid_laws_text : uuid_laws TextUuid.
Proof. split; [intros a b; apply String.eqb_eq | reflexivity]. Qed.


Lemma validate_license_issued_witness :
  Licenses.validate_license acme_service
    (@public_key DigestScheme (LicenseService.private_key acme_service))
    demo_db (t0 + 86400) demo_request
  = {| Schemas.valid := true;
       Schemas.license_id := Some (license_id demo_payroll);
       Schemas.license_type := Some (kind demo_payroll);
       Schemas.customer_name := Some (customer_name demo_payroll);
       Schemas.expires_at :=
         expiry_of (kind demo_payroll) t0 (duration demo_payroll);
       Schemas.error := None |}.
Proof.
  apply (@validate_license_issued DigestScheme TextUuid acme_service demo_db
           t0 (t0 + 86400) demo_payroll demo_token demo_request
           (license_id demo_payroll)).
  - exact digest_scheme_verifies.
  - vm_compute. reflexivity.
  - unfold t0. lia.
  - reflexivity.
  - reflexivity.
  - reflexivity.
  - reflexivity.
  - intros e [= <-]. split; [unfold t0, Datetime.add_days,
      Datetime.seconds_per_day; lia | reflexivity].
  - reflexivity.
  - intros l [= <-]. discriminate.
Defined.



(** ** The listing, the stored versions, the customer identifier *)

Module PageFacts.

Lemma firstn_plus {A : Type} (a b : nat) (l : list A) :
  firstn (a + b) l = (firstn a l ++ firstn b (skipn a l))%list.
Proof.
  revert l. induction a as [|a IH]; intros l; [reflexivity|].
  destruct l as [|x l]; cbn [Nat.add firstn skipn app].
  - now rewrite firstn_nil.
  - now rewrite IH.
Qed.

(** The first [m] slices of [k] rows make up the first [m * k] rows. *)
Lemma slices {A : Type} (k m : nat) (l : list A) :
  flat_map (fun i => firstn k (skipn (i * k) l)) (seq 0 m)
  = firstn (m * k) l.
Proof.
  induction m as [|m IH]; [reflexivity|].
  rewrite seq_S, flat_map_app, IH. cbn [flat_map Nat.add].
  rewrite app_nil_r. replace (S m * k)%nat with (m * k + k)%nat by lia.
  now rewrite firstn_plus.
Qed.

Lemma total_pages_bounds (total page_size : Z) :
  1 <= page_size ->
  (Licenses.total_pages total page_size - 1) * page_size < total
  /\ total <= Licenses.total_pages total page_size * page_size.
Proof.
  intros H. unfold Licenses.total_pages.
  pose proof (Z.div_mod (total + page_size - 1) page_size ltac:(lia)) as Hd.
  pose proof (Z.mod_pos_bound (total + page_size - 1) page_size ltac:(lia))
    as Hm.
  nia.
Qed.
End PageFacts.

(** X12.  The listing cuts the selected rows into pages without loss and
    without overlap: the number of pages is the least that holds all rows,
    a page never has more rows than asked for, a page past the last is
    empty, and the pages from the first to the last, put end to end, are
    the rows. *)
Theorem list_licenses_pages {A : Type} (rows : list A) (page_size : Z) :
  1 <= page_size <= 100 ->
  (Licenses.total_pages (Z.of_nat (List.length rows)) page_size - 1)
    * page_size < Z.of_nat (List.length rows)
    <= Licenses.total_pages (Z.of_nat (List.length rows)) page_size
       * page_size
  /\ (forall page, 1 <= page ->
        exists l,
          Licenses.list_licenses rows page page_size
          = Licenses.Returned
              (l, Z.of_nat (List.length rows),
               Licenses.total_pages (Z.of_nat (List.length rows)) page_size)
          /\ Z.of_nat (List.length l) <= page_size
          /\ (Licenses.total_pages (Z.of_nat (List.length rows)) page_size
              < page -> l = []))
  /\ flat_map (fun i => page_rows (Licenses.list_licenses rows (Z.of_nat i)
                                     page_size))
       (seq 1 (Z.to_nat (Licenses.total_pages (Z.of_nat (List.length rows))
                           page_size)))
     = rows.
Proof.
  intros Hps.
  pose proof (PageFacts.total_pages_bounds (Z.of_nat (List.length rows))
                page_size ltac:(lia)) as [Hlo Hhi].
  set (n := Licenses.total_pages (Z.of_nat (List.length rows)) page_size)
    in *.
  split; [lia|]. split.
  - intros page Hpage. unfold Licenses.list_licenses.
    replace (page <? 1) with false by (symmetry; apply Z.ltb_ge; lia).
    replace (page_size <? 1) with false by (symmetry; apply Z.ltb_ge; lia).
    replace (100 <? page_size) with false by (symmetry; apply Z.ltb_ge; lia).
    cbn [orb]. eexists. split; [reflexivity|]. split.
    + rewrite length_firstn. lia.
    + intros Hn. rewrite skipn_all2; [now rewrite firstn_nil|]. nia.
  - assert (Hn0 : 0 <= n) by nia.
    rewrite <- seq_shift, flat_map_concat_map, map_map,
      <- flat_map_concat_map.
    erewrite flat_map_ext.
    + rewrite (PageFacts.slices (Z.to_nat page_size) (Z.to_nat n) rows).
      apply firstn_all2. nia.
    + intros i. unfold Licenses.list_licenses, page_rows.
      replace (Z.of_nat (S i) <? 1) with false
        by (symmetry; apply Z.ltb_ge; lia).
      replace (page_size <? 1) with false by (symmetry; apply Z.ltb_ge; lia).
      replace (100 <? page_size) with false
        by (symmetry; apply Z.ltb_ge; lia).
      cbn [orb]. f_equal. f_equal. nia.
Qed.

Lemma list_licenses_pages_witness :
  flat_map (fun i => page_rows (Licenses.list_licenses
                                  ["a"; "b"; "c"; "d"; "e"] (Z.of_nat i) 2))
    (seq 1 (Z.to_nat (Licenses.total_pages
                        (Z.of_nat (List.length ["a"; "b"; "c"; "d"; "e"]))
                        2)))
  = ["a"; "b"; "c"; "d"; "e"].
Proof.
  apply (proj2 (proj2 (list_licenses_pages ["a"; "b"; "c"; "d"; "e"] 2
                         ltac:(lia)))).
Defined.

Module StrFacts.
Import Str.

Lemma split_free (c : ascii) (s : string) :
  free_of c s = true -> split c s = [s].
Proof.
  induction s as [|x r IH]; [reflexivity|]. cbn [free_of split].
  destruct (Ascii.eqb x c); [discriminate|]. cbn [negb andb].
  intros H. now rewrite IH.
Qed.

Lemma split_app (c : ascii) (a b : string) :
  free_of c a = true -> split c (a ++ String c b) = a :: split c b.
Proof.
  induction a as [|x r IH]; cbn [free_of append split].
  - intros _. now rewrite Ascii.eqb_refl.
  - destruct (Ascii.eqb x c); [discriminate|]. cbn [negb andb].
    intros H. now rewrite IH.
Qed.

(** Joining and splitting again gives the fields back, if there is a
    field and none holds the separator. *)
Lemma split_join (c : ascii) (l : list string) :
  l <> [] -> forallb (free_of c) l = true ->
  split c (Json.join (String c EmptyString) l) = l.
Proof.
  induction l as [|x l IH]; [congruence|]. intros _ H.
  cbn [forallb] in H. apply andb_prop in H as [Hx Hl].
  destruct l as [|y l]; cbn [Json.join].
  - now apply split_free.
  - cbn [append]. rewrite split_app by exact Hx.
    f_equal. apply IH; [discriminate | exact Hl].
Qed.

Lemma rstrip_id (s : string) :
  forallb (fun c => negb (isspace c)) (list_ascii_of_string s) = true ->
  rstrip s = s.
Proof.
  induction s as [|c r IH]; [reflexivity|].
  cbn [list_ascii_of_string forallb rstrip]. intros H.
  apply andb_prop in H as [Hc Hr]. rewrite (IH Hr).
  destruct r; [|reflexivity].
  apply negb_true_iff in Hc. now rewrite Hc.
Qed.

Lemma strip_id (s : string) :
  forallb (fun c => negb (isspace c)) (list_ascii_of_string s) = true ->
  strip s = s.
Proof.
  intros H. unfold strip.
  assert (Hl : lstrip s = s).
  { destruct s as [|c r]; [reflexivity|]. cbn [lstrip].
    cbn [list_ascii_of_string forallb] in H.
    apply andb_prop in H as [Hc _]. apply negb_true_iff in Hc.
    now rewrite Hc. }
  rewrite Hl. now apply rstrip_id.
Qed.

(** A digit is neither a comma nor white space. *)
Lemma digit_plain (c : ascii) :
  Api.char_isdigit c = true ->
  negb (Ascii.eqb c ",") = true /\ negb (isspace c) = true.
Proof.
  unfold Api.char_isdigit, isspace. intros H.
  assert (Hc : Ascii.eqb c "," = (N_of_ascii c =? 44)%N).
  { destruct (Ascii.eqb c ",") eqn:Ec.
    - apply Ascii.eqb_eq in Ec. now subst c.
    - symmetry. apply N.eqb_neq. intros Hn.
      apply Ascii.eqb_neq in Ec. apply Ec.
      rewrite <- (ascii_N_embedding c), Hn. reflexivity. }
  rewrite Hc. clear Hc.
  generalize dependent (N_of_ascii c). intros n H.
  repeat match type of H with
         | (_ || _) = true => apply orb_prop in H; destruct H as [H|H]
         | (_ && _) = true => apply andb_prop in H; destruct H as [? H]
         end;
    repeat match goal with
           | H : (_ <=? _)%N = true |- _ => apply N.leb_le in H
           | H : (_ =? _)%N = true |- _ => apply N.eqb_eq in H
           end;
    split; apply negb_true_iff;
    repeat match goal with
           | |- (_ || _) = false => apply orb_false_iff; split
           | |- (_ && _) = false =>
               apply andb_false_iff;
               first [ left; apply N.leb_gt; lia
                     | right; apply N.leb_gt; lia ]
           | |- (_ =? _)%N = false => apply N.eqb_neq; lia
           end.
Qed.

Lemma isdigit_plain (s : string) :
  Api.isdigit s = true ->
  free_of "," s = true
  /\ forallb (fun c => negb (isspace c)) (list_ascii_of_string s) = true.
Proof.
  unfold Api.isdigit. intros H. apply andb_prop in H as [_ H].
  induction s as [|c r IH]; [now split|].
  cbn [list_ascii_of_string forallb free_of] in *.
  apply andb_prop in H as [Hc Hr]. destruct (IH Hr) as [H1 H2].
  destruct (digit_plain c Hc) as [Hc1 Hc2].
  now rewrite Hc1, Hc2, H1, H2.
Qed.
End StrFacts.

(** X13.  The versions of a request that has passed the schema survive
    their storage: the row keeps them joined by commas, and
    [allowed_versions_list] reads back the very list that was asked for,
    in order. *)
Theorem allowed_versions_round_trip `{Uuid} (license_data : Api.LicenseCreate)
        (row : Models.License) :
  Api.validate license_data = true ->
  Models.allowed_major_versions row
  = Json.join "," (Api.allowed_major_versions license_data) ->
  Models.allowed_versions_list row = Api.allowed_major_versions license_data.
Proof.
  unfold Api.validate. intros Hv Hrow.
  apply andb_prop in Hv as [Hv Hdigits].
  do 2 (apply andb_prop in Hv as [Hv _]). apply andb_prop in Hv as [_ Hlen].
  set (vs := Api.allowed_major_versions license_data) in *.
  assert (Hne : vs <> [])
    by (destruct vs; [cbn in Hlen; discriminate Hlen | discriminate]).
  assert (Hplain : forallb (free_of ",") vs = true
                   /\ Forall (fun s => Str.strip s = s) vs).
  { clear Hne Hrow Hlen. induction vs as [|v vs IH]; [now split|].
    cbn [forallb] in Hdigits. apply andb_prop in Hdigits as [Hd Hds].
    destruct (IH Hds) as [H1 H2].
    destruct (StrFacts.isdigit_plain v Hd) as [Hf Hs].
    cbn [forallb]. rewrite Hf, H1. split; [reflexivity|].
    constructor; [now apply StrFacts.strip_id | exact H2]. }
  destruct Hplain as [Hfree Hstrip].
  unfold Models.allowed_versions_list. rewrite Hrow.
  rewrite StrFacts.split_join by assumption.
  clear - Hstrip. induction Hstrip as [|v vs Hv _ IH]; [reflexivity|].
  cbn [map]. now rewrite Hv, IH.
Qed.

Lemma allowed_versions_round_trip_witness :
  Models.allowed_versions_list demo_row
  = Api.allowed_major_versions demo_create.
Proof.
  apply (@allowed_versions_round_trip TextUuid demo_create demo_row);
    reflexivity.
Defined.

Module CustomerFacts.
Import Str.

Lemma alnum_plain (c : ascii) :
  char_isalnum c = true -> Ascii.eqb c "-" = false /\ Ascii.eqb c "_" = false.
Proof.
  intros H. split; apply Ascii.eqb_neq; intros ->; discriminate H.
Qed.

(** With the two separators taken out, what is left is alphanumeric
    throughout exactly when every character was alphanumeric or a
    separator. *)
Lemma removed_forall (s : string) :
  forallb char_isalnum
    (list_ascii_of_string (remove "_" (remove "-" s)))
  = forallb customer_id_char (list_ascii_of_string s).
Proof.
  induction s as [|c r IH]; [reflexivity|].
  cbn [remove list_ascii_of_string forallb]. unfold customer_id_char at 1.
  destruct (Ascii.eqb c "-") eqn:Ed.
  - rewrite orb_true_r. cbn [orb andb]. exact IH.
  - cbn [remove]. destruct (Ascii.eqb c "_") eqn:Eu.
    + rewrite orb_true_r. cbn [andb]. exact IH.
    + cbn [list_ascii_of_string forallb]. rewrite !orb_false_r.
      now rewrite IH.
Qed.

Lemma removed_empty (s : string) :
  forallb customer_id_char (list_ascii_of_string s) = true ->
  String.eqb (remove "_" (remove "-" s)) EmptyString
  = negb (existsb char_isalnum (list_ascii_of_string s)).
Proof.
  induction s as [|c r IH]; [reflexivity|].
  cbn [remove list_ascii_of_string forallb existsb]. intros H.
  apply andb_prop in H as [Hc Hr]. unfold customer_id_char in Hc.
  destruct (char_isalnum c) eqn:Ea.
  - destruct (alnum_plain c Ea) as [-> H2]. cbn [remove]. rewrite H2.
    reflexivity.
  - cbn [orb] in *. destruct (Ascii.eqb c "-") eqn:Ed.
    + exact (IH Hr).
    + cbn [orb] in Hc. cbn [remove]. rewrite Hc. exact (IH Hr).
Qed.
End CustomerFacts.

(** X14.  A customer identifier is taken exactly when it has between one
    and fifty characters, each a letter, a digit, a hyphen or an
    underscore, and at least one of them a letter or a digit; an
    identifier made of separators only is refused like any other. *)
Theorem customer_id_accepted (v : string) :
  Schemas.customer_id_field v
  = if customer_id_ok v then Ok v else Raise ValueError.
Proof.
  unfold Schemas.customer_id_field, Schemas.validate_customer_id,
    customer_id_ok, Str.isalnum.
  rewrite CustomerFacts.removed_forall.
  destruct (1 <=? String.length v)%nat eqn:E1.
  2: { apply Nat.leb_gt in E1.
       replace (String.length v <? 1)%nat with true
         by (symmetry; apply Nat.ltb_lt; lia). reflexivity. }
  apply Nat.leb_le in E1.
  replace (String.length v <? 1)%nat with false
    by (symmetry; apply Nat.ltb_ge; lia).
  destruct (String.length v <=? 50)%nat eqn:E2.
  2: { apply Nat.leb_gt in E2.
       replace (50 <? String.length v)%nat with true
         by (symmetry; apply Nat.ltb_lt; lia). reflexivity. }
  apply Nat.leb_le in E2.
  replace (50 <? String.length v)%nat with false
    by (symmetry; apply Nat.ltb_ge; lia).
  cbn [orb andb].
  destruct (forallb customer_id_char (list_ascii_of_string v)) eqn:Ef.
  - rewrite (CustomerFacts.removed_empty v Ef), negb_involutive.
    now destruct (existsb Str.char_isalnum (list_ascii_of_string v)).
  - now rewrite andb_false_r.
Qed.

(** X15.  [verify_module_license] verifies nothing: it answers [True] for
    every argument, licensed or not. *)
Theorem verify_module_license_always_true (token : list Z) :
  AegisLicense.verify_module_license token = true.
Proof.
  unfold AegisLicense.verify_module_license, AegisLicense._obfuscated_noop.
  apply Z.eqb_refl.
Qed.

(** ** The client module's license record *)

Section Client.
Context {E : Ed25519} {O : Odoo}.
Import AegisLicense.

Lemma written (self r : record) (now write_time : Z)
        (odoo_version u d : option string) :
  _verify_and_update self now write_time odoo_version u d = Ok r ->
  module_name r = module_name self
  /\ license_token r = license_token self
  /\ last_verified_at r = Some write_time
  /\ exists u' d',
       _resolve_instance_context u d = Ok (u', d')
       /\ match LicenseVerifier.verify_license odoo_verifier now
                  (license_token self) (module_name self)
                  (version_asked odoo_version) u' d' with
          | Ok payload =>
              state r = "valid" /\ last_error r = None
              /\ license_type r = get payload "license_type"
              /\ value_get (get_default payload "customer" (VDict [])) "name"
                 = Ok (customer_name r)
          | Raise (LicenseVerificationError why) =>
              state r = "invalid" /\ last_error r = Some why
              /\ license_type r = license_type self
              /\ issued_at r = issued_at self
              /\ expires_at r = expires_at self
              /\ is_bound r = is_bound self
              /\ customer_name r = customer_name self
              /\ allowed_versions r = allowed_versions self
          | Raise _ => False
          end.
Proof.
  unfold _verify_and_update. fold odoo_verifier.
  fold (version_asked odoo_version).
  destruct (_resolve_instance_context u d) as [[u' d']|] eqn:Ec;
    cbn [bind]; [|discriminate].
  destruct (LicenseVerifier.verify_license odoo_verifier now
              (license_token self) (module_name self)
              (version_asked odoo_version) u' d') as [payload|e] eqn:Ev.
  - destruct (value_get (get_default payload "customer" (VDict [])) "name")
      as [name|] eqn:En; cbn [bind]; [|discriminate].
    destruct (value_get_default (get_default payload "module" (VDict []))
                "allowed_major_versions" (VList [])) as [versions|];
      cbn [bind]; [|discriminate].
    destruct (Str.join_value "," versions) as [joined|]; cbn [bind];
      [|discriminate].
    intros [= <-]. cbn [module_name license_token last_verified_at].
    repeat split. exists u', d'. split; [reflexivity|]. rewrite Ev.
    cbn [state last_error license_type customer_name]. now repeat split.
  - destruct e; try discriminate.
    intros [= <-]. cbn [module_name license_token last_verified_at].
    repeat split. exists u', d'. split; [reflexivity|]. rewrite Ev.
    cbn [state last_error license_type issued_at expires_at is_bound
         customer_name allowed_versions]. now repeat split.
Qed.

(** X16.  What [_verify_and_update] writes.  When it returns, the record
    is "valid" or "invalid", never "unknown", with the time of the check;
    it is "valid" exactly when the verifier accepted the stored token for
    the record's own module name, and then carries what the payload says;
    when the verifier refused, the record carries the refusal and keeps
    the license type, dates, binding, customer name and versions it had
    before, whatever they were. *)
Theorem verify_and_update_outcome (self r : record) (now write_time : Z)
        (odoo_version u d : option string) :
  _verify_and_update self now write_time odoo_version u d = Ok r ->
  module_name r = module_name self
  /\ license_token r = license_token self
  /\ last_verified_at r = Some write_time
  /\ exists u' d',
       _resolve_instance_context u d = Ok (u', d')
       /\ match LicenseVerifier.verify_license odoo_verifier now
                  (license_token self) (module_name self)
                  (version_asked odoo_version) u' d' with
          | Ok payload =>
              state r = "valid" /\ last_error r = None
              /\ license_type r = get payload "license_type"
              /\ value_get (get_default payload "customer" (VDict [])) "name"
                 = Ok (customer_name r)
          | Raise (LicenseVerificationError why) =>
              state r = "invalid" /\ last_error r = Some why
              /\ license_type r = license_type self
              /\ issued_at r = issued_at self
              /\ expires_at r = expires_at self
              /\ is_bound r = is_bound self
              /\ customer_name r = customer_name self
              /\ allowed_versions r = allowed_versions self
          | Raise _ => False
          end.
Proof.
  exact (written self r now write_time odoo_version u d).
Qed.

(** X17.  The access check never answers [False]: when
    [action_views_open] returns it returns [True], there is a license
    record for the module whose token the verifier accepts, for that
    module name, at that moment, and the table has as many records as it
    had. *)
Theorem action_views_open_sound (records records' : list record)
        (now write_time : Z) (name : string)
        (odoo_version u d : option string) (answer : bool) :
  action_views_open records now write_time name odoo_version u d
  = Done (answer, records') ->
  answer = true
  /\ List.length records' = List.length records
  /\ exists (license_rec : record) (u' d' : option string) (payload : dict),
       In license_rec records
       /\ module_name license_rec = name
       /\ _resolve_instance_context u d = Ok (u', d')
       /\ LicenseVerifier.verify_license odoo_verifier now
            (license_token license_rec) name (version_asked odoo_version)
            u' d'
          = Ok payload.
Proof.
  unfold action_views_open.
  destruct (find (fun r => String.eqb (module_name r) name) records)
    as [license_rec|] eqn:Ef; [|discriminate].
  destruct (_verify_and_update license_rec now write_time odoo_version u d)
    as [r|] eqn:Eu; [|discriminate].
  destruct (String.eqb (state r) "valid") eqn:Es; cbn [negb];
    [|discriminate].
  intros [= <- <-]. split; [reflexivity|]. split.
  { clear. induction records as [|x rest IH]; [reflexivity|].
    cbn [put]. destruct (String.eqb (module_name x) name);
      cbn [List.length]; [reflexivity | now rewrite IH]. }
  apply find_some in Ef as [Hin Hname]. apply String.eqb_eq in Hname.
  destruct (written _ _ _ _ _ _ _ Eu)
    as (_ & _ & _ & u' & d' & Hc & Hv).
  rewrite Hname in Hv.
  destruct (LicenseVerifier.verify_license odoo_verifier now
              (license_token license_rec) name (version_asked odoo_version)
              u' d') as [payload|e] eqn:Ev.
  - exists license_rec, u', d', payload. now repeat split.
  - destruct e; try contradiction.
    destruct Hv as (Hst & _). rewrite Hst in Es. discriminate Es.
Qed.
End Client.

Module ClientFacts.
Import Pipeline.

Lemma strs_map (l : list string) : Str.strs (map VStr l) = Ok l.
Proof.
  induction l as [|x l IH]; [reflexivity|].
  cbn [map Str.strs]. now rewrite IH.
Qed.

Section WithKeys.
Context {E : Ed25519}.

(** A trusting verifier accepts an issued token before its expiry, for
    its module, one of its versions and a context that meets its
    binding. *)
Lemma accepted (svc : LicenseService.t) (ver : LicenseVerifier.t)
      (t_issue now : Z) (prm : params) (tok v : string)
      (u d : option string) :
  sign_verifies E -> trusts ver svc ->
  issue svc t_issue prm = Ok tok ->
  0 <= t_issue <= now ->
  (forall e, expiry_of (kind prm) t_issue (duration prm) = Some e ->
             now < e) ->
  mem v (allowed_versions prm) = true ->
  binding_satisfied prm u d = true ->
  LicenseVerifier.verify_license ver now tok (product_name prm) v u d
  = Ok (claims_for (LicenseService.issuer svc) t_issue prm).
Proof.
  intros HE Ht Hissue Hnow Hexp Hv Hb.
  destruct (issue_inv _ _ _ _ Hissue) as [Hk Hd].
  rewrite (issue_token _ _ _ _ Hissue).
  rewrite (verify_unexpired svc ver t_issue now prm _ v u d HE Ht Hexp).
  rewrite IssuedFacts.product_outcome, String.eqb_refl.
  rewrite IssuedFacts.version_outcome, Hv.
  rewrite (binding_satisfied_pass _ _ _ _ _ Hb).
  rewrite policy_pass; [reflexivity | | exact Hd].
  intros e He. specialize (Hexp e He). lia.
Qed.
End WithKeys.
End ClientFacts.

Section ClientIssued.
Context {E : Ed25519} {O : Odoo}.

(** X18.  From issuance to the access check.  An instance that ships the
    public half of the issuer's key and expects the issuer's name opens
    the views of a module whose record holds an issued token, when the
    version asked about is one of the token's, the context the instance
    resolves meets the token's binding, and the expiry has not come; the
    record is then "valid" and shows the license kind, the customer name
    and the versions joined by commas. *)
Theorem action_views_open_issued (svc : LicenseService.t)
        (t_issue now write_time : Z) (prm : params) (tok : string)
        (records : list AegisLicense.record)
        (license_rec : AegisLicense.record)
        (odoo_version u d u' d' : option string) :
  sign_verifies E ->
  trusts odoo_verifier svc ->
  issue svc t_issue prm = Ok tok ->
  0 <= t_issue <= now ->
  (forall e, expiry_of (kind prm) t_issue (duration prm) = Some e ->
             now < e) ->
  find (fun r => String.eqb (AegisLicense.module_name r) (product_name prm))
       records
  = Some license_rec ->
  AegisLicense.license_token license_rec = tok ->
  mem (version_asked odoo_version) (allowed_versions prm) = true ->
  AegisLicense._resolve_instance_context u d = Ok (u', d') ->
  binding_satisfied prm u' d' = true ->
  exists r : AegisLicense.record,
    AegisLicense.action_views_open records now write_time (product_name prm)
      odoo_version u d
    = AegisLicense.Done
        (true, AegisLicense.put records (product_name prm) r)
    /\ AegisLicense.state r = "valid"
    /\ AegisLicense.last_error r = None
    /\ AegisLicense.last_verified_at r = Some write_time
    /\ AegisLicense.license_type r = VStr (kind prm)
    /\ AegisLicense.customer_name r = VStr (customer_name prm)
    /\ AegisLicense.allowed_versions r
       = VStr (Json.join "," (allowed_versions prm)).
Proof.
  intros HE Ht Hissue Hnow Hexp Hfind Htok Hv Hc Hb.
  pose proof Hfind as Hname. apply find_some in Hname as [_ Hname].
  apply String.eqb_eq in Hname.
  unfold AegisLicense.action_views_open. rewrite Hfind.
  unfold AegisLicense._verify_and_update. fold odoo_verifier.
  fold (version_asked odoo_version). rewrite Hc. cbn [bind].
  rewrite Htok, Hname.
  rewrite (ClientFacts.accepted svc odoo_verifier t_issue now prm tok _ u' d'
             HE Ht Hissue Hnow Hexp Hv Hb).
  unfold get, get_default.
  rewrite !IssuedFacts.get_customer, !IssuedFacts.get_module,
    !IssuedFacts.get_license_type.
  cbn [value_get value_get_default get get_default dict_get String.eqb
       Ascii.eqb Bool.eqb bind Str.join_value].
  rewrite ClientFacts.strs_map.
  cbn [bind AegisLicense.state String.eqb Ascii.eqb Bool.eqb negb].
  eexists. split; [reflexivity|].
  cbn [AegisLicense.state AegisLicense.last_error
       AegisLicense.last_verified_at AegisLicense.license_type
       AegisLicense.customer_name AegisLicense.allowed_versions].
  now repeat split.
Qed.
End ClientIssued.

Lemma verify_and_update_outcome_witness :
  AegisLicense.state
    (match @AegisLicense._verify_and_update DigestScheme acme_odoo
             junk_record (t0 + 86400) (t0 + 86401) None None None with
     | Ok r => r
     | Raise _ => junk_record
     end) = "invalid"
  /\ AegisLicense.license_type
       (match @AegisLicense._verify_and_update DigestScheme acme_odoo
                junk_record (t0 + 86400) (t0 + 86401) None None None with
        | Ok r => r
        | Raise _ => junk_record
        end) = VStr "perpetual".
Proof.
  pose proof (@verify_and_update_outcome DigestScheme acme_odoo junk_record
                (match @AegisLicense._verify_and_update DigestScheme acme_odoo
                         junk_record (t0 + 86400) (t0 + 86401) None None None
                 with
                 | Ok r => r
                 | Raise _ => junk_record
                 end)
                (t0 + 86400) (t0 + 86401) None None None
                ltac:(vm_compute; reflexivity))
    as (_ & _ & _ & u' & d' & Hc & Hv).
  vm_compute in Hc. injection Hc as <- <-.
  vm_compute in Hv. destruct Hv as (Hs & _ & Ht & _).
  split; [exact Hs | exact Ht].
Defined.

Lemma action_views_open_sound_witness :
  exists license_rec : AegisLicense.record,
    In license_rec [demo_record; junk_record]
    /\ AegisLicense.module_name license_rec = "payroll".
Proof.
  destruct (@action_views_open_sound DigestScheme acme_odoo
              [demo_record; junk_record]
              (match @AegisLicense.action_views_open DigestScheme acme_odoo
                       [demo_record; junk_record] (t0 + 86400) (t0 + 86401)
                       "payroll" None None None with
               | AegisLicense.Done (_, records') => records'
               | _ => []
               end)
              (t0 + 86400) (t0 + 86401) "payroll" None None None true
              ltac:(vm_compute; reflexivity))
    as (_ & _ & license_rec & _ & _ & _ & Hin & Hname & _).
  exists license_rec. split; assumption.
Defined.

Lemma action_views_open_issued_witness :
  exists r : AegisLicense.record,
    @AegisLicense.action_views_open DigestScheme acme_odoo
      [demo_record; junk_record] (t0 + 86400) (t0 + 86401)
      (product_name demo_payroll) None None None
    = AegisLicense.Done
        (true, AegisLicense.put [demo_record; junk_record]
                 (product_name demo_payroll) r)
    /\ AegisLicense.state r = "valid"
    /\ AegisLicense.last_error r = None
    /\ AegisLicense.last_verified_at r = Some (t0 + 86401)
    /\ AegisLicense.license_type r = VStr (kind demo_payroll)
    /\ AegisLicense.customer_name r = VStr (customer_name demo_payroll)
    /\ AegisLicense.allowed_versions r
       = VStr (Json.join "," (allowed_versions demo_payroll)).
Proof.
  apply (@action_views_open_issued DigestScheme acme_odoo acme_service t0
           (t0 + 86400) (t0 + 86401) demo_payroll demo_token
           [demo_record; junk_record] demo_record None None None
           (Some "db-1") (Some "acme.odoo.com")).
  - exact digest_scheme_verifies.
  - split; reflexivity.
  - vm_compute. reflexivity.
  - unfold t0. lia.
  - intros e [= <-]. unfold t0, Datetime.add_days, Datetime.seconds_per_day.
    lia.
  - reflexivity.
  - reflexivity.
  - reflexivity.
  - reflexivity.
  - reflexivity.
Defined.

(** ** The tally of the integration run *)

Module TallyFacts.

Lemma fold_report (run : list test_event) (r : TestResults.t) :
  let r' := fold_left report run r in
  TestResults.total r' = TestResults.total r + Z.of_nat (List.length run)
  /\ TestResults.failed r'
     = TestResults.failed r + Z.of_nat (List.length (failures run))
  /\ TestResults.passed r' + TestResults.failed r'
     = TestResults.passed r + TestResults.failed r
       + Z.of_nat (List.length run)
  /\ TestResults.errors r' = (TestResults.errors r ++ failures run)%list.
Proof.
  revert r. induction run as [|e run IH]; intros r.
  - cbn. rewrite app_nil_r. repeat split; lia.
  - cbn [fold_left]. specialize (IH (report r e)). cbv zeta in *.
    destruct IH as (H1 & H2 & H3 & H4).
    assert (Hf : failures (e :: run)
                 = (match e with
                    | Passes _ => []
                    | Fails n why => [(n, why)]
                    end ++ failures run)%list) by reflexivity.
    rewrite Hf. clear Hf.
    destruct e as [n|n why];
      cbn [report] in *; rewrite H4;
      cbn [TestResults.add_pass TestResults.add_fail
           TestResults.total TestResults.passed TestResults.failed
           TestResults.errors] in *;
      rewrite ?length_app; cbn [List.length app];
      repeat split; try lia;
      rewrite <- ?app_assoc; reflexivity.
Qed.
End TallyFacts.

(** X19.  The tally of a test run keeps count: after any sequence of
    reports the total is the number of reports and the sum of the passed
    and the failed, the failed are as many as the recorded errors, which
    are the failures in the order they came, and [summary] is [True]
    exactly when no test failed. *)
Theorem tally_keeps_count (run : list test_event) :
  TestResults.total (tally run) = Z.of_nat (List.length run)
  /\ TestResults.total (tally run)
     = TestResults.passed (tally run) + TestResults.failed (tally run)
  /\ TestResults.failed (tally run)
     = Z.of_nat (List.length (TestResults.errors (tally run)))
  /\ TestResults.errors (tally run) = failures run
  /\ (TestResults.summary (tally run) = true <-> failures run = []).
Proof.
  unfold tally.
  destruct (TallyFacts.fold_report run TestResults.init)
    as (H1 & H2 & H3 & H4).
  change (TestResults.total TestResults.init) with 0 in H1.
  change (TestResults.failed TestResults.init) with 0 in H2, H3.
  change (TestResults.passed TestResults.init) with 0 in H3.
  change (TestResults.errors TestResults.init ++ failures run)%list
    with (failures run) in H4.
  repeat split; try lia.
  - rewrite H4. lia.
  - exact H4.
  - unfold TestResults.summary. rewrite H2.
    destruct (failures run) as [|p l]; [reflexivity|].
    intros Hs. exfalso. revert Hs.
    destruct (Z.ltb_spec 0 (0 + Z.of_nat (List.length (p :: l))));
      [discriminate | cbn [List.length] in *; lia].
  - intros Hf. unfold TestResults.summary. rewrite H2, Hf. reflexivity.
Qed.

(** ** Where the endpoint and the client's verifier part ways *)

Module DivergenceFacts.
Import Pipeline.




Section WithKeys.
Context {E : Ed25519}.

End WithKeys.
End DivergenceFacts.

Section Divergence.
Context {E : Ed25519} {U : Uuid}.
Import Pipeline Licenses.


(** X21.  Revoking one license leaves the others alone: the endpoint's
    answer for a token whose identifier reads as another one is what it
    was before the revocation. *)
Theorem revocation_spares_the_others (svc : LicenseService.t)
        (pk : PublicKey) (id : string) (rd : Schemas.LicenseRevoke)
        (t_revoke now : Z) (db db' : Database) (answer : string)
        (req : Schemas.LicenseValidationRequest) (u : UUID) :
  uuid_laws U ->
  revoke_license id rd t_revoke db = (Returned answer, db') ->
  uuid_of_str id = Some u ->
  uuid_of_value (get (claims_of (Schemas.token req)) "jti") <> Ok u ->
  validate_license svc pk db' now req = validate_license svc pk db now req.
Proof.
  intros [Heqb _] Hrev Hid Hother.
  destruct (RevokeFacts.revoke_license_returned _ _ _ _ _ _ Hrev)
    as (u0 & old & Hu0 & _ & _ & _ & _ & Hrows & _).
  rewrite Hid in Hu0. injection Hu0 as <-.
  assert (Hsame : forall u', u' <> u ->
            scalar_one_or_none db' u' = scalar_one_or_none db u').
  { intros u' Hne. unfold scalar_one_or_none.
    rewrite Hrows, RevokeFacts.find_rows_after.
    destruct (find (fun l => uuid_eqb (Models.id l) u') (licenses db))
      as [l|] eqn:El; [|reflexivity].
    cbn [option_map]. apply find_some in El as [_ El]. apply Heqb in El.
    destruct (uuid_eqb (Models.id l) u) eqn:Elu; [|reflexivity].
    apply Heqb in Elu. congruence. }
  unfold validate_license.
  destruct (LicenseService.verify_license svc pk (Schemas.token req))
    as [p|] eqn:Ev; [|reflexivity].
  apply verify_license_iff in Ev. destruct Ev as (_ & _ & _ & ->).
  unfold validate_payload. cbv zeta.
  set (p := claims_of (Schemas.token req)) in *.
  destruct (value_get (get_default p "customer" (VDict [])) "name")
    as [cn|]; cbn [bind]; [|reflexivity].
  destruct (value_get (get_default p "module" (VDict [])) "technical_name")
    as [tn|]; cbn [bind]; [|reflexivity].
  destruct (negb (eq_str tn (Schemas.module_name req))); [reflexivity|].
  destruct (value_get_default (get_default p "module" (VDict []))
              "allowed_major_versions" (VList [])) as [av|]; cbn [bind];
    [|reflexivity].
  destruct (str_in (Schemas.odoo_version req) av) as [[|]|]; cbn [bind negb];
    try reflexivity.
  destruct (if truthy (get p "exp")
            then ts <- fromtimestamp (get p "exp") ;; Ok (Some ts)
            else Ok None) as [exp_dt|]; cbn [bind]; [|reflexivity].
  destruct (match exp_dt with Some ts => ts <=? now | None => false end);
    [reflexivity|].
  destruct (truthy (get p "instance_fingerprint")
            && (negb (truthy_str (Schemas.instance_db_uuid req))
                || negb (truthy_str (Schemas.instance_domain req))));
    [reflexivity|].
  destruct (truthy (get p "instance_fingerprint")
            && negb (eq_str (get p "instance_fingerprint")
                       (generate_instance_fingerprint
                          (LicenseVerifier.the_str
                             (Schemas.instance_db_uuid req))
                          (LicenseVerifier.the_str
                             (Schemas.instance_domain req)))));
    [reflexivity|].
  destruct (uuid_of_value (get p "jti")) as [u'|e] eqn:Eu; cbn [bind];
    [|reflexivity].
  rewrite (Hsame u'); [reflexivity | congruence].
Qed.
End Divergence.


Lemma revocation_spares_the_others_witness :
  Licenses.validate_license acme_service "issuer-key"
    (snd (Licenses.revoke_license (license_id demo_payroll) fraud (t0 + 60)
            demo_db))
    t0 policy_request
  = Licenses.validate_license acme_service "issuer-key" demo_db t0
      policy_request.
Proof.
  apply (@revocation_spares_the_others DigestScheme TextUuid acme_service
           "issuer-key" (license_id demo_payroll) fraud (t0 + 60) t0 demo_db
           _ (license_id demo_payroll) policy_request
           (license_id demo_payroll)).
  - exact uuid_laws_text.
  - reflexivity.
  - reflexivity.
  - intros H. vm_compute in H. discriminate H.
Defined.

Section Defaults.
Context {E : Ed25519}.

(** X22.  The defaults of the proof of concept line up.  A token made by
    the issuer of poc/issue_license.py, whose issuer name is fixed, is
    accepted by the verifier of poc/verify_license.py built with the
    public half of the key and no issuer argument, from the issue time to
    the expiry, for the token's module, one of its versions and a context
    that meets its binding; and the client module's verifier is that very
    verifier when it ships the key and the parameter aegis.issuer is not
    set. *)
Theorem poc_defaults_agree (key : PrivateKey) (kid : string)
        (t_issue now : Z) (prm : params) (tok v : string)
        (u d : option string) :
  sign_verifies E ->
  LicenseIssuer.issue_license (LicenseIssuer.init key kid) t_issue
    (license_id prm) (customer_id prm) (customer_name prm) (product_name prm)
    (allowed_versions prm) (kind prm) (duration prm)
    (instance_fingerprint prm) = Ok tok ->
  0 <= t_issue <= now ->
  (forall e, expiry_of (kind prm) t_issue (duration prm) = Some e ->
             now < e) ->
  mem v (allowed_versions prm) = true ->
  binding_satisfied prm u d = true ->
  LicenseVerifier.verify_license (PocVerifier.init (public_key key) None) now
    tok (product_name prm) v u d
  = Ok (claims_for "https://license.biz4a.com" t_issue prm)
  /\ forall O : Odoo,
       get_param "aegis.issuer" = None ->
       shipped_key = public_key key ->
       odoo_verifier = PocVerifier.init (public_key key) None.
Proof.
  intros HE Hissue Hnow Hexp Hv Hb. split.
  - set (svc := {| LicenseService.private_key := key;
                   LicenseService.key_id := kid;
                   LicenseService.issuer := "https://license.biz4a.com" |}).
    apply (ClientFacts.accepted svc (PocVerifier.init (public_key key) None)
             t_issue now prm tok v u d HE); try assumption.
    all: first [ split; reflexivity | exact Hissue ].
  - intros O Hparam Hkey. unfold odoo_verifier, PocVerifier.init,
      AegisLicense._get_expected_issuer.
    now rewrite Hparam, Hkey.
Qed.
End Defaults.

Lemma poc_defaults_agree_witness :
  LicenseVerifier.verify_license
    (@PocVerifier.init DigestScheme (@public_key DigestScheme "issuer-key")
       None)
    (t0 + 86400) demo_token (product_name demo_payroll) "18" None None
  = Ok (claims_for "https://license.biz4a.com" t0 demo_payroll)
  /\ forall O : @Odoo DigestScheme,
       @get_param DigestScheme O "aegis.issuer" = None ->
       @shipped_key DigestScheme O = @public_key DigestScheme "issuer-key" ->
       @odoo_verifier DigestScheme O
       = @PocVerifier.init DigestScheme (@public_key DigestScheme "issuer-key")
           None.
Proof.
  apply (@poc_defaults_agree DigestScheme "issuer-key" "aegis-2026-01" t0
           (t0 + 86400) demo_payroll demo_token "18" None None).
  - exact digest_scheme_verifies.
  - vm_compute. reflexivity.
  - unfold t0. lia.
  - intros e [= <-]. unfold t0, Datetime.add_days, Datetime.seconds_per_day.
    lia.
  - reflexivity.
  - reflexivity.
Defined.

(** ** Timestamps that [datetime] cannot hold *)

Section Inspect.
Context {E : Ed25519}.

(** X23.  [get_license_info] gives up on a token whose issue time or
    expiry lies outside the years 1 to 9999: whatever else the claims say
    and whoever signed them, the answer is the error entry alone. *)
Theorem get_license_info_out_of_range (self : LicenseVerifier.t)
        (claims : dict) (key : PrivateKey) (kid : string) (ts : Z) :
  wf (VDict claims) = true ->
  get claims "iat" = VInt ts \/ get claims "exp" = VInt ts ->
  in_datetime_range ts = false ->
  LicenseVerifier.get_license_info self (PyJWT.encode claims key kid)
  = [("error", VStr "Failed to decode license")].
Proof.
  intros Hwf Hts Hrange. unfold LicenseVerifier.get_license_info.
  rewrite PyJWTFacts.decode_unverified_encode by exact Hwf. cbn [bind].
  assert (Hbad : LicenseVerifier._format_timestamp (VInt ts)
                 = Raise ValueError).
  { unfold LicenseVerifier._format_timestamp, Datetime.isoformat_utc.
    cbn [as_number bind]. unfold in_datetime_range in Hrange.
    now rewrite Hrange. }
  destruct Hts as [Hiat | Hexp].
  - rewrite Hiat, Hbad. reflexivity.
  - rewrite Hexp, Hbad.
    destruct (LicenseVerifier._format_timestamp (get claims "iat"));
      reflexivity.
Qed.
End Inspect.

Lemma get_license_info_out_of_range_witness :
  LicenseVerifier.get_license_info acme_verifier
    (@PyJWT.encode DigestScheme
       [("jti", VStr "id-9"); ("iss", VStr "https://license.biz4a.com");
        ("iat", VInt 1700000000); ("exp", VInt 253402300800)]
       "issuer-key" "aegis-2026-01")
  = [("error", VStr "Failed to decode license")].
Proof.
  apply (@get_license_info_out_of_range DigestScheme acme_verifier _
           "issuer-key" "aegis-2026-01" 253402300800).
  - reflexivity.
  - right. reflexivity.
  - reflexivity.
Defined.
